(** * Step-DeepResearch: the agent orchestration core

    A shallow embedding of [agent/model_provider.py], [agent/tools.py]
    and [agent/react_agent.py], and the properties of the ReAct loop,
    the streamed tool-call reassembly and the tool registry; then the
    single-shot completion, the todo tool, and the report sections and
    the step callback of [agent/runner.py], with theirs.

    Conventions.
    - A Python [str] is a Rocq [string]; a character stands for the code
      point of the same number, so the strings covered are those whose
      code points are below 256.
    - A Python [int] is a [Z].
    - A Python [dict] is an association list in insertion order.
    - Code that talks to the outside (the model backend, the tools, the
      step callback, the clock) is a parameter acting on a [World]. *)

From Stdlib Require Import String Ascii List ZArith Lia Bool Arith.
Import ListNotations.
Open Scope string_scope.

Set Implicit Arguments.
Set Warnings "-register-all".

(* ===================================================================== *)
(** * Python values and built-ins                                         *)
(* ===================================================================== *)

Module Py.

(** ** Strings *)

(** [len(s)]. *)
Definition len (s : string) : Z := Z.of_nat (String.length s).

(** [s.startswith(p)]. *)
Fixpoint startswith (p s : string) : bool :=
  match p, s with
  | EmptyString, _ => true
  | String a p', String b s' => Ascii.eqb a b && startswith p' s'
  | String _ _, EmptyString => false
  end.

(** [s.find(sub)] from the left: the lowest index at which [sub] occurs. *)
Fixpoint find (sub s : string) : option nat :=
  if startswith sub s then Some 0%nat
  else match s with
       | EmptyString => None
       | String _ s' => option_map S (find sub s')
       end.

(** [sub in s]. *)
Definition contains (sub s : string) : bool :=
  match find sub s with Some _ => true | None => false end.

(** [s[a:b]] for indices [0 <= a] and [0 <= b]; the slice is empty when
    [b <= a], and is cut at the end of [s]. *)
Definition slice (a b : nat) (s : string) : string :=
  String.substring a (b - a) s.

(** [str.isspace] on one character, for code points below 256:
    U+0009..U+000D, U+001C..U+0020, U+0085, U+00A0. *)
Definition isspace (c : ascii) : bool :=
  let n := nat_of_ascii c in
  (((9 <=? n) && (n <=? 13)) || ((28 <=? n) && (n <=? 32))
   || (n =? 133) || (n =? 160))%nat.

(** [s.lstrip()]. *)
Fixpoint lstrip (s : string) : string :=
  match s with
  | EmptyString => EmptyString
  | String c s' => if isspace c then lstrip s' else s
  end.

(** [s.rstrip()]. *)
Fixpoint rstrip (s : string) : string :=
  match s with
  | EmptyString => EmptyString
  | String c s' =>
      match rstrip s' with
      | EmptyString => if isspace c then EmptyString else String c EmptyString
      | r => String c r
      end
  end.

(** [s.strip()]. *)
Definition strip (s : string) : string := rstrip (lstrip s).

(** [str.lower] on one character, for code points below 256: the letters
    A..Z and the capital letters U+00C0..U+00DE other than U+00D7. *)
Definition lower_char (c : ascii) : ascii :=
  let n := nat_of_ascii c in
  if (((65 <=? n) && (n <=? 90))
      || ((192 <=? n) && (n <=? 222) && negb (n =? 215)))%nat
  then ascii_of_nat (n + 32) else c.

(** [s.lower()]. *)
Fixpoint lower (s : string) : string :=
  match s with
  | EmptyString => EmptyString
  | String c s' => String (lower_char c) (lower s')
  end.

(** [sep.join(l)]. *)
Fixpoint join (sep : string) (l : list string) : string :=
  match l with
  | [] => ""
  | [x] => x
  | x :: rest => x ++ sep ++ join sep rest
  end.

(** ** Integers as decimal text: [str(n)] for an [int] *)

Definition digit_char (d : nat) : ascii := ascii_of_nat (48 + d).

Fixpoint pos_digits (fuel : nat) (n : N) (acc : string) : string :=
  match fuel with
  | O => acc
  | S fuel' =>
      let acc' := String (digit_char (N.to_nat (N.modulo n 10))) acc in
      if N.ltb n 10 then acc' else pos_digits fuel' (N.div n 10) acc'
  end.

Definition str_of_N (n : N) : string := pos_digits (S (N.to_nat (N.log2 n))) n "".

Definition str_of_int (z : Z) : string :=
  match z with
  | Z0 => "0"
  | Zpos p => str_of_N (Npos p)
  | Zneg p => "-" ++ str_of_N (Npos p)
  end.

(** ** Values

    The values that tool calls, tool arguments and tool outputs are made
    of: [None], [bool], [int], [str], [list] and [dict] with [str] keys. *)

Inductive value : Type :=
| PNone
| PBool (b : bool)
| PInt (z : Z)
| PStr (s : string)
| PList (l : list value)
| PDict (d : list (string * value)).

Definition dict := list (string * value).

(** [bool(v)]: the truth value Python gives [v] in [if v] and [v or d]. *)
Definition truthy (v : value) : bool :=
  match v with
  | PNone => false
  | PBool b => b
  | PInt z => negb (Z.eqb z 0)
  | PStr s => negb (String.eqb s "")
  | PList l => match l with [] => false | _ => true end
  | PDict d => match d with [] => false | _ => true end
  end.

(** [k in d] and [d.get(k)] on an association list. *)
Fixpoint lookup {A : Type} (k : string) (d : list (string * A)) : option A :=
  match d with
  | [] => None
  | (k', v) :: d' => if String.eqb k k' then Some v else lookup k d'
  end.

(** [d[k] = v]: an existing key keeps its place, a new key goes last. *)
Fixpoint store {A : Type} (k : string) (v : A) (d : list (string * A))
  : list (string * A) :=
  match d with
  | [] => [(k, v)]
  | (k', v') :: d' =>
      if String.eqb k k' then (k, v) :: d' else (k', v') :: store k v d'
  end.

(** [d.get(k, default)]. *)
Definition get (d : dict) (k : string) (default : value) : value :=
  match lookup k d with Some v => v | None => default end.

(** [list(d.keys())]. *)
Definition keys {A : Type} (d : list (string * A)) : list string := map fst d.

(** [isinstance(v, dict)] and [isinstance(v, list)]. *)
Definition is_dict (v : value) : bool :=
  match v with PDict _ => true | _ => false end.
Definition is_list (v : value) : bool :=
  match v with PList _ => true | _ => false end.

(** [v == s] for a string literal [s]. *)
Definition eq_str (v : value) (s : string) : bool :=
  match v with PStr s' => String.eqb s' s | _ => false end.

(** [l[-n:]]: the last [n] elements. *)
Definition last_n {A : Type} (n : nat) (l : list A) : list A :=
  skipn (List.length l - n) l.

(** ** Exceptions *)

Inductive exn_class : Type :=
| KeyError
| TypeError
| AttributeError
| JSONDecodeError                 (* a subclass of ValueError *)
| OtherException (name : string)  (* any other subclass of Exception *)
| NotAnException (name : string). (* BaseException only: CancelledError,
                                     KeyboardInterrupt, SystemExit *)

Record exn : Type := Exn { exn_class_of : exn_class; exn_str : string }.

(** [isinstance(e, Exception)]: what [except Exception] catches. *)
Definition is_Exception (e : exn) : bool :=
  match exn_class_of e with NotAnException _ => false | _ => true end.

(** [isinstance(e, json.JSONDecodeError)]. *)
Definition is_JSONDecodeError (e : exn) : bool :=
  match exn_class_of e with JSONDecodeError => true | _ => false end.

(** The outcome of evaluating an expression or a call. *)
Inductive completion (A : Type) : Type :=
| Returned (a : A)
| Raised (e : exn).
Arguments Raised {A} e.

(** [repr(k)] for the key of a [KeyError], for the plain keys used here. *)
Definition key_repr (k : string) : string := "'" ++ k ++ "'".

(** [type(v).__name__]. *)
Definition type_name (v : value) : string :=
  match v with
  | PNone => "NoneType" | PBool _ => "bool" | PInt _ => "int"
  | PStr _ => "str" | PList _ => "list" | PDict _ => "dict"
  end.

(** [v[k]] for a string key [k]: a lookup on a [dict] ([KeyError] when
    the key is absent), a [TypeError] on every other value. *)
Definition getitem (v : value) (k : string) : completion value :=
  match v with
  | PDict d =>
      match lookup k d with
      | Some x => Returned x
      | None => Raised (Exn KeyError (key_repr k))
      end
  | PStr _ => Raised (Exn TypeError "string indices must be integers, not 'str'")
  | PList _ => Raised (Exn TypeError "list indices must be integers or slices, not str")
  | _ => Raised (Exn TypeError ("'" ++ type_name v ++ "' object is not subscriptable"))
  end.

(** ** [json.dumps] with its default options

    Separators [", "] and [": "], [ensure_ascii=True]: inside a string
    every character outside U+0020..U+007E, the quote and the backslash
    are escaped. *)

Definition hex_digit (n : nat) : ascii :=
  if (n <? 10)%nat then ascii_of_nat (48 + n) else ascii_of_nat (87 + n).

Definition escape_char (c : ascii) : string :=
  let n := nat_of_ascii c in
  if (n =? 34)%nat then "\" ++ String c ""
  else if (n =? 92)%nat then "\\"
  else if (n =? 10)%nat then "\n"
  else if (n =? 13)%nat then "\r"
  else if (n =? 9)%nat then "\t"
  else if (n =? 8)%nat then "\b"
  else if (n =? 12)%nat then "\f"
  else if ((32 <=? n) && (n <=? 126))%nat then String c ""
  else "\u00" ++ String (hex_digit (n / 16)) (String (hex_digit (n mod 16)) "").

Fixpoint escape_body (s : string) : string :=
  match s with
  | EmptyString => ""
  | String c s' => escape_char c ++ escape_body s'
  end.

Definition quote : string := String (ascii_of_nat 34) "".

Definition encode_basestring_ascii (s : string) : string :=
  quote ++ escape_body s ++ quote.

Fixpoint json_dumps (v : value) : string :=
  match v with
  | PNone => "null"
  | PBool true => "true"
  | PBool false => "false"
  | PInt z => str_of_int z
  | PStr s => encode_basestring_ascii s
  | PList l =>
      "[" ++ join ", " ((fix items (l : list value) : list string :=
                           match l with
                           | [] => []
                           | x :: l' => json_dumps x :: items l'
                           end) l) ++ "]"
  | PDict d =>
      "{" ++ join ", " ((fix items (d : list (string * value)) : list string :=
                           match d with
                           | [] => []
                           | (k, x) :: d' =>
                               (encode_basestring_ascii k ++ ": " ++ json_dumps x)
                                 :: items d'
                           end) d) ++ "}"
  end.

(** ** [repr] and [str] of a value

    [str(v)] for a value that is not a [str] is [repr(v)]. A [str] is
    shown between single quotes, or between double quotes when it holds
    a single quote and no double quote; the quote in use and the
    backslash are escaped, so are tab, line feed and carriage return,
    and every other character that is not printable is written as its
    code in hexadecimal. Below 256 the printable characters are
    U+0020..U+007E and U+00A1..U+00FF other than U+00AD. *)

Definition printable (c : ascii) : bool :=
  let n := nat_of_ascii c in
  (((32 <=? n) && (n <=? 126)) || ((161 <=? n) && negb (n =? 173)))%nat.

Fixpoint has_char (c : ascii) (s : string) : bool :=
  match s with
  | EmptyString => false
  | String d s' => Ascii.eqb c d || has_char c s'
  end.

Definition single_quote : ascii := ascii_of_nat 39.
Definition double_quote : ascii := ascii_of_nat 34.
Definition backslash : ascii := ascii_of_nat 92.

Definition repr_char (q c : ascii) : string :=
  let n := nat_of_ascii c in
  if Ascii.eqb c q || Ascii.eqb c backslash then String backslash (String c "")
  else if (n =? 9)%nat then "\t"
  else if (n =? 10)%nat then "\n"
  else if (n =? 13)%nat then "\r"
  else if printable c then String c ""
  else "\x" ++ String (hex_digit (n / 16)) (String (hex_digit (n mod 16)) "").

Fixpoint repr_body (q : ascii) (s : string) : string :=
  match s with
  | EmptyString => ""
  | String c s' => repr_char q c ++ repr_body q s'
  end.

Definition repr_str (s : string) : string :=
  let q := if has_char single_quote s && negb (has_char double_quote s)
           then double_quote else single_quote in
  String q (repr_body q s ++ String q "").

Fixpoint py_repr (v : value) : string :=
  match v with
  | PNone => "None"
  | PBool true => "True"
  | PBool false => "False"
  | PInt z => str_of_int z
  | PStr s => repr_str s
  | PList l =>
      "[" ++ join ", " ((fix items (l : list value) : list string :=
                           match l with
                           | [] => []
                           | x :: l' => py_repr x :: items l'
                           end) l) ++ "]"
  | PDict d =>
      "{" ++ join ", " ((fix items (d : list (string * value)) : list string :=
                           match d with
                           | [] => []
                           | (k, x) :: d' =>
                               (repr_str k ++ ": " ++ py_repr x) :: items d'
                           end) d) ++ "}"
  end.

End Py.

(* ===================================================================== *)
(** * agent/model_provider.py                                             *)
(* ===================================================================== *)

Module Provider.
Import Py.

(** [ChatMessage]. [tool_call_id] holds whatever the loop read from the
    tool call's ["id"] entry; [PNone] is the field's default. *)
Record ChatMessage : Type := {
  role : string;
  content : option string;
  tool_calls : option (list value);
  tool_call_id : value;
  name : option string
}.

(** [bool(s)] for an [Optional[str]]. *)
Definition str_truthy (o : option string) : bool :=
  match o with Some s => negb (String.eqb s "") | None => false end.

(** [bool(l)] for an [Optional[list]]. *)
Definition list_truthy {A : Type} (o : option (list A)) : bool :=
  match o with Some (_ :: _) => true | _ => false end.

(** [ChatMessage.to_dict]. *)
Definition to_dict (m : ChatMessage) : dict :=
  ([("role", PStr (role m))]
   ++ match content m with Some c => [("content", PStr c)] | None => [] end
   ++ (if list_truthy (tool_calls m)
       then match tool_calls m with
            | Some l => [("tool_calls", PList l)]
            | None => []
            end
       else [])
   ++ (if truthy (tool_call_id m) then [("tool_call_id", tool_call_id m)] else [])
   ++ (if str_truthy (name m)
       then match name m with Some n => [("name", PStr n)] | None => [] end
       else []))%list.

(** [ModelResponse]. *)
Record ModelResponse : Type := {
  message : ChatMessage;
  finish_reason : string;
  usage : list (string * Z)
}.

(** [ModelResponse.has_tool_calls]. *)
Definition has_tool_calls (r : ModelResponse) : bool :=
  list_truthy (tool_calls (message r)).

(** ** The chunks of a streamed completion, as the client library
    delivers them *)

Record FunctionDelta : Type := {
  fn_name : option string;
  fn_arguments : option string
}.

Record ToolCallDelta : Type := {
  tc_index : Z;
  tc_id : option string;
  tc_function : option FunctionDelta
}.

Record Delta : Type := {
  delta_content : option string;
  delta_tool_calls : option (list ToolCallDelta)
}.

Record Choice : Type := {
  choice_delta : Delta;
  choice_finish_reason : option string
}.

Record Chunk : Type := { chunk_choices : list Choice }.

(** ** [OpenAIProvider.chat_completion_stream]

    One entry of [accumulated_tool_calls]: the dict
    [{"id", "type": "function", "function": {"name", "arguments"}}].
    The name is [None] when the fragment that opened the entry carried a
    function without a name. *)
Record PartialCall : Type := {
  pc_id : string;
  pc_name : option string;
  pc_arguments : string
}.

Definition call_to_value (c : PartialCall) : value :=
  PDict [("id", PStr (pc_id c));
         ("type", PStr "function");
         ("function",
          PDict [("name", match pc_name c with Some n => PStr n | None => PNone end);
                 ("arguments", PStr (pc_arguments c))])].

(** [idx in d], [d[idx]] and an in-place change of [d[idx]] for the
    [dict[int, dict]] of partial calls. *)
Fixpoint zlookup {A : Type} (i : Z) (d : list (Z * A)) : option A :=
  match d with
  | [] => None
  | (j, v) :: d' => if Z.eqb i j then Some v else zlookup i d'
  end.

Fixpoint zalter {A : Type} (f : A -> A) (i : Z) (d : list (Z * A)) : list (Z * A) :=
  match d with
  | [] => []
  | (j, v) :: d' => if Z.eqb i j then (j, f v) :: d' else (j, v) :: zalter f i d'
  end.

Definition set_id (s : string) (c : PartialCall) : PartialCall :=
  {| pc_id := s; pc_name := pc_name c; pc_arguments := pc_arguments c |}.
Definition set_name (n : string) (c : PartialCall) : PartialCall :=
  {| pc_id := pc_id c; pc_name := Some n; pc_arguments := pc_arguments c |}.
Definition add_arguments (a : string) (c : PartialCall) : PartialCall :=
  {| pc_id := pc_id c; pc_name := pc_name c; pc_arguments := pc_arguments c ++ a |}.

(** The entry a fragment opens:
    [{"id": tc.id or "", "function": {"name": tc.function.name if
    tc.function else "", "arguments": ""}}]. *)
Definition fresh_call (tc : ToolCallDelta) : PartialCall :=
  {| pc_id := if str_truthy (tc_id tc)
              then match tc_id tc with Some s => s | None => "" end
              else "";
     pc_name := match tc_function tc with
                | Some f => fn_name f
                | None => Some ""
                end;
     pc_arguments := "" |}.

(** The body of [for tc in delta.tool_calls]. *)
Definition accumulate_fragment (acc : list (Z * PartialCall)) (tc : ToolCallDelta)
  : list (Z * PartialCall) :=
  let idx := tc_index tc in
  let acc1 := match zlookup idx acc with
              | Some _ => acc
              | None => (acc ++ [(idx, fresh_call tc)])%list
              end in
  let acc2 := match tc_id tc with
              | Some s => if str_truthy (Some s) then zalter (set_id s) idx acc1 else acc1
              | None => acc1
              end in
  match tc_function tc with
  | Some f =>
      let acc3 := match fn_name f with
                  | Some n => if str_truthy (Some n) then zalter (set_name n) idx acc2 else acc2
                  | None => acc2
                  end in
      match fn_arguments f with
      | Some a => if str_truthy (Some a) then zalter (add_arguments a) idx acc3 else acc3
      | None => acc3
      end
  | None => acc2
  end.

(** The state of the generator between two chunks. *)
Record StreamState : Type := {
  accumulated_content : string;
  accumulated_tool_calls : list (Z * PartialCall)
}.

Definition stream_start : StreamState :=
  {| accumulated_content := ""; accumulated_tool_calls := [] |}.

(** The [tool_calls] of a yielded response:
    [list(accumulated_tool_calls.values()) if accumulated_tool_calls
    else None]. The list is new at every yield; the dicts in it are the
    accumulator's own, so a consumer that keeps an earlier response sees
    its calls grow as later fragments arrive. A response is modelled by
    the value it has when it is yielded. *)
Definition calls_value (calls : list (Z * PartialCall)) : option (list value) :=
  match calls with
  | [] => None
  | _ => Some (map (fun p => call_to_value (snd p)) calls)
  end.

(** One pass through the body of [async for chunk in stream]: the new
    state and the response yielded, if any ([continue] yields none). *)
Definition on_chunk (st : StreamState) (chunk : Chunk)
  : StreamState * option ModelResponse :=
  match chunk_choices chunk with
  | [] => (st, None)
  | choice :: _ =>
      let delta := choice_delta choice in
      let content' :=
        match delta_content delta with
        | Some c => if str_truthy (Some c)
                    then accumulated_content st ++ c
                    else accumulated_content st
        | None => accumulated_content st
        end in
      let calls' :=
        if list_truthy (delta_tool_calls delta)
        then match delta_tool_calls delta with
             | Some tcs => fold_left accumulate_fragment tcs (accumulated_tool_calls st)
             | None => accumulated_tool_calls st
             end
        else accumulated_tool_calls st in
      let tool_calls_list := calls_value calls' in
      ({| accumulated_content := content'; accumulated_tool_calls := calls' |},
       Some {| message := {| role := "assistant";
                             content := if String.eqb content' "" then None
                                        else Some content';
                             tool_calls := tool_calls_list;
                             tool_call_id := PNone;
                             name := None |};
               finish_reason := if str_truthy (choice_finish_reason choice)
                                then match choice_finish_reason choice with
                                     | Some r => r
                                     | None => "null"
                                     end
                                else "null";
               usage := [] |})
  end.

(** The responses yielded from a given state on. *)
Fixpoint stream_from (st : StreamState) (chunks : list Chunk) : list ModelResponse :=
  match chunks with
  | [] => []
  | chunk :: rest =>
      match on_chunk st chunk with
      | (st', Some r) => r :: stream_from st' rest
      | (st', None) => stream_from st' rest
      end
  end.

(** The state the generator is in once the chunks are consumed. *)
Definition stream_state (st : StreamState) (chunks : list Chunk) : StreamState :=
  fold_left (fun s c => fst (on_chunk s c)) chunks st.

(** [chat_completion_stream]: everything it yields for a stream that
    delivers [chunks]. A transport error ends the stream after some
    prefix of the chunks; what was yielded until then is the result for
    that prefix. *)
Definition chat_completion_stream (chunks : list Chunk) : list ModelResponse :=
  stream_from stream_start chunks.

(** The last element of a list, if it has one. *)
Fixpoint last_of {A : Type} (l : list A) : option A :=
  match l with
  | [] => None
  | [x] => Some x
  | _ :: tl => last_of tl
  end.

(** The partial calls held when the stream ends. *)
Definition reassembled_calls (chunks : list Chunk) : list (Z * PartialCall) :=
  accumulated_tool_calls (stream_state stream_start chunks).

(** What one fragment does to the entry of its index. *)
Definition merge (tc : ToolCallDelta) (c : PartialCall) : PartialCall :=
  let c1 := match tc_id tc with
            | Some s => if String.eqb s "" then c else set_id s c
            | None => c
            end in
  match tc_function tc with
  | Some f =>
      let c2 := match fn_name f with
                | Some n => if String.eqb n "" then c1 else set_name n c1
                | None => c1
                end in
      match fn_arguments f with
      | Some a => if String.eqb a "" then c2 else add_arguments a c2
      | None => c2
      end
  | None => c1
  end.

Definition or_fresh (tc : ToolCallDelta) (o : option PartialCall) : PartialCall :=
  match o with Some c => c | None => fresh_call tc end.

(** *** The fragments, in the words of the specification *)

(** All tool-call fragments of a stream, in arrival order. *)
Definition fragments (chunks : list Chunk) : list ToolCallDelta :=
  flat_map (fun chunk =>
              match chunk_choices chunk with
              | [] => []
              | choice :: _ =>
                  match delta_tool_calls (choice_delta choice) with
                  | Some tcs => tcs
                  | None => []
                  end
              end) chunks.

(** The fragments carrying a given stream index. *)
Definition fragments_at (i : Z) (frags : list ToolCallDelta) : list ToolCallDelta :=
  filter (fun tc => Z.eqb (tc_index tc) i) frags.

(** The non-empty names, ids and argument texts that fragments supply. *)
Definition names_supplied (frags : list ToolCallDelta) : list string :=
  flat_map (fun tc => match tc_function tc with
                      | Some f => match fn_name f with
                                  | Some n => if String.eqb n "" then [] else [n]
                                  | None => []
                                  end
                      | None => []
                      end) frags.

Definition ids_supplied (frags : list ToolCallDelta) : list string :=
  flat_map (fun tc => match tc_id tc with
                      | Some s => if String.eqb s "" then [] else [s]
                      | None => []
                      end) frags.

Definition argument_texts (frags : list ToolCallDelta) : list string :=
  flat_map (fun tc => match tc_function tc with
                      | Some f => match fn_arguments f with
                                  | Some a => [a]
                                  | None => []
                                  end
                      | None => []
                      end) frags.

(** The concatenation of texts, in the order of the list. *)
Definition concat_texts (l : list string) : string :=
  fold_right String.append "" l.

(** The call described by the fragments of one index: latest id and
    name supplied, all argument texts in arrival order. *)
Definition call_of_fragments (frags : list ToolCallDelta) : option PartialCall :=
  match frags with
  | [] => None
  | tc0 :: _ =>
      Some {| pc_id := List.last (ids_supplied frags) "";
              pc_name := List.last (map Some (names_supplied frags))
                                   (pc_name (fresh_call tc0));
              pc_arguments := concat_texts (argument_texts frags) |}
  end.

(** The order on yielded contents: [None] (no text yet) is below
    everything, and a text is below its extensions. *)
Definition content_le (a b : option string) : Prop :=
  match a, b with
  | None, _ => True
  | Some s, Some t => exists u, t = s ++ u
  | Some _, None => False
  end.

(** A sequence in which every element is [R]-below its successor. *)
Fixpoint chain {A : Type} (R : A -> A -> Prop) (l : list A) : Prop :=
  match l with
  | a :: (b :: _) as tl => R a b /\ chain R tl
  | _ => True
  end.

(** C4 as the specification words it: the name is the one supplied by
    the first fragment of the index that supplies one, whatever arrives
    later, and the arguments are the argument texts of the index put
    together in arrival order. *)
Definition first_name_is_kept : Prop :=
  forall (chunks : list Chunk) (i : Z) (c : PartialCall) (n : string)
         (later : list string),
    zlookup i (reassembled_calls chunks) = Some c ->
    names_supplied (fragments_at i (fragments chunks)) = n :: later ->
    pc_name c = Some n
    /\ pc_arguments c
       = concat_texts (argument_texts (fragments_at i (fragments chunks))).

(** A stream whose two fragments of index 0 both carry a name. *)
Definition renamed_stream : list Chunk :=
  let frag n a := {| tc_index := 0; tc_id := None;
                     tc_function := Some {| fn_name := Some n;
                                            fn_arguments := Some a |} |} in
  let chunk tc := {| chunk_choices :=
                       [{| choice_delta := {| delta_content := None;
                                              delta_tool_calls := Some [tc] |};
                           choice_finish_reason := None |}] |} in
  [chunk (frag "web_search" "{"); chunk (frag "web_browse" "}")].

(** A stream of three chunks: text, then one tool call in two
    fragments. *)
Definition three_chunks : list Chunk :=
  let chunk c tcs := {| chunk_choices :=
                          [{| choice_delta := {| delta_content := c;
                                                 delta_tool_calls := tcs |};
                              choice_finish_reason := None |}] |} in
  [chunk (Some "Let me ") None;
   chunk (Some "search.")
     (Some [{| tc_index := 0; tc_id := Some "call_1";
               tc_function := Some {| fn_name := Some "web_search";
                                      fn_arguments := Some "{" |} |}]);
   {| chunk_choices := [] |};
   chunk None
     (Some [{| tc_index := 0; tc_id := None;
               tc_function := Some {| fn_name := None;
                                      fn_arguments := Some "}" |} |}])].

(** The content a response yielded in state [st] carries. *)
Definition text_of (st : StreamState) : option string :=
  if String.eqb (accumulated_content st) "" then None
  else Some (accumulated_content st).

End Provider.

(* ===================================================================== *)
(** * agent/tools.py                                                      *)
(* ===================================================================== *)

Module Tools.
Import Py.

(** [ToolSchema] and [ToolSchema.to_openai_format]. *)
Record ToolSchema : Type := {
  schema_name : string;
  schema_description : string;
  schema_parameters : value
}.

Definition to_openai_format (s : ToolSchema) : value :=
  PDict [("type", PStr "function");
         ("function", PDict [("name", PStr (schema_name s));
                             ("description", PStr (schema_description s));
                             ("parameters", schema_parameters s)])].

(** [ToolResult]; [error] defaults to [None], [metadata] to [{}]. *)
Record ToolResult : Type := {
  success : bool;
  output : value;
  error : option string;
  metadata : dict
}.

(** The tool instances a [ToolSet] registers, with their constructor
    arguments. *)
Inductive Tool : Type :=
| WebSearchTool
| WebBrowseTool
| BatchWebSurferTool
| FileWriteTool (workdir : string)
| FileReadTool (workdir : string)
| TodoTool (context_id : string)
| FileEditTool (workdir : string)
| ReflectTool
| CrossValidateTool.

(** [ToolSet]. *)
Record ToolSet : Type := {
  context_id : string;
  workdir : string;
  ablations : dict;
  tools : list (string * Tool)
}.

(** [ablations or {}]. *)
Definition ablations_or_empty (a : option dict) : dict :=
  match a with
  | Some d => if truthy (PDict d) then d else []
  | None => []
  end.

(** [self.ablations.get(flag, True)] as a condition. *)
Definition flag_enabled (a : dict) (flag : string) : bool :=
  truthy (get a flag (PBool true)).

(** [ToolSet.__init__]. *)
Definition ToolSet_init (context_id workdir : string) (ablations : option dict)
  : ToolSet :=
  let a := ablations_or_empty ablations in
  let t0 := [("web_search", WebSearchTool);
             ("web_browse", WebBrowseTool);
             ("batch_web_surfer", BatchWebSurferTool);
             ("file_write", FileWriteTool workdir);
             ("file_read", FileReadTool workdir)] in
  let t1 := if flag_enabled a "enable_todo_state"
            then store "todo" (TodoTool context_id) t0 else t0 in
  let t2 := if flag_enabled a "enable_patch_editing"
            then store "file_edit" (FileEditTool workdir) t1 else t1 in
  let t3 := if flag_enabled a "enable_reflection"
            then store "cross_validate" CrossValidateTool
                   (store "reflect" ReflectTool t2)
            else t2 in
  {| context_id := context_id; workdir := workdir; ablations := a; tools := t3 |}.

(** [ToolSet.list_tools]. *)
Definition list_tools (ts : ToolSet) : list string := keys (tools ts).

(** The names every [ToolSet] registers. *)
Definition core_tools : list string :=
  ["web_search"; "web_browse"; "batch_web_surfer"; "file_write"; "file_read"].

(** A flag of the configuration is "absent or true": there is no
    configuration, or it has no entry for the flag, or the entry holds a
    value that counts as true ([True] among the booleans). *)
Definition absent_or_true (a : option dict) (flag : string) : Prop :=
  match a with
  | None => True
  | Some d =>
      lookup flag d = None
      \/ exists v, lookup flag d = Some v /\ truthy v = true
  end.

End Tools.

(* ===================================================================== *)
(** * agent/react_agent.py                                                *)
(* ===================================================================== *)

Module Agent.
Import Py Provider Tools.

(** ** What the loop calls but does not define

    - [chat_completion messages tools]: the [ModelProvider] in use (the
      sampling options are the constants [temperature=0.7],
      [max_tokens=4000]);
    - [get_schema] and [tool_execute tool kwargs]: the two methods of
      [BaseTool], [tool.get_schema()] and [tool.execute] on the
      keyword arguments [kwargs];
    - [utcnow_isoformat]: [datetime.utcnow().isoformat()];
    - [json_loads]: [json.loads] on a [str];
    - [repr]: [str(v)] for a value that is not a [str];
    - [above_late_threshold step_count max_steps]: the floating-point
      test [step_count > max_steps * 0.7]. *)
Class Externals : Type := {
  World : Type;
  chat_completion :
    list ChatMessage -> list value -> World -> completion ModelResponse * World;
  get_schema : Tool -> ToolSchema;
  tool_execute : Tool -> dict -> World -> completion ToolResult * World;
  utcnow_isoformat : World -> string * World;
  json_loads : string -> completion value;
  repr : value -> string;
  above_late_threshold : Z -> Z -> bool
}.

(** ** [AgentState] *)

(** The record appended to [state.tool_calls]. *)
Record ToolCallRecord : Type := {
  tcr_tool : value;
  tcr_args : value;
  tcr_success : bool;
  tcr_timestamp : string
}.

(** The record appended to [state.evidence]. *)
Record Evidence : Type := {
  source_url : value;
  source_title : value;
  snippet : value;
  retrieved_at : string
}.

(** The record appended to [state.claims]. *)
Record Claim : Type := {
  claim_text : value;
  claim_status : value;
  supporting_sources : value
}.

Record AgentState : Type := {
  run_id : string;
  messages : list ChatMessage;
  current_phase : string;
  step_count : Z;
  token_usage : list (string * Z);
  tool_call_log : list ToolCallRecord;   (* [state.tool_calls] *)
  evidence : list Evidence;
  claims : list Claim;
  report_drafts : list string;
  is_complete : bool;
  error : option string
}.

(** [AgentState.__init__]. *)
Definition AgentState_init (run_id : string) : AgentState :=
  {| run_id := run_id;
     messages := [];
     current_phase := "planning";
     step_count := 0;
     token_usage := [("prompt_tokens", 0%Z); ("completion_tokens", 0%Z);
                     ("total_tokens", 0%Z)];
     tool_call_log := [];
     evidence := [];
     claims := [];
     report_drafts := [];
     is_complete := false;
     error := None |}.

Definition set_messages (x : list ChatMessage) (s : AgentState) : AgentState :=
  {| run_id := run_id s; messages := x; current_phase := current_phase s;
     step_count := step_count s; token_usage := token_usage s;
     tool_call_log := tool_call_log s; evidence := evidence s; claims := claims s;
     report_drafts := report_drafts s; is_complete := is_complete s;
     error := error s |}.
Definition set_current_phase (x : string) (s : AgentState) : AgentState :=
  {| run_id := run_id s; messages := messages s; current_phase := x;
     step_count := step_count s; token_usage := token_usage s;
     tool_call_log := tool_call_log s; evidence := evidence s; claims := claims s;
     report_drafts := report_drafts s; is_complete := is_complete s;
     error := error s |}.
Definition set_step_count (x : Z) (s : AgentState) : AgentState :=
  {| run_id := run_id s; messages := messages s; current_phase := current_phase s;
     step_count := x; token_usage := token_usage s;
     tool_call_log := tool_call_log s; evidence := evidence s; claims := claims s;
     report_drafts := report_drafts s; is_complete := is_complete s;
     error := error s |}.
Definition set_token_usage (x : list (string * Z)) (s : AgentState) : AgentState :=
  {| run_id := run_id s; messages := messages s; current_phase := current_phase s;
     step_count := step_count s; token_usage := x;
     tool_call_log := tool_call_log s; evidence := evidence s; claims := claims s;
     report_drafts := report_drafts s; is_complete := is_complete s;
     error := error s |}.
Definition set_tool_call_log (x : list ToolCallRecord) (s : AgentState) : AgentState :=
  {| run_id := run_id s; messages := messages s; current_phase := current_phase s;
     step_count := step_count s; token_usage := token_usage s;
     tool_call_log := x; evidence := evidence s; claims := claims s;
     report_drafts := report_drafts s; is_complete := is_complete s;
     error := error s |}.
Definition set_evidence (x : list Evidence) (s : AgentState) : AgentState :=
  {| run_id := run_id s; messages := messages s; current_phase := current_phase s;
     step_count := step_count s; token_usage := token_usage s;
     tool_call_log := tool_call_log s; evidence := x; claims := claims s;
     report_drafts := report_drafts s; is_complete := is_complete s;
     error := error s |}.
Definition set_claims (x : list Claim) (s : AgentState) : AgentState :=
  {| run_id := run_id s; messages := messages s; current_phase := current_phase s;
     step_count := step_count s; token_usage := token_usage s;
     tool_call_log := tool_call_log s; evidence := evidence s; claims := x;
     report_drafts := report_drafts s; is_complete := is_complete s;
     error := error s |}.
Definition set_report_drafts (x : list string) (s : AgentState) : AgentState :=
  {| run_id := run_id s; messages := messages s; current_phase := current_phase s;
     step_count := step_count s; token_usage := token_usage s;
     tool_call_log := tool_call_log s; evidence := evidence s; claims := claims s;
     report_drafts := x; is_complete := is_complete s;
     error := error s |}.
Definition set_is_complete (x : bool) (s : AgentState) : AgentState :=
  {| run_id := run_id s; messages := messages s; current_phase := current_phase s;
     step_count := step_count s; token_usage := token_usage s;
     tool_call_log := tool_call_log s; evidence := evidence s; claims := claims s;
     report_drafts := report_drafts s; is_complete := x;
     error := error s |}.
Definition set_error (x : option string) (s : AgentState) : AgentState :=
  {| run_id := run_id s; messages := messages s; current_phase := current_phase s;
     step_count := step_count s; token_usage := token_usage s;
     tool_call_log := tool_call_log s; evidence := evidence s; claims := claims s;
     report_drafts := report_drafts s; is_complete := is_complete s;
     error := x |}.

(** [AgentState.add_message]. *)
Definition add_message (m : ChatMessage) (s : AgentState) : AgentState :=
  set_messages (messages s ++ [m]) s.

(** [AgentState.update_usage]. *)
Definition update_usage (usage : list (string * Z)) (s : AgentState) : AgentState :=
  set_token_usage
    (fold_left (fun tu kv =>
                  match lookup (fst kv) tu with
                  | Some old => store (fst kv) (old + snd kv)%Z tu
                  | None => tu
                  end) usage (token_usage s)) s.

(** ** The system prompts *)

Definition BASELINE_SYSTEM_PROMPT : string :=
  "You are a helpful research assistant. Answer the user's question based on web search results. Provide sources for your claims and structure your response clearly.".

Definition DEEP_RESEARCH_SYSTEM_PROMPT : string :=
  "You are an expert deep research agent. Your task is to conduct thorough, methodical research to answer complex questions and produce professional research reports.

## Core Capabilities
You have access to powerful research tools:
- **batch_web_surfer**: Efficiently search and browse multiple sources
- **web_search**: Search for specific information
- **web_browse**: Read full content from URLs
- **todo**: Track research tasks and progress
- **file_write**: Save drafts and evidence
- **file_read**: Read saved content
- **file_edit**: Make targeted edits (more efficient than full rewrites)
- **reflect**: Structured reflection on gathered evidence
- **cross_validate**: Verify claims across multiple sources

## Research Process
Follow this systematic approach:

1. **Planning**: Break down the research question into sub-questions. Use the todo tool to create a research plan.

2. **Information Gathering**: Use batch_web_surfer for broad research, web_search for specific queries. Prioritize authoritative sources (academic, official, established industry sources).

3. **Reflection & Verification**: After gathering evidence, use reflect to identify gaps and conflicts. Use cross_validate for important factual claims.

4. **Report Generation**: Write a structured report with:
   - Executive Summary
   - Key Findings
   - Methodology
   - Detailed Analysis with citations
   - Conflicts/Uncertainties
   - Recommendations

## Citation Format
Always cite sources using this format: [Title](URL)
Each factual claim should be linked to its source.

## Quality Standards
- Prefer authoritative sources (government, academic, established industry)
- Verify key claims across multiple sources
- Acknowledge uncertainty when evidence is conflicting
- Be thorough but focused on the research question

When you have completed your research and written the final report, output it within <report> tags.
".

(** ** [ReActAgent] *)

Record ReActAgent : Type := {
  toolset : ToolSet;
  max_steps : Z;
  system_prompt : string;
  is_baseline : bool
}.


(** [ReActAgent.__init__]. *)
Definition ReActAgent_init (toolset : ToolSet) (max_steps : Z)
    (system_prompt : option string) (is_baseline : bool) : ReActAgent :=
  {| toolset := toolset;
     max_steps := max_steps;
     system_prompt :=
       if str_truthy system_prompt
       then match system_prompt with Some p => p | None => "" end
       else if is_baseline then BASELINE_SYSTEM_PROMPT
            else DEEP_RESEARCH_SYSTEM_PROMPT;
     is_baseline := is_baseline |}.

Section Loop.

Context {E : Externals}.

(** [str(v)] as an f-string or [str()] computes it. *)
Definition py_str (v : value) : string :=
  match v with PStr s => s | _ => repr v end.

(** ** [ToolSet] methods that reach the tools *)

(** [ToolSet.get_tool]: [self.tools.get(name)]. No key of the registry
    equals a value that is not a [str]; a [list] or a [dict] cannot be
    hashed. *)
Definition get_tool (ts : ToolSet) (tool_name : value) : completion (option Tool) :=
  match tool_name with
  | PStr s => Returned (lookup s (tools ts))
  | PList _ | PDict _ =>
      Raised (Exn TypeError ("unhashable type: '" ++ type_name tool_name ++ "'"))
  | _ => Returned None
  end.

(** [ToolSet.get_all_schemas]. *)
Definition get_all_schemas (ts : ToolSet) : list value :=
  map (fun p => to_openai_format (get_schema (snd p))) (tools ts).

(** [ToolSet.execute], on the name and the keyword arguments it was
    called with. *)
Definition ToolSet_execute (ts : ToolSet) (tool_name : value) (kwargs : dict)
    (w : World) : completion ToolResult * World :=
  match get_tool ts tool_name with
  | Raised e => (Raised e, w)
  | Returned None =>
      (Returned {| success := false;
                   output := PNone;
                   Tools.error := Some ("Unknown tool: " ++ py_str tool_name);
                   metadata := [] |}, w)
  | Returned (Some tool) => tool_execute tool kwargs w
  end.

(** The first keyword, in the order of the mapping, that names a
    parameter of [ToolSet.execute] bound already: [self] or
    [tool_name]. *)
Definition first_clash (d : dict) : option string :=
  List.find (fun k => String.eqb k "self" || String.eqb k "tool_name") (keys d).

(** The call [self.toolset.execute(tool_name, **args)]: [args] has to be
    a mapping, and none of its keys may name a parameter that is already
    bound; the first key that does is the one the error names. *)
Definition call_execute (ts : ToolSet) (tool_name args : value) (w : World)
  : completion ToolResult * World :=
  match args with
  | PDict d =>
      match first_clash d with
      | Some k =>
          (Raised (Exn TypeError
             ("ToolSet.execute() got multiple values for argument '" ++ k ++ "'")),
           w)
      | None => ToolSet_execute ts tool_name d w
      end
  | _ =>
      (Raised (Exn TypeError
         ("agent.tools.ToolSet.execute() argument after ** must be a mapping, not "
          ++ type_name args)), w)
  end.

(** [json.loads(v)]: a value that is not a [str] is refused with a
    [TypeError]. *)
Definition loads (v : value) : completion value :=
  match v with
  | PStr s => json_loads s
  | _ => Raised (Exn TypeError
                   ("the JSON object must be str, bytes or bytearray, not "
                    ++ type_name v))
  end.

(** ** [ReActAgent._execute_tool_call]

    The [state] argument is not used by the method. *)
Definition _execute_tool_call (agent : ReActAgent) (tool_call : value) (w : World)
  : completion ToolResult * World :=
  match getitem tool_call "function" with
  | Raised e => (Raised e, w)
  | Returned func =>
      match getitem func "name" with
      | Raised e => (Raised e, w)
      | Returned tool_name =>
          (* try: args = json.loads(func["arguments"]) *)
          match getitem func "arguments" with
          | Raised e => (Raised e, w)       (* never a JSONDecodeError *)
          | Returned arguments =>
              match loads arguments with
              | Raised e =>
                  if is_JSONDecodeError e
                  then (* except json.JSONDecodeError: *)
                    match getitem func "arguments" with
                    | Raised e' => (Raised e', w)
                    | Returned a =>
                        (Returned
                           {| success := false;
                              output := PNone;
                              Tools.error := Some ("Invalid JSON in tool arguments: "
                                             ++ py_str a);
                              metadata := [] |}, w)
                    end
                  else (Raised e, w)
              | Returned args => call_execute (toolset agent) tool_name args w
              end
          end
      end
  end.

(** ** The loop's monad: the agent state, the world, and exceptions *)

Definition M (A : Type) : Type :=
  AgentState -> World -> completion A * AgentState * World.

Definition ret {A : Type} (a : A) : M A := fun s w => (Returned a, s, w).

Definition bind {A B : Type} (m : M A) (k : A -> M B) : M B :=
  fun s w =>
    match m s w with
    | (Returned a, s', w') => k a s' w'
    | (Raised e, s', w') => (Raised e, s', w')
    end.

Definition raise {A : Type} (e : exn) : M A := fun s w => (Raised e, s, w).

(** Read the state, change the state, evaluate an expression, call out. *)
Definition get_state : M AgentState := fun s w => (Returned s, s, w).
Definition modify (f : AgentState -> AgentState) : M unit :=
  fun s w => (Returned tt, f s, w).
Definition expr {A : Type} (c : completion A) : M A := fun s w => (c, s, w).
Definition call {A : Type} (f : World -> completion A * World) : M A :=
  fun s w => let (c, w') := f w in (c, s, w').
Definition timestamp : M string :=
  fun s w => let (t, w') := utcnow_isoformat w in (Returned t, s, w').

Notation "x <- m ;; k" := (bind m (fun x => k))
  (at level 61, m at next level, right associativity).
Notation "m ;;; k" := (bind m (fun _ => k))
  (at level 61, right associativity).

(** [for x in l: body(x)]. *)
Fixpoint for_each {A : Type} (l : list A) (body : A -> M unit) : M unit :=
  match l with
  | [] => ret tt
  | x :: rest => body x ;;; for_each rest body
  end.

(** ** [ReActAgent._determine_phase] *)

Definition in_names (s : string) (names : list value) : bool :=
  existsb (fun v => eq_str v s) names.

Definition _determine_phase (agent : ReActAgent) (state : AgentState) : string :=
  if (step_count state <=? 2)%Z then "planning"
  else
    let recent_tools := map tcr_tool (last_n 5 (tool_call_log state)) in
    if in_names "reflect" recent_tools || in_names "cross_validate" recent_tools
    then "reflection"
    else if (in_names "file_write" recent_tools || in_names "file_edit" recent_tools)
            && existsb (fun tc => contains "report" (lower (py_str (tcr_args tc))))
                 (last_n 3 (tool_call_log state))
    then "report_generation"
    else if existsb (fun t => in_names t recent_tools)
              ["web_search"; "web_browse"; "batch_web_surfer"]
    then "information_seeking"
    else if above_late_threshold (step_count state) (max_steps agent)
    then "report_generation"
    else "information_seeking".

(** ** [ReActAgent._extract_evidence] *)

(** [v.get(k, default)]: only a [dict] has the method. *)
Definition value_get (v : value) (k : string) (default : value) : completion value :=
  match v with
  | PDict d => Returned (get d k default)
  | _ => Raised (Exn AttributeError
                   ("'" ++ type_name v ++ "' object has no attribute 'get'"))
  end.

(** [v[:500]]: a [str] and a [list] are cut; nothing else can be
    sliced. *)
Definition slice_500 (v : value) : completion value :=
  match v with
  | PStr s => Returned (PStr (slice 0 500 s))
  | PList l => Returned (PList (firstn 500 l))
  | PDict _ => Raised (Exn TypeError "unhashable type: 'slice'")
  | _ => Raised (Exn TypeError ("'" ++ type_name v ++ "' object is not subscriptable"))
  end.

(** [for x in v]: the elements a [for] loop walks through. A [str] gives
    its characters, a [dict] its keys. *)
Definition iterate (v : value) : completion (list value) :=
  match v with
  | PList l => Returned l
  | PStr s => Returned (map (fun c => PStr (String c "")) (list_ascii_of_string s))
  | PDict d => Returned (map (fun p => PStr (fst p)) d)
  | _ => Raised (Exn TypeError ("'" ++ type_name v ++ "' object is not iterable"))
  end.

Definition append_evidence (e : Evidence) : M unit :=
  modify (fun s => set_evidence (evidence s ++ [e]) s).

Definition append_claim (c : Claim) : M unit :=
  modify (fun s => set_claims (claims s ++ [c]) s).

(** The entry built from a browsed page ([snippet] cut to 500). *)
Definition browsed_evidence (page : value) : M unit :=
  url <- expr (value_get page "url" (PStr "")) ;;
  title <- expr (value_get page "title" (PStr "")) ;;
  text <- expr (value_get page "content" (PStr "")) ;;
  snip <- expr (slice_500 text) ;;
  t <- timestamp ;;
  append_evidence {| source_url := url; source_title := title;
                     snippet := snip; retrieved_at := t |}.

Definition _extract_evidence (tool_call : value) (result : ToolResult) : M unit :=
  func <- expr (getitem tool_call "function") ;;
  tool_name <- expr (getitem func "name") ;;
  if eq_str tool_name "web_search" || eq_str tool_name "batch_web_surfer" then
    match output result with
    | PList items =>
        for_each items (fun item =>
          match item with
          | PDict d =>
              match lookup "browsed_content" d with
              | Some _ =>
                  pages <- expr (iterate (get d "browsed_content" (PList []))) ;;
                  for_each pages browsed_evidence
              | None =>
                  match lookup "url" d with
                  | Some _ =>
                      t <- timestamp ;;
                      append_evidence
                        {| source_url := get d "url" (PStr "");
                           source_title := get d "title" (PStr "");
                           snippet := get d "snippet" (PStr "");
                           retrieved_at := t |}
                  | None => ret tt
                  end
              end
          | _ => ret tt
          end)
    | _ => ret tt
    end
  else if eq_str tool_name "web_browse" then
    match output result with
    | PDict d => browsed_evidence (PDict d)
    | _ => ret tt
    end
  else if eq_str tool_name "cross_validate" then
    match output result with
    | PDict d =>
        append_claim {| claim_text := get d "claim" (PStr "");
                        claim_status := get d "status" (PStr "uncertain");
                        supporting_sources := get d "supporting_sources" (PInt 0) |}
    | _ => ret tt
    end
  else ret tt.

(** ** [ReActAgent.run] *)

(** The content of the tool-role message:
    [json.dumps(tool_result.output) if tool_result.output else
    tool_result.error]. *)
Definition tool_message_content (r : ToolResult) : option string :=
  if truthy (output r) then Some (json_dumps (output r)) else Tools.error r.

(** [ChatMessage(role="tool", tool_call_id=id, content=...)]. *)
Definition tool_message (id : value) (r : ToolResult) : ChatMessage :=
  {| role := "tool";
     content := tool_message_content r;
     tool_calls := None;
     tool_call_id := id;
     name := None |}.

(** The body of [for tool_call in response.message.tool_calls]. *)
Definition handle_tool_call (agent : ReActAgent) (tool_call : value) : M unit :=
  tool_result <- call (_execute_tool_call agent tool_call) ;;
  id <- expr (getitem tool_call "id") ;;
  modify (add_message (tool_message id tool_result)) ;;;
  func <- expr (getitem tool_call "function") ;;
  tool_name <- expr (getitem func "name") ;;
  func' <- expr (getitem tool_call "function") ;;
  args <- expr (getitem func' "arguments") ;;
  t <- timestamp ;;
  modify (fun s => set_tool_call_log
                     (tool_call_log s ++ [{| tcr_tool := tool_name;
                                             tcr_args := args;
                                             tcr_success := success tool_result;
                                             tcr_timestamp := t |}]) s) ;;;
  if success tool_result
  then _extract_evidence tool_call tool_result
  else ret tt.

(** [s.index(sub)]: a [ValueError] when [sub] does not occur. *)
Definition index (s sub : string) : completion nat :=
  match find sub s with
  | Some i => Returned i
  | None => Raised (Exn (OtherException "ValueError") "substring not found")
  end.

Definition append_draft (d : string) : M unit :=
  modify (fun s => set_report_drafts (report_drafts s ++ [d]) s).

(** The [else] branch of the step: completion detection on a response
    without tool calls. *)
Definition detect_completion (response : ModelResponse) : M unit :=
  if str_truthy (content (message response)) then
    match content (message response) with
    | Some content =>
        if contains "<report>" content && contains "</report>" content then
          modify (set_is_complete true) ;;;
          i <- expr (index content "<report>") ;;
          let start := (i + String.length "<report>")%nat in
          end_ <- expr (index content "</report>") ;;
          append_draft (strip (slice start end_ content))
        else
          state <- get_state ;;
          if String.eqb (finish_reason response) "stop"
             && (5 <? step_count state)%Z
          then
            if (1000 <? len content)%Z
            then modify (set_is_complete true) ;;; append_draft content
            else ret tt
          else ret tt
    | None => ret tt
    end
  else ret tt.

(** The body of the [try] block: one step of the loop. *)
Definition step (agent : ReActAgent)
    (on_step : option (AgentState -> World -> completion unit * World)) : M unit :=
  modify (fun s => set_step_count (step_count s + 1)%Z s) ;;;
  modify (fun s => set_current_phase (_determine_phase agent s) s) ;;;
  state <- get_state ;;
  response <- call (chat_completion (messages state)
                                    (get_all_schemas (toolset agent))) ;;
  modify (update_usage (usage response)) ;;;
  modify (add_message (message response)) ;;;
  (if has_tool_calls response
   then match tool_calls (message response) with
        | Some tcs => for_each tcs (handle_tool_call agent)
        | None => ret tt
        end
   else detect_completion response) ;;;
  match on_step with
  | Some f => state <- get_state ;; call (f state)
  | None => ret tt
  end.

(** The [while] loop. Each pass adds one to [step_count], so
    [max_steps - step_count] passes are all it can make; [fuel] counts
    them, and [None] says that [fuel] was too small. An exception that
    [except Exception] does not catch leaves the loop and [run]. *)
Fixpoint loop (agent : ReActAgent)
    (on_step : option (AgentState -> World -> completion unit * World))
    (fuel : nat) (s : AgentState) (w : World)
  : option (completion unit * AgentState * World) :=
  if (step_count s <? max_steps agent)%Z && negb (is_complete s) then
    match fuel with
    | O => None
    | S fuel' =>
        match step agent on_step s w with
        | (Returned _, s', w') => loop agent on_step fuel' s' w'
        | (Raised e, s', w') =>
            if is_Exception e
            then Some (Returned tt, set_error (Some (exn_str e)) s', w')
            else Some (Raised e, s', w')
        end
    end
  else Some (Returned tt, s, w).

(** The search of the fallback: the content of the last message, going
    backward, with [role == "assistant"] and a non-empty content. *)
Fixpoint first_assistant_text (msgs : list ChatMessage) : option string :=
  match msgs with
  | [] => None
  | msg :: rest =>
      if String.eqb (role msg) "assistant" && str_truthy (content msg)
      then content msg
      else first_assistant_text rest
  end.

(** "Ensure we have a final report". *)
Definition ensure_final_report (s : AgentState) : AgentState :=
  match report_drafts s, messages s with
  | [], _ :: _ =>
      match first_assistant_text (rev (messages s)) with
      | Some c => set_report_drafts (report_drafts s ++ [c]) s
      | None => s
      end
  | _, _ => s
  end.

(** The state [run] starts its loop from. *)
Definition seed (agent : ReActAgent) (query : string) (s : AgentState) : AgentState :=
  add_message {| role := "user"; content := Some query; tool_calls := None;
                 tool_call_id := PNone; name := None |}
    (add_message {| role := "system"; content := Some (system_prompt agent);
                    tool_calls := None; tool_call_id := PNone; name := None |} s).

(** The number of passes the loop can make from a state. *)
Definition steps_left (agent : ReActAgent) (s : AgentState) : nat :=
  Z.to_nat (max_steps agent - step_count s).

(** [run query state on_step]: [Returned] with the state it returns, or
    [Raised] with the state as the exception left it. *)
Definition run (agent : ReActAgent) (query : string) (state : AgentState)
    (on_step : option (AgentState -> World -> completion unit * World))
    (w : World) : option (completion unit * AgentState * World) :=
  let s0 := seed agent query state in
  match loop agent on_step (steps_left agent s0) s0 w with
  | Some (Returned _, s1, w1) => Some (Returned tt, ensure_final_report s1, w1)
  | Some (Raised e, s1, w1) => Some (Raised e, s1, w1)
  | None => None
  end.

(** ** The states a step passes through *)

(** The state once the step is counted and the phase is set. *)
Definition begin_step (agent : ReActAgent) (s : AgentState) : AgentState :=
  set_current_phase
    (_determine_phase agent (set_step_count (step_count s + 1)%Z s))
    (set_step_count (step_count s + 1)%Z s).

(** The state once the response's usage and message are taken in. *)
Definition take_response (response : ModelResponse) (s : AgentState) : AgentState :=
  add_message (message response) (update_usage (usage response) s).

(** The state once a tool call's message and record are appended. *)
Definition record_call (id tool_name args : value) (r : ToolResult) (t : string)
    (s : AgentState) : AgentState :=
  let s1 := add_message (tool_message id r) s in
  set_tool_call_log
    (tool_call_log s1 ++ [{| tcr_tool := tool_name;
                             tcr_args := args;
                             tcr_success := success r;
                             tcr_timestamp := t |}]) s1.

(** The call of the step callback, when there is one. *)
Definition notify
    (on_step : option (AgentState -> World -> completion unit * World)) : M unit :=
  match on_step with
  | Some f => state <- get_state ;; call (f state)
  | None => ret tt
  end.

(** ** The notions the properties are stated with *)

(** The result [_execute_tool_call] builds in its [except] clause. *)
Definition invalid_json_result (arguments : string) : ToolResult :=
  {| success := false;
     output := PNone;
     Tools.error := Some ("Invalid JSON in tool arguments: " ++ arguments);
     metadata := [] |}.

(** The result [ToolSet.execute] builds for a name it does not know. *)
Definition unknown_tool_result (tool_name : string) : ToolResult :=
  {| success := false;
     output := PNone;
     Tools.error := Some ("Unknown tool: " ++ tool_name);
     metadata := [] |}.

(** The claim entry read off a [dict], defaults filling the gaps. *)
Definition claim_of (d : dict) : Claim :=
  {| claim_text := get d "claim" (PStr "");
     claim_status := get d "status" (PStr "uncertain");
     supporting_sources := get d "supporting_sources" (PInt 0) |}.


(** What holds of the state between two steps of a run. *)
Definition complete_has_draft (s : AgentState) : Prop :=
  is_complete s = true -> report_drafts s <> [].

(** Within a step the counter stands still and a state that is complete
    with a draft stays so. *)
Definition within_step (s s' : AgentState) : Prop :=
  step_count s' = step_count s
  /\ (complete_has_draft s -> complete_has_draft s').

(** Handling a tool call leaves these fields alone. *)
Definition quiet (s s' : AgentState) : Prop :=
  step_count s' = step_count s
  /\ report_drafts s' = report_drafts s
  /\ is_complete s' = is_complete s
  /\ error s' = error s.

(** A computation that only moves the state along [R]. *)
Definition preserves {A : Type} (R : AgentState -> AgentState -> Prop) (m : M A)
  : Prop :=
  forall s w c s' w', m s w = (c, s', w') -> R s s'.

End Loop.

(** A message that the fallback can take its draft from. *)
Definition assistant_text (m : ChatMessage) (c : string) : Prop :=
  role m = "assistant" /\ content m = Some c /\ c <> "".

(** [c] is the content of the most recent assistant message with
    non-empty content in [msgs]. *)
Definition most_recent_assistant_text (msgs : list ChatMessage) (c : string) : Prop :=
  exists before m after,
    msgs = (before ++ m :: after)%list
    /\ assistant_text m c
    /\ Forall (fun m' => forall c', ~ assistant_text m' c') after.

(** No message of [msgs] is an assistant message with non-empty
    content. *)
Definition no_assistant_text (msgs : list ChatMessage) : Prop :=
  Forall (fun m' => forall c', ~ assistant_text m' c') msgs.

(** A tool call that lacks its "function" entry, or whose function
    lacks its "arguments" entry, or holds arguments that are not a
    [str]. *)
Inductive malformed_call : value -> Prop :=
| no_function (d : dict) :
    lookup "function" d = None -> malformed_call (PDict d)
| no_arguments (d f : dict) :
    lookup "function" d = Some (PDict f) ->
    lookup "arguments" f = None -> malformed_call (PDict d)
| arguments_not_str (d f : dict) (v : value) :
    lookup "function" d = Some (PDict f) ->
    lookup "arguments" f = Some v ->
    (forall s, v <> PStr s) -> malformed_call (PDict d).

(** An output that carries the three fields of a claim entry. *)
Definition carries_claim_fields (v : value) : bool :=
  match v with
  | PDict d =>
      match lookup "claim" d, lookup "status" d, lookup "supporting_sources" d with
      | Some _, Some _, Some _ => true
      | _, _, _ => false
      end
  | _ => false
  end.

(** C6 as the specification words it: after a successful cross_validate
    call the list of claims has grown exactly when the output carries
    the three fields. *)
Definition entry_only_with_fields : Prop :=
  forall (E : Externals) (tool_call func : value) (r : ToolResult)
         (s s' : AgentState) (w w' : World) (c : completion unit),
    getitem tool_call "function" = Returned func ->
    getitem func "name" = Returned (PStr "cross_validate") ->
    success r = true ->
    _extract_evidence tool_call r s w = (c, s', w') ->
    (claims s' <> claims s <-> carries_claim_fields (output r) = true).


(** C7 as the specification words it: for a name that is not
    registered, a call of [ToolSet.execute] returns a failed result
    whatever the keyword arguments are. *)
Definition unknown_tool_never_raises : Prop :=
  forall (E : Externals) (ts : ToolSet) (tool_name : string) (kwargs : dict)
         (w : World),
    lookup tool_name (tools ts) = None ->
    exists r w',
      call_execute ts (PStr tool_name) (PDict kwargs) w = (Returned r, w')
      /\ success r = false.

End Agent.

(* ===================================================================== *)
(** * A scripted environment

    A model backend and tools that replay prepared answers, whatever
    they are asked, a clock that counts, and a decoder given by a table;
    [str] and the floating-point test of the late-run threshold are as
    Python computes them. It serves to run the loop on concrete
    inputs.                                                               *)
(* ===================================================================== *)

Module Scripted.
Import Py Provider Tools Agent.

Record world : Type := {
  replies : list (completion ModelResponse);   (* what the model answers *)
  results : list (completion ToolResult);      (* what the tools return *)
  clock : nat
}.

Definition next_reply (w : world) : completion ModelResponse * world :=
  match replies w with
  | r :: rest => (r, {| replies := rest; results := results w; clock := clock w |})
  | [] => (Raised (Exn (OtherException "APIConnectionError") "Connection error."), w)
  end.

Definition next_result (w : world) : completion ToolResult * world :=
  match results w with
  | r :: rest => (r, {| replies := replies w; results := rest; clock := clock w |})
  | [] => (Returned {| success := false; output := PNone;
                       Tools.error := Some "no result"; metadata := [] |}, w)
  end.

Definition tick (w : world) : string * world :=
  ("t" ++ str_of_int (Z.of_nat (clock w)),
   {| replies := replies w; results := results w; clock := S (clock w) |}).

(** The texts the decoder knows; every other text is not JSON to it. *)
Definition decoded : list (string * value) :=
  [("{}", PDict []);
   ("[]", PList []);
   ("null", PNone)].

Definition table_loads (s : string) : completion value :=
  match lookup s decoded with
  | Some v => Returned v
  | None => Raised (Exn JSONDecodeError "Expecting value: line 1 column 1 (char 0)")
  end.

Definition plain_schema (t : Tool) : ToolSchema :=
  {| schema_name := "tool"; schema_description := "";
     schema_parameters := PDict [("type", PStr "object")] |}.

(** The floating-point test [step_count > max_steps * 0.7] for numbers
    of steps below 2^53. The double nearest to 0.7 is
    6305039478318694 / 2^53; the product with [max_steps] is rounded to
    53 significant bits, a tie going to the even neighbour, and the
    comparison of the integer [step_count] with the result is exact. *)
Definition round_to_53_bits (p : Z) : Z :=
  (let bits := Z.log2 p + 1 in
   if bits <=? 53 then p
   else
     let shift := bits - 53 in
     let q := Z.shiftr p shift in
     let rest := p - Z.shiftl q shift in
     let half := Z.shiftl 1 (shift - 1) in
     let q' := if (half <? rest) || ((half =? rest) && Z.odd q) then q + 1 else q in
     Z.shiftl q' shift)%Z.

Definition times_0_7 (max_steps : Z) : Z :=
  (Z.sgn max_steps * round_to_53_bits (Z.abs max_steps * 6305039478318694))%Z.

Definition float_threshold (step_count max_steps : Z) : bool :=
  (times_0_7 max_steps <? step_count * 2 ^ 53)%Z.

#[export] Instance env : Externals := {|
  World := world;
  chat_completion := fun _ _ => next_reply;
  get_schema := plain_schema;
  tool_execute := fun _ _ => next_result;
  utcnow_isoformat := tick;
  json_loads := table_loads;
  repr := py_repr;
  above_late_threshold := float_threshold
|}.

(** An assistant reply with text only, and one with tool calls only. *)
Definition says (text : string) : completion ModelResponse :=
  Returned {| message := {| role := "assistant"; content := Some text;
                            tool_calls := None; tool_call_id := PNone;
                            name := None |};
              finish_reason := "stop";
              usage := [("prompt_tokens", 10%Z); ("completion_tokens", 5%Z);
                        ("total_tokens", 15%Z)] |}.

Definition tool_call (id tool_name arguments : string) : value :=
  PDict [("id", PStr id);
         ("type", PStr "function");
         ("function", PDict [("name", PStr tool_name);
                             ("arguments", PStr arguments)])].

Definition requests (calls : list value) : completion ModelResponse :=
  Returned {| message := {| role := "assistant"; content := None;
                            tool_calls := Some calls; tool_call_id := PNone;
                            name := None |};
              finish_reason := "tool_calls";
              usage := [] |}.

Definition agent (max_steps : Z) : ReActAgent :=
  ReActAgent_init (ToolSet_init "run-1" "/tmp/run-1" None) max_steps None false.

Definition start (replies : list (completion ModelResponse))
    (results : list (completion ToolResult)) : world :=
  {| replies := replies; results := results; clock := 0 |}.

(** A successful search that found nothing. *)
Definition empty_search : ToolResult :=
  {| success := true; output := PList []; Tools.error := None;
     metadata := [("query", PStr "q"); ("result_count", PInt 0)] |}.

(** A successful cross-validation, with and without the claim fields. *)
Definition validated : ToolResult :=
  {| success := true;
     output := PDict [("claim", PStr "X"); ("status", PStr "supported");
                      ("supporting_sources", PInt 2)];
     Tools.error := None; metadata := [] |}.

Definition validated_bare : ToolResult :=
  {| success := true; output := PDict []; Tools.error := None; metadata := [] |}.

(** A call whose arguments are not JSON, and one whose arguments are
    null. *)
Definition bad_json_call : value := tool_call "call_1" "web_search" "not-json".

Definition null_arguments_call : value :=
  PDict [("id", PStr "call_1");
         ("type", PStr "function");
         ("function", PDict [("name", PStr "web_search");
                             ("arguments", PNone)])].

(** A reply whose closing marker comes first. *)
Definition stray_closing_marker : string := "</report><report>X</report>".

End Scripted.

(* ===================================================================== *)
(** * Further notions for the streamed completion                         *)
(* ===================================================================== *)

Module StreamNotions.
Import Py Provider.

(** [bool(chunk.choices)]. *)
Definition has_choices (chunk : Chunk) : bool :=
  match chunk_choices chunk with [] => false | _ => true end.

(** The content texts the chunks deliver, in arrival order. *)
Definition content_deltas (chunks : list Chunk) : list string :=
  flat_map (fun chunk =>
              match chunk_choices chunk with
              | [] => []
              | choice :: _ =>
                  match delta_content (choice_delta choice) with
                  | Some c => [c]
                  | None => []
                  end
              end) chunks.

(** The text a content of [None] or [Some] stands for. *)
Definition text_or_none (text : string) : option string :=
  if String.eqb text "" then None else Some text.

(** [i in l] for integers. *)
Definition zmem (i : Z) (l : list Z) : bool := existsb (Z.eqb i) l.

(** The distinct elements of a list, each at the place of its first
    occurrence. *)
Definition first_occurrences (l : list Z) : list Z :=
  fold_left (fun seen i => if zmem i seen then seen else (seen ++ [i])%list) l [].

(** [len(response.message.tool_calls)], [0] for [None]. *)
Definition calls_count (r : ModelResponse) : nat :=
  match tool_calls (message r) with
  | Some l => List.length l
  | None => 0%nat
  end.

(** The chunks seen at each yield: for every chunk that has choices,
    the chunks of the stream up to and including it. *)
Fixpoint seen_from (seen chunks : list Chunk) : list (list Chunk) :=
  match chunks with
  | [] => []
  | chunk :: rest =>
      let seen' := (seen ++ [chunk])%list in
      if has_choices chunk then seen' :: seen_from seen' rest
      else seen_from seen' rest
  end.

Definition seen_at_yields (chunks : list Chunk) : list (list Chunk) :=
  seen_from [] chunks.

(** A cumulative snapshot of the chunks seen: the full text accumulated
    so far ([None] while there is none), and the full list of the tool
    calls assembled so far ([None] while there is none). *)
Definition snapshot_content (seen : list Chunk) : option string :=
  text_or_none (concat_texts (content_deltas seen)).

Definition snapshot_calls (seen : list Chunk) : option (list value) :=
  calls_value (reassembled_calls seen).

End StreamNotions.

(* ===================================================================== *)
(** * Further notions for the ReAct loop                                  *)
(* ===================================================================== *)

Module LoopNotions.
Import Py Provider Tools Agent.

(** [l'] is [l] with more elements after it. *)
Definition extends {A : Type} (l l' : list A) : Prop := exists t, l' = (l ++ t)%list.

(** The state has only moved forward: every list it keeps was only
    appended to, the step counter did not go down, and a complete run
    stayed complete. *)
Definition grows (s s' : AgentState) : Prop :=
  run_id s' = run_id s
  /\ extends (messages s) (messages s')
  /\ extends (tool_call_log s) (tool_call_log s')
  /\ extends (evidence s) (evidence s')
  /\ extends (claims s) (claims s')
  /\ extends (report_drafts s) (report_drafts s')
  /\ (step_count s <= step_count s')%Z
  /\ (is_complete s = true -> is_complete s' = true).

(** Nothing changed but the findings, which were only appended to. *)
Definition only_findings_grow (s s' : AgentState) : Prop :=
  run_id s' = run_id s
  /\ messages s' = messages s
  /\ current_phase s' = current_phase s
  /\ step_count s' = step_count s
  /\ token_usage s' = token_usage s
  /\ tool_call_log s' = tool_call_log s
  /\ report_drafts s' = report_drafts s
  /\ is_complete s' = is_complete s
  /\ error s' = error s
  /\ extends (evidence s) (evidence s')
  /\ extends (claims s) (claims s').

(** The drafts and the completion flag are as they were, or the run
    turned complete and took one more draft. *)
Definition drafted_once (s s' : AgentState) : Prop :=
  (report_drafts s' = report_drafts s /\ is_complete s' = is_complete s)
  \/ (is_complete s' = true /\ exists d, report_drafts s' = (report_drafts s ++ [d])%list).

(** Between two steps of a run that started without a draft: no draft
    while the run is not complete, one draft once it is. *)
Definition one_draft_when_complete (s : AgentState) : Prop :=
  (is_complete s = false -> report_drafts s = [])
  /\ (is_complete s = true -> exists d, report_drafts s = [d]).

(** Arguments that can be passed on as keyword arguments: a [dict]
    that names neither [self] nor [tool_name]. *)
Definition binds_cleanly (args : value) : bool :=
  match args with
  | PDict d =>
      match lookup "self" d, lookup "tool_name" d with
      | None, None => true
      | _, _ => false
      end
  | _ => false
  end.

(** The four phases [_determine_phase] tells apart. *)
Definition inferred_phases : list string :=
  ["planning"; "information_seeking"; "reflection"; "report_generation"].

(** The phase is as it was, or one that [_determine_phase] infers. *)
Definition phase_inferred (s s' : AgentState) : Prop :=
  current_phase s' = current_phase s \/ In (current_phase s') inferred_phases.

(** The sum of the values a usage report holds for a key. *)
Definition reported (key : string) (usage : list (string * Z)) : Z :=
  fold_left (fun n kv => if String.eqb key (fst kv) then (n + snd kv)%Z else n)
    usage 0%Z.

(** The names whose results [_extract_evidence] looks into. *)
Definition searched_tools : list string :=
  ["web_search"; "batch_web_surfer"; "web_browse"; "cross_validate"].

Section WithExternals.

Context {E : Externals}.

(** What a step does with the response: the tool calls, or completion
    detection. *)
Definition respond (agent : ReActAgent) (response : ModelResponse) : M unit :=
  if has_tool_calls response
  then match tool_calls (message response) with
       | Some tcs => for_each tcs (handle_tool_call agent)
       | None => ret tt
       end
  else detect_completion response.

(** The record [run]'s loop appends for a tool call. *)
Definition call_record (tool_name args : value) (r : ToolResult) (t : string)
  : ToolCallRecord :=
  {| tcr_tool := tool_name; tcr_args := args;
     tcr_success := success r; tcr_timestamp := t |}.

End WithExternals.

End LoopNotions.

(* ===================================================================== *)
(** * agent/model_provider.py: the single-shot completion                 *)
(* ===================================================================== *)

Module Completion.
Import Py Provider.

(** ** What the client library returns for a completion *)

Record ApiFunction : Type := {
  api_name : string;
  api_arguments : string
}.

Record ApiToolCall : Type := {
  api_id : string;
  api_function : ApiFunction
}.

Record ApiMessage : Type := {
  api_content : option string;
  api_tool_calls : option (list ApiToolCall)
}.

Record ApiChoice : Type := {
  api_message : ApiMessage;
  api_finish_reason : string
}.

Record ApiUsage : Type := {
  api_prompt_tokens : Z;
  api_completion_tokens : Z;
  api_total_tokens : Z
}.

Record ApiResponse : Type := {
  api_choices : list ApiChoice;
  api_usage : option ApiUsage
}.

(** ** The request *)

(** [{**a, **b}]: the entries of [a], taken over by those of [b]. *)
Definition merge (a b : dict) : dict :=
  fold_left (fun d kv => store (fst kv) (snd kv) d) b a.

(** [[m.to_dict() for m in messages]]. *)
Definition api_messages (messages : list ChatMessage) : value :=
  PList (map (fun m => PDict (to_dict m)) messages).

(** [call_kwargs], as [chat_completion] ([stream = false]) and
    [chat_completion_stream] ([stream = true]) build it. *)
Definition call_kwargs (model : string) (default_kwargs kwargs : dict)
    (messages : list ChatMessage) (tools : option (list value)) (stream : bool)
  : dict :=
  let merged_kwargs := merge default_kwargs kwargs in
  let base := ([("model", PStr model); ("messages", api_messages messages)]
               ++ (if stream then [("stream", PBool true)] else []))%list in
  let request := merge base merged_kwargs in
  if list_truthy tools
  then match tools with
       | Some ts => store "tool_choice" (PStr "auto") (store "tools" (PList ts) request)
       | None => request
       end
  else request.

(** ** Reading the response *)

(** The dict built for one tool call of the response. *)
Definition call_of_api (tc : ApiToolCall) : value :=
  PDict [("id", PStr (api_id tc));
         ("type", PStr "function");
         ("function", PDict [("name", PStr (api_name (api_function tc)));
                             ("arguments", PStr (api_arguments (api_function tc)))])].

(** The [usage] of the [ModelResponse]: zeros when the response reports
    none. *)
Definition usage_of_api (u : option ApiUsage) : list (string * Z) :=
  [("prompt_tokens", match u with Some x => api_prompt_tokens x | None => 0%Z end);
   ("completion_tokens", match u with Some x => api_completion_tokens x | None => 0%Z end);
   ("total_tokens", match u with Some x => api_total_tokens x | None => 0%Z end)].

(** What [chat_completion] makes of the response; [response.choices[0]]
    raises an [IndexError] when there is no choice. *)
Definition read_response (response : ApiResponse) : completion ModelResponse :=
  match api_choices response with
  | [] => Raised (Exn (OtherException "IndexError") "list index out of range")
  | choice :: _ =>
      let m := api_message choice in
      Returned
        {| message :=
             {| role := "assistant";
                content := api_content m;
                tool_calls := if list_truthy (api_tool_calls m)
                              then match api_tool_calls m with
                                   | Some tcs => Some (map call_of_api tcs)
                                   | None => None
                                   end
                              else None;
                tool_call_id := PNone;
                name := None |};
           finish_reason := api_finish_reason choice;
           usage := usage_of_api (api_usage response) |}
  end.

Section WithClient.

(** [self.client.chat.completions.create] on the keyword arguments
    [call_kwargs]. *)
Variable World : Type.
Variable create : dict -> World -> completion ApiResponse * World.

(** [OpenAIProvider.chat_completion]: an exception of the client or of
    the reading is logged and raised again. *)
Definition chat_completion (model : string) (default_kwargs kwargs : dict)
    (messages : list ChatMessage) (tools : option (list value)) (w : World)
  : completion ModelResponse * World :=
  match create (call_kwargs model default_kwargs kwargs messages tools false) w with
  | (Returned response, w') => (read_response response, w')
  | (Raised e, w') => (Raised e, w')
  end.

End WithClient.

(** The tool calls a response carries, none counting as the empty
    list. *)
Definition calls_of (r : ModelResponse) : list value :=
  match tool_calls (message r) with Some l => l | None => [] end.

(** A response that asks for one tool call and reports no usage. *)
Definition one_call_response : ApiResponse :=
  {| api_choices :=
       [{| api_message :=
             {| api_content := None;
                api_tool_calls :=
                  Some [{| api_id := "call_1";
                           api_function := {| api_name := "web_search";
                                              api_arguments := "{}" |} |}] |};
           api_finish_reason := "tool_calls" |}];
     api_usage := None |}.

End Completion.

(* ===================================================================== *)
(** * agent/tools.py: the todo tool                                       *)
(* ===================================================================== *)

Module Todo.
Import Py Tools.

(** The dictionary [TodoTool.execute] keeps for one item. The keys
    [id], [title], [description], [status], [created_at] and
    [parent_id] are set when the item is added, [completed_at] goes
    last when the item is first completed. *)
Record TodoItem : Type := {
  todo_id : string;
  todo_title : value;
  todo_description : value;
  todo_status : string;
  todo_created_at : string;
  todo_parent_id : value;
  todo_completed_at : option string
}.

(** [self.items]: items by id, in insertion order. *)
Definition Items : Type := list (string * TodoItem).

(** The item as the value that goes into an output. *)
Definition item_value (i : TodoItem) : value :=
  PDict ([("id", PStr (todo_id i));
          ("title", todo_title i);
          ("description", todo_description i);
          ("status", PStr (todo_status i));
          ("created_at", PStr (todo_created_at i));
          ("parent_id", todo_parent_id i)]
         ++ match todo_completed_at i with
            | Some t => [("completed_at", PStr t)]
            | None => []
            end)%list.

(** The parameters of [execute] once bound. *)
Record Bound : Type := {
  action : value;
  item_id : value;
  title : value;
  description : value;
  parent_id : value
}.

(** Binding the keyword arguments of a call of the bound method
    [execute]: [action] is required, the four others default to [None],
    every other keyword goes to the catch-all parameter, and [self] is
    already taken. *)
Definition bind_arguments (kwargs : dict) : completion Bound :=
  match lookup "self" kwargs with
  | Some _ =>
      Raised (Exn TypeError
                "TodoTool.execute() got multiple values for argument 'self'")
  | None =>
      match lookup "action" kwargs with
      | None =>
          Raised (Exn TypeError
                    "TodoTool.execute() missing 1 required positional argument: 'action'")
      | Some a =>
          Returned {| action := a;
                      item_id := get kwargs "item_id" PNone;
                      title := get kwargs "title" PNone;
                      description := get kwargs "description" PNone;
                      parent_id := get kwargs "parent_id" PNone |}
      end
  end.

(** [ToolResult(success=False, output=None, error=msg)]. *)
Definition failed (msg : string) : ToolResult :=
  {| success := false; output := PNone; Tools.error := Some msg; metadata := [] |}.

(** [ToolResult(success=True, output=out, metadata=md)]. *)
Definition succeeded (out : value) (md : dict) : ToolResult :=
  {| success := true; output := out; Tools.error := None; metadata := md |}.

(** [self.items.values()] and the two counts of [list] and [get_state]. *)
Definition values (items : Items) : list TodoItem := map snd items.

Definition with_status (st : string) (l : list TodoItem) : list TodoItem :=
  filter (fun i => String.eqb (todo_status i) st) l.

(** [TodoTool.get_state], which is also the output of the action
    [list]. *)
Definition get_state (items : Items) : dict :=
  let items_list := values items in
  [("items", PList (map item_value items_list));
   ("pending_count", PInt (Z.of_nat (List.length (with_status "pending" items_list))));
   ("completed_count",
    PInt (Z.of_nat (List.length (with_status "completed" items_list))))].

(** [ToolSet.get_todo_state], for the items of the registered tool. *)
Definition get_todo_state (ts : ToolSet) (items : Items) : option dict :=
  match lookup "todo" (tools ts) with
  | Some (TodoTool _) => Some (get_state items)
  | _ => None
  end.

Section Execute.

(** [str(v)] for a value that is not a [str]. *)
Variable repr : value -> string.

Definition str_of (v : value) : string :=
  match v with PStr s => s | _ => repr v end.

(** [item_id not in self.items]: the keys are strings, a value of
    another hashable type equals none of them, and a [list] or a [dict]
    cannot be hashed. *)
Definition not_in (item_id : value) (items : Items) : completion bool :=
  match item_id with
  | PStr k => Returned (match lookup k items with Some _ => false | None => true end)
  | PList _ | PDict _ =>
      Raised (Exn TypeError ("unhashable type: '" ++ type_name item_id ++ "'"))
  | _ => Returned true
  end.

(** [not item_id or item_id not in self.items]. *)
Definition not_found (item_id : value) (items : Items) : completion bool :=
  if negb (truthy item_id) then Returned true else not_in item_id items.

(** [self.items[item_id]]. *)
Definition item_of (item_id : value) (items : Items)
  : completion (string * TodoItem) :=
  match item_id with
  | PStr k =>
      match lookup k items with
      | Some i => Returned (k, i)
      | None => Raised (Exn KeyError (key_repr k))
      end
  | PList _ | PDict _ =>
      Raised (Exn TypeError ("unhashable type: '" ++ type_name item_id ++ "'"))
  | _ => Raised (Exn KeyError (repr item_id))
  end.

Definition set_completed (now : string) (i : TodoItem) : TodoItem :=
  {| todo_id := todo_id i; todo_title := todo_title i;
     todo_description := todo_description i; todo_status := "completed";
     todo_created_at := todo_created_at i; todo_parent_id := todo_parent_id i;
     todo_completed_at := Some now |}.

Definition set_title (t : value) (i : TodoItem) : TodoItem :=
  {| todo_id := todo_id i; todo_title := t;
     todo_description := todo_description i; todo_status := todo_status i;
     todo_created_at := todo_created_at i; todo_parent_id := todo_parent_id i;
     todo_completed_at := todo_completed_at i |}.

Definition set_description (d : value) (i : TodoItem) : TodoItem :=
  {| todo_id := todo_id i; todo_title := todo_title i;
     todo_description := d; todo_status := todo_status i;
     todo_created_at := todo_created_at i; todo_parent_id := todo_parent_id i;
     todo_completed_at := todo_completed_at i |}.

(** The item the action [add] creates. *)
Definition new_item (new_id now : string) (a : Bound) : TodoItem :=
  {| todo_id := new_id; todo_title := title a;
     todo_description := description a; todo_status := "pending";
     todo_created_at := now; todo_parent_id := parent_id a;
     todo_completed_at := None |}.

(** The item the action [update] leaves. *)
Definition updated (a : Bound) (i : TodoItem) : TodoItem :=
  let i1 := if truthy (title a) then set_title (title a) i else i in
  if truthy (description a) then set_description (description a) i1 else i1.

(** The body of the [try] of [TodoTool.execute]. [new_id] is what
    [str(uuid.uuid4())[:8]] gives at this call and [now] what
    [datetime.utcnow().isoformat()] gives; each is asked for at most
    once in a call. Whatever is raised is raised before the items are
    touched. *)
Definition body (items : Items) (new_id now : string) (a : Bound)
  : completion (ToolResult * Items) :=
  if eq_str (action a) "add" then
    if negb (truthy (title a))
    then Returned (failed "Title required for add action", items)
    else
      let item := new_item new_id now a in
      Returned (succeeded (PDict [("added", item_value item)])
                          [("item_id", PStr new_id)],
                store new_id item items)
  else if eq_str (action a) "complete" then
    match not_found (item_id a) items with
    | Raised e => Raised e
    | Returned true =>
        Returned (failed ("Item not found: " ++ str_of (item_id a)), items)
    | Returned false =>
        match item_of (item_id a) items with
        | Raised e => Raised e
        | Returned (k, i) =>
            let i' := set_completed now i in
            Returned (succeeded (PDict [("completed", item_value i')]) [],
                      store k i' items)
        end
    end
  else if eq_str (action a) "update" then
    match not_found (item_id a) items with
    | Raised e => Raised e
    | Returned true =>
        Returned (failed ("Item not found: " ++ str_of (item_id a)), items)
    | Returned false =>
        match item_of (item_id a) items with
        | Raised e => Raised e
        | Returned (k, i) =>
            let i' := updated a i in
            Returned (succeeded (PDict [("updated", item_value i')]) [],
                      store k i' items)
        end
    end
  else if eq_str (action a) "list" then
    Returned (succeeded (PDict (get_state items)) [], items)
  else if eq_str (action a) "clear" then
    Returned (succeeded (PDict [("cleared", PInt (Z.of_nat (List.length items)))]) [],
              [])
  else
    Returned (failed ("Unknown action: " ++ str_of (action a)), items).

(** [TodoTool.execute] on bound parameters: the result and the items
    it leaves. *)
Definition execute (items : Items) (new_id now : string) (a : Bound)
  : completion ToolResult * Items :=
  match body items new_id now a with
  | Returned (r, items') => (Returned r, items')
  | Raised e =>
      if is_Exception e then (Returned (failed (exn_str e)), items)
      else (Raised e, items)
  end.

(** The call of [execute] on keyword arguments, as [ToolSet.execute]
    makes it. *)
Definition call (items : Items) (new_id now : string) (kwargs : dict)
  : completion ToolResult * Items :=
  match bind_arguments kwargs with
  | Raised e => (Raised e, items)
  | Returned a => execute items new_id now a
  end.

(** One call of a session with the tool: the keyword arguments and
    what the two library calls give during it. *)
Record Call : Type := {
  call_new_id : string;
  call_now : string;
  call_arguments : dict
}.

(** The items after a session that starts with a new tool. *)
Definition after (session : list Call) : Items :=
  fold_left (fun items c =>
               snd (call items (call_new_id c) (call_now c) (call_arguments c)))
            session [].

End Execute.

(** The items are in order: each is filed under its own id, is pending
    or completed, and carries a completion time exactly when it is
    completed. *)
Definition in_order (items : Items) : Prop :=
  Forall (fun p =>
            todo_id (snd p) = fst p
            /\ (todo_status (snd p) = "pending" /\ todo_completed_at (snd p) = None
                \/ todo_status (snd p) = "completed"
                   /\ exists t, todo_completed_at (snd p) = Some t))
         items.

(** [pending_count] and [completed_count] of a state. *)
Definition pending_count (items : Items) : nat :=
  List.length (with_status "pending" (values items)).
Definition completed_count (items : Items) : nat :=
  List.length (with_status "completed" (values items)).

(** The items are kept well: they are in order and no id is filed
    twice. *)
Definition kept (items : Items) : Prop := in_order items /\ NoDup (keys items).

(** The outcomes the body of [execute] can have, one by one. *)
Inductive outcome (items : Items) (new_id now : string) (a : Bound)
  : completion (ToolResult * Items) -> Prop :=
| refused (msg : string) :
    msg <> "" -> outcome items new_id now a (Returned (failed msg, items))
| unhashable (e : exn) :
    exn_class_of e = TypeError -> exn_str e <> "" ->
    outcome items new_id now a (Raised e)
| added :
    eq_str (action a) "add" = true -> truthy (title a) = true ->
    outcome items new_id now a
      (Returned (succeeded (PDict [("added", item_value (new_item new_id now a))])
                           [("item_id", PStr new_id)],
                 store new_id (new_item new_id now a) items))
| completed (k : string) (i : TodoItem) :
    eq_str (action a) "complete" = true ->
    item_id a = PStr k -> k <> "" -> lookup k items = Some i ->
    outcome items new_id now a
      (Returned (succeeded (PDict [("completed", item_value (set_completed now i))]) [],
                 store k (set_completed now i) items))
| changed (k : string) (i : TodoItem) :
    eq_str (action a) "update" = true ->
    item_id a = PStr k -> k <> "" -> lookup k items = Some i ->
    outcome items new_id now a
      (Returned (succeeded (PDict [("updated", item_value (updated a i))]) [],
                 store k (updated a i) items))
| listed :
    eq_str (action a) "list" = true ->
    outcome items new_id now a
      (Returned (succeeded (PDict (get_state items)) [], items))
| cleared :
    eq_str (action a) "clear" = true ->
    outcome items new_id now a
      (Returned (succeeded (PDict [("cleared", PInt (Z.of_nat (List.length items)))]) [],
                 [])).


(** ** A small session *)

(** The arguments of a call that adds an item, and of one that
    completes the item of an id. *)
Definition add_request : Bound :=
  {| action := PStr "add"; item_id := PNone; title := PStr "Find sources";
     description := PNone; parent_id := PNone |}.

Definition complete_request (id : string) : Bound :=
  {| action := PStr "complete"; item_id := PStr id; title := PNone;
     description := PNone; parent_id := PNone |}.

(** The item that [add_request] files, and the items after it. *)
Definition sample_item : TodoItem :=
  new_item "1f0e9a77" "2024-05-01T10:00:00" add_request.

Definition sample_items : Items := [("1f0e9a77", sample_item)].

End Todo.

(* ===================================================================== *)
(** * agent/runner.py: the sections of a report                           *)
(* ===================================================================== *)

Module Runner.
Import Py Provider.

(** The line feed, and the separator of [split] and [join]. *)
Definition line_feed : ascii := ascii_of_nat 10.
Definition LF : string := String line_feed "".

(** [s.split(LF)]: the text between line feeds; a text without one is
    a single line, and so is the empty text. *)
Fixpoint split_lines (s : string) : list string :=
  match s with
  | EmptyString => [""]
  | String c s' =>
      if Ascii.eqb c line_feed then "" :: split_lines s'
      else match split_lines s' with
           | line :: rest => String c line :: rest
           | [] => [String c ""]
           end
  end.

(** [line[n:]]. *)
Definition from (n : nat) (line : string) : string :=
  slice n (String.length line) line.

(** The dictionary kept for one section of a report. *)
Record ReportSection : Type := {
  section_id : string;
  section_title : string;
  section_content : string
}.

(** The three variables of the loop of [_parse_report_sections]. *)
Record Parse : Type := {
  sections : list ReportSection;
  current_section : option string;
  current_content : list string
}.

Section WithIds.

(** [uuid8 n]: what [str(uuid.uuid4())[:8]] gives the [n]-th time it is
    asked during a call, counting from 0. It is asked once for each
    section that is appended. *)
Variable uuid8 : nat -> string.

(** [if current_section: sections.append(...)]. *)
Definition close_section (st : Parse) : list ReportSection :=
  if str_truthy (current_section st)
  then (sections st
        ++ [{| section_id := uuid8 (List.length (sections st));
               section_title := match current_section st with
                                | Some t => t
                                | None => ""
                                end;
               section_content := strip (join LF (current_content st)) |}])%list
  else sections st.

(** One turn of the loop over the lines. *)
Definition on_line (st : Parse) (line : string) : Parse :=
  if startswith "# " line then
    {| sections := close_section st;
       current_section := Some (strip (from 2 line));
       current_content := [] |}
  else if startswith "## " line then
    {| sections := close_section st;
       current_section := Some (strip (from 3 line));
       current_content := [] |}
  else if str_truthy (current_section st) then
    {| sections := sections st;
       current_section := current_section st;
       current_content := (current_content st ++ [line])%list |}
  else st.

Definition parse_start : Parse :=
  {| sections := []; current_section := None; current_content := [] |}.

(** [AgentRunner._parse_report_sections]. *)
Definition _parse_report_sections (markdown : string) : list ReportSection :=
  let st := fold_left on_line (split_lines markdown) parse_start in
  match close_section st with
  | [] => [{| section_id := uuid8 0;
              section_title := "Research Findings";
              section_content := markdown |}]
  | found => found
  end.

End WithIds.

(** The line is a header of the first or second level. *)
Definition is_header (line : string) : bool :=
  startswith "# " line || startswith "## " line.

(** The title a header line gives. *)
Definition header_title (line : string) : string :=
  if startswith "# " line then strip (from 2 line) else strip (from 3 line).

(** The titles of the header lines that have one, in the order of the
    lines. *)
Definition header_titles (lines : list string) : list string :=
  filter (fun t => negb (String.eqb t ""))
         (map header_title (filter is_header lines)).

(** The titles from a point of the loop on: the title that is open, if
    it is not empty, when the next header or the end is reached. *)
Fixpoint titles_from (open : option string) (lines : list string) : list string :=
  let closing := match open with
                 | Some t => if String.eqb t "" then [] else [t]
                 | None => []
                 end in
  match lines with
  | [] => closing
  | line :: rest =>
      if is_header line
      then (closing ++ titles_from (Some (header_title line)) rest)%list
      else titles_from open rest
  end.

(** Ids for the examples: [id-0], [id-1], ... *)
Definition counted_ids (n : nat) : string := "id-" ++ str_of_int (Z.of_nat n).

End Runner.

(* ===================================================================== *)
(** * agent/runner.py: the step callback                                  *)
(* ===================================================================== *)

Module RunnerStep.
Import Py Provider Tools Agent.

(** [tool_type_map] of [_record_tool_event], each [ToolType] by its
    value. *)
Definition tool_type_map : list (string * string) :=
  [("web_search", "web_search");
   ("web_browse", "web_browse");
   ("batch_web_surfer", "web_search");
   ("file_read", "file_read");
   ("file_write", "file_write");
   ("file_edit", "file_edit");
   ("todo", "todo");
   ("shell", "shell")].

Section WithRunner.

Context {E : Externals}.

(** What the callback calls but does not define:
    - [tool_event_count]: the runner's counter of the tool calls it has
      recorded;
    - [phase_changed state]: the first block of [_on_step], which
      updates the run in the database and emits the phase when the
      phase has changed;
    - [create_tool_event tool_call tool_type args]: what
      [_record_tool_event] does once the arguments are decoded and what
      follows it in the loop of [_on_step]: it builds the [ToolEvent]
      (and parses the time stamp for it), stores it, emits it, and adds
      one to the counter;
    - [progress_updated state]: the end of [_on_step], the todo state
      and the metrics. *)
Variable tool_event_count : World -> nat.
Variable phase_changed : AgentState -> World -> completion unit * World.
Variable create_tool_event :
  ToolCallRecord -> string -> value -> World -> completion unit * World.
Variable progress_updated : AgentState -> World -> completion unit * World.

(** [tool_type_map.get(tool_name, ToolType.WEB_SEARCH)]; a record of
    [state.tool_calls] always has its [tool] entry. *)
Definition tool_type (tool_name : value) : completion string :=
  match tool_name with
  | PStr n =>
      Returned (match lookup n tool_type_map with
                | Some t => t
                | None => "web_search"
                end)
  | PList _ | PDict _ =>
      Raised (Exn TypeError ("unhashable type: '" ++ type_name tool_name ++ "'"))
  | _ => Returned "web_search"
  end.

(** The [args] of the event: the logged arguments decoded with
    [json.loads] when they are a [str], the empty object otherwise. The
    decoding is under no [try]. *)
Definition event_args (args : value) : completion value :=
  match args with
  | PStr a => json_loads a
  | _ => Returned (PDict [])
  end.

(** [AgentRunner._record_tool_event]. *)
Definition _record_tool_event (tool_call : ToolCallRecord) (w : World)
  : completion unit * World :=
  match tool_type (tcr_tool tool_call) with
  | Raised e => (Raised e, w)
  | Returned t =>
      match event_args (tcr_args tool_call) with
      | Raised e => (Raised e, w)
      | Returned args => create_tool_event tool_call t args w
      end
  end.

(** [for tool_call in state.tool_calls[self.tool_event_count:]]. *)
Fixpoint record_events (new_calls : list ToolCallRecord) (w : World)
  : completion unit * World :=
  match new_calls with
  | [] => (Returned tt, w)
  | tool_call :: rest =>
      match _record_tool_event tool_call w with
      | (Raised e, w1) => (Raised e, w1)
      | (Returned _, w1) => record_events rest w1
      end
  end.

(** [AgentRunner._on_step], the callback that [AgentRunner.execute]
    passes to [ReActAgent.run]. *)
Definition _on_step (state : AgentState) (w : World) : completion unit * World :=
  match phase_changed state w with
  | (Raised e, w1) => (Raised e, w1)
  | (Returned _, w1) =>
      match record_events (skipn (tool_event_count w1) (tool_call_log state)) w1 with
      | (Raised e, w2) => (Raised e, w2)
      | (Returned _, w2) => progress_updated state w2
      end
  end.

End WithRunner.

(** The callback of a runner that has recorded no tool call yet, with a
    database and an emitter that accept everything, in the scripted
    environment. *)
Definition accepting_on_step
  : AgentState -> Scripted.world -> completion unit * Scripted.world :=
  @_on_step Scripted.env
    (fun _ => 0%nat)
    (fun _ w => (Returned tt, w))
    (fun _ _ _ w => (Returned tt, w))
    (fun _ w => (Returned tt, w)).

End RunnerStep.

(* ===================================================================== *)
(** * Properties of the streamed completion                               *)
(* ===================================================================== *)

Module ProviderFacts.
Import Py Provider.

(** ** Lookups in the dict of partial calls *)

Lemma zlookup_zalter {A : Type} (f : A -> A) (i j : Z) (d : list (Z * A)) :
  zlookup i (zalter f j d)
  = if Z.eqb i j then option_map f (zlookup i d) else zlookup i d.
Proof.
  induction d as [|[k v] d IH]; simpl.
  - destruct (Z.eqb i j); reflexivity.
  - destruct (Z.eqb j k) eqn:Ejk; simpl.
    + apply Z.eqb_eq in Ejk; subst k.
      destruct (Z.eqb i j) eqn:Eij; reflexivity.
    + destruct (Z.eqb i k) eqn:Eik.
      * destruct (Z.eqb i j) eqn:Eij; [|reflexivity].
        apply Z.eqb_eq in Eij, Eik. subst. rewrite Z.eqb_refl in Ejk. discriminate.
      * exact IH.
Qed.

Lemma zlookup_snoc {A : Type} (i j : Z) (v : A) (d : list (Z * A)) :
  zlookup i (d ++ [(j, v)])
  = match zlookup i d with
    | Some x => Some x
    | None => if Z.eqb i j then Some v else None
    end.
Proof.
  induction d as [|[k x] d IH]; simpl; [reflexivity|].
  destruct (Z.eqb i k); [reflexivity | exact IH].
Qed.

Lemma zlookup_accumulate (acc : list (Z * PartialCall)) (tc : ToolCallDelta) (i : Z) :
  zlookup i (accumulate_fragment acc tc)
  = if Z.eqb i (tc_index tc)
    then Some (merge tc (or_fresh tc (zlookup i acc)))
    else zlookup i acc.
Proof.
  unfold accumulate_fragment, merge, str_truthy.
  set (acc1 := match zlookup (tc_index tc) acc with
               | Some _ => acc
               | None => (acc ++ [(tc_index tc, fresh_call tc)])%list
               end).
  assert (H1 : zlookup i acc1
               = if Z.eqb i (tc_index tc)
                 then Some (or_fresh tc (zlookup i acc)) else zlookup i acc).
  { subst acc1. destruct (Z.eqb i (tc_index tc)) eqn:Ei.
    - apply Z.eqb_eq in Ei; subst i.
      destruct (zlookup (tc_index tc) acc) eqn:El; simpl.
      + exact El.
      + rewrite zlookup_snoc, El, Z.eqb_refl. reflexivity.
    - destruct (zlookup (tc_index tc) acc); [reflexivity|].
      rewrite zlookup_snoc, Ei. destruct (zlookup i acc); reflexivity. }
  clearbody acc1.
  destruct (Z.eqb i (tc_index tc)) eqn:Ei;
    destruct (tc_id tc) as [s|]; try destruct (String.eqb s ""); simpl;
    destruct (tc_function tc) as [[[n|] [a|]]|]; simpl;
    try destruct (String.eqb n ""); try destruct (String.eqb a ""); simpl;
    repeat rewrite zlookup_zalter; rewrite ?Ei, ?H1; reflexivity.
Qed.

Lemma zlookup_fold (frags : list ToolCallDelta) (acc : list (Z * PartialCall)) (i : Z) :
  zlookup i (fold_left accumulate_fragment frags acc)
  = match zlookup i acc, fragments_at i frags with
    | Some c, fs => Some (fold_left (fun c tc => merge tc c) fs c)
    | None, [] => None
    | None, tc0 :: fs => Some (fold_left (fun c tc => merge tc c) (tc0 :: fs) (fresh_call tc0))
    end.
Proof.
  revert acc. induction frags as [|tc frags IH]; intros acc; simpl.
  - destruct (zlookup i acc); reflexivity.
  - rewrite IH, zlookup_accumulate. rewrite (Z.eqb_sym (tc_index tc) i).
    destruct (Z.eqb i (tc_index tc)); simpl.
    + destruct (zlookup i acc); reflexivity.
    + destruct (zlookup i acc); reflexivity.
Qed.

(** The three fields of an entry after it has taken in some fragments. *)
Lemma last_nonempty {A : Type} (l : list A) (d d' : A) :
  l <> [] -> List.last l d = List.last l d'.
Proof.
  induction l as [|a l IH]; intros H; [congruence|].
  destruct l as [|b l]; [reflexivity|].
  change (List.last (b :: l) d = List.last (b :: l) d'). apply IH. discriminate.
Qed.

Lemma last_cons {A : Type} (a : A) (l : list A) (d : A) :
  List.last (a :: l) d = List.last l a.
Proof.
  destruct l as [|b l]; [reflexivity|].
  change (List.last (b :: l) d = List.last (b :: l) a).
  apply last_nonempty. discriminate.
Qed.

#[local] Arguments List.last : simpl never.

Lemma merged_id (fs : list ToolCallDelta) (c : PartialCall) :
  pc_id (fold_left (fun c tc => merge tc c) fs c)
  = List.last (ids_supplied fs) (pc_id c).
Proof.
  revert c. induction fs as [|tc fs IH]; intros c; simpl; [reflexivity|].
  rewrite IH. unfold merge.
  destruct (tc_id tc) as [s|]; [destruct (String.eqb s "")|]; simpl;
    rewrite ?last_cons;
    destruct (tc_function tc) as [[[n|] [a|]]|]; simpl;
    try destruct (String.eqb n ""); try destruct (String.eqb a "");
    reflexivity.
Qed.

Lemma merged_name (fs : list ToolCallDelta) (c : PartialCall) :
  pc_name (fold_left (fun c tc => merge tc c) fs c)
  = List.last (map Some (names_supplied fs)) (pc_name c).
Proof.
  revert c. induction fs as [|tc fs IH]; intros c; simpl; [reflexivity|].
  rewrite IH. unfold merge.
  destruct (tc_function tc) as [[[n|] [a|]]|]; simpl;
    try destruct (String.eqb n ""); simpl; rewrite ?last_cons;
    try destruct (String.eqb a "");
    destruct (tc_id tc) as [s|]; try destruct (String.eqb s "");
    reflexivity.
Qed.

Lemma append_empty_r (s : string) : s ++ "" = s.
Proof. induction s as [|a s IH]; simpl; [reflexivity | now rewrite IH]. Qed.

Lemma append_assoc (s t u : string) : (s ++ t) ++ u = s ++ (t ++ u).
Proof. induction s as [|a s IH]; simpl; [reflexivity | now rewrite IH]. Qed.

Lemma merged_arguments (fs : list ToolCallDelta) (c : PartialCall) :
  pc_arguments (fold_left (fun c tc => merge tc c) fs c)
  = pc_arguments c ++ concat_texts (argument_texts fs).
Proof.
  revert c. induction fs as [|tc fs IH]; intros c; simpl.
  - now rewrite append_empty_r.
  - rewrite IH. unfold merge.
    destruct (tc_function tc) as [[[n|] [a|]]|]; simpl;
      try destruct (String.eqb n "");
      try (destruct (String.eqb a "") eqn:Ea;
           [apply String.eqb_eq in Ea; subst a|]);
      destruct (tc_id tc) as [s|]; try destruct (String.eqb s "");
      simpl; rewrite ?append_assoc; reflexivity.
Qed.

Lemma fresh_id_default (tc : ToolCallDelta) (fs : list ToolCallDelta) :
  List.last (ids_supplied (tc :: fs)) (pc_id (fresh_call tc))
  = List.last (ids_supplied (tc :: fs)) "".
Proof.
  unfold fresh_call, str_truthy; simpl.
  destruct (tc_id tc) as [s|]; simpl; [|reflexivity].
  destruct (String.eqb s "") eqn:Es; simpl; [reflexivity|].
  now rewrite !last_cons.
Qed.

Lemma fragments_of_stream (chunks : list Chunk) (st : StreamState) :
  accumulated_tool_calls (stream_state st chunks)
  = fold_left accumulate_fragment (fragments chunks) (accumulated_tool_calls st).
Proof.
  revert st. induction chunks as [|ch chunks IH]; intros st; [reflexivity|].
  unfold stream_state in *. simpl. rewrite IH. rewrite fold_left_app. f_equal.
  unfold on_chunk.
  destruct (chunk_choices ch) as [|choice rest]; [reflexivity|]. simpl.
  destruct (delta_tool_calls (choice_delta choice)) as [[|tc tcs]|]; reflexivity.
Qed.

Lemma on_chunk_skip (st st' : StreamState) (ch : Chunk) :
  on_chunk st ch = (st', None) -> st' = st.
Proof.
  unfold on_chunk. destruct (chunk_choices ch); [|discriminate].
  intros H. now injection H.
Qed.

(** The last response yielded carries the calls held at the end of the
    stream. *)
Lemma no_yield_no_change (chunks : list Chunk) (st : StreamState) :
  stream_from st chunks = [] -> stream_state st chunks = st.
Proof.
  revert st. induction chunks as [|ch chunks IH]; intros st H; [reflexivity|].
  simpl in H. unfold stream_state. simpl.
  destruct (on_chunk st ch) as [st' [r|]] eqn:E; [discriminate|].
  simpl. apply on_chunk_skip in E. subst st'. apply IH, H.
Qed.

Lemma last_yield_calls (chunks : list Chunk) (st : StreamState) (r : ModelResponse) :
  last_of (stream_from st chunks) = Some r ->
  tool_calls (message r)
  = calls_value (accumulated_tool_calls (stream_state st chunks)).
Proof.
  revert st. induction chunks as [|ch chunks IH]; intros st H; [discriminate|].
  simpl in H. unfold stream_state. simpl.
  destruct (on_chunk st ch) as [st' [r0|]] eqn:E; simpl.
  - destruct (stream_from st' chunks) as [|r1 rs] eqn:Es.
    + injection H as <-. apply no_yield_no_change in Es.
      fold (stream_state st' chunks). rewrite Es.
      unfold on_chunk in E. destruct (chunk_choices ch); [discriminate|].
      injection E as <- <-. reflexivity.
    + apply IH. rewrite Es. exact H.
  - apply on_chunk_skip in E. subst st'. apply IH, H.
Qed.

(** C4, as amended. For each stream index, the reassembled call is the
    one its fragments describe: there is a call for the index exactly
    when some fragment carries it; its name is the one supplied by the
    latest fragment of that index that supplies a non-empty name (the
    name the first fragment opened the call with when none does); its
    arguments are all argument texts of that index, concatenated in
    arrival order. These calls are the ones the last response yielded
    carries. *)
Theorem reassembled_call_of_fragments (chunks : list Chunk) (i : Z) :
  zlookup i (reassembled_calls chunks)
  = call_of_fragments (fragments_at i (fragments chunks))
  /\ forall r, last_of (chat_completion_stream chunks) = Some r ->
               tool_calls (message r) = calls_value (reassembled_calls chunks).
Proof.
  split; [|intros r; apply last_yield_calls].
  unfold reassembled_calls. rewrite fragments_of_stream, zlookup_fold.
  cbn [stream_start accumulated_tool_calls zlookup].
  unfold call_of_fragments.
  destruct (fragments_at i (fragments chunks)) as [|tc0 fs]; [reflexivity|].
  f_equal.
  set (c := fold_left _ _ _).
  assert (Hid : pc_id c = List.last (ids_supplied (tc0 :: fs)) "")
    by (subst c; rewrite merged_id; apply fresh_id_default).
  assert (Hn : pc_name c = List.last (map Some (names_supplied (tc0 :: fs)))
                             (pc_name (fresh_call tc0)))
    by (subst c; apply merged_name).
  assert (Ha : pc_arguments c = concat_texts (argument_texts (tc0 :: fs)))
    by (subst c; rewrite merged_arguments; reflexivity).
  destruct c as [cid cname cargs]; simpl in *. now subst.
Qed.

(** C4, as stated, fails: two fragments of index 0 naming first
    [web_search] and then [web_browse] leave [web_browse] as the name of
    the reassembled call, not the name supplied first. *)
Lemma first_name_is_not_kept :
  zlookup 0 (reassembled_calls renamed_stream)
  = Some {| pc_id := ""; pc_name := Some "web_browse"; pc_arguments := "{}" |}
  /\ names_supplied (fragments_at 0 (fragments renamed_stream))
     = ["web_search"; "web_browse"]
  /\ ~ first_name_is_kept.
Proof.
  split; [reflexivity|]. split; [reflexivity|].
  intros H.
  destruct (H renamed_stream 0%Z
                {| pc_id := ""; pc_name := Some "web_browse"; pc_arguments := "{}" |}
                "web_search" ["web_browse"] eq_refl eq_refl) as [Hname _].
  discriminate Hname.
Qed.

(** ** The yielded contents grow *)

Lemma content_le_refl (a : option string) : content_le a a.
Proof. destruct a as [s|]; simpl; [exists ""; now rewrite append_empty_r | exact I]. Qed.

Lemma content_le_trans (a b c : option string) :
  content_le a b -> content_le b c -> content_le a c.
Proof.
  destruct a as [s|], b as [t|], c as [u|]; simpl; try tauto.
  intros [x ->] [y ->]. exists (x ++ y). apply append_assoc.
Qed.

Lemma append_eq_empty (s t : string) : s ++ t = "" -> s = "".
Proof. destruct s; simpl; [reflexivity | discriminate]. Qed.

Lemma on_chunk_yield (st st' : StreamState) (ch : Chunk) (r : ModelResponse) :
  on_chunk st ch = (st', Some r) ->
  content (message r) = text_of st' /\ content_le (text_of st) (text_of st').
Proof.
  unfold on_chunk. destruct (chunk_choices ch) as [|choice rest]; [discriminate|].
  intros H. injection H as <- <-. split; [reflexivity|].
  unfold text_of, str_truthy; simpl.
  destruct (delta_content (choice_delta choice)) as [c|]; [|apply content_le_refl].
  destruct (String.eqb c ""); simpl; [apply content_le_refl|].
  destruct (String.eqb (accumulated_content st) "") eqn:E0; [exact I|].
  destruct (String.eqb (accumulated_content st ++ c) "") eqn:E1.
  - apply String.eqb_eq, append_eq_empty in E1. rewrite E1 in E0. discriminate.
  - exists c. reflexivity.
Qed.

Lemma stream_from_grows (chunks : list Chunk) (st : StreamState) :
  let ys := map (fun r => content (message r)) (stream_from st chunks) in
  chain content_le ys /\ Forall (content_le (text_of st)) ys.
Proof.
  revert st. induction chunks as [|ch chunks IH]; intros st; simpl.
  - split; [exact I | constructor].
  - destruct (on_chunk st ch) as [st' [r|]] eqn:E.
    + destruct (on_chunk_yield _ _ E) as [Hr Hle].
      destruct (IH st') as [Hc Hall]. simpl in Hc, Hall. simpl. split.
      * destruct (map _ (stream_from st' chunks)) as [|b tl] eqn:Em; [exact I|].
        split; [|exact Hc]. rewrite Hr. now inversion Hall.
      * constructor; [now rewrite Hr|].
        eapply Forall_impl; [|exact Hall].
        intros a Ha. eapply content_le_trans; eassumption.
    + apply on_chunk_skip in E. subst st'. apply IH.
Qed.

(** The contents of the responses yielded for a stream form a
    sequence that never shrinks: each response's content extends the
    content of the response before it (no content at all counting as
    the empty beginning). *)
Lemma stream_contents_grow (chunks : list Chunk) :
  chain content_le
    (map (fun r => content (message r)) (chat_completion_stream chunks)).
Proof. exact (proj1 (stream_from_grows chunks stream_start)). Qed.

End ProviderFacts.

(* ===================================================================== *)
(** * Properties of the tool registry                                     *)
(* ===================================================================== *)

Module ToolsFacts.
Import Py Provider Tools Agent.

Lemma flag_enabled_iff (a : option dict) (flag : string) :
  flag_enabled (ablations_or_empty a) flag = true <-> absent_or_true a flag.
Proof.
  unfold flag_enabled, get, absent_or_true, ablations_or_empty.
  destruct a as [[|kv d]|]; cbn -[lookup].
  - split; [intros _; now left | reflexivity].
  - destruct (lookup flag (kv :: d)) as [v|]; split.
    + intros H. right. now exists v.
    + intros [H|[v' [H Hv]]]; [discriminate | congruence].
    + intros _. now left.
    + reflexivity.
  - split; [intros _; exact I | reflexivity].
Qed.

(** C10. Whatever the ablations, the registry holds the five core tools
    and, beyond them, [todo] exactly when [enable_todo_state] is absent
    or true, [file_edit] exactly when [enable_patch_editing] is absent
    or true, and [reflect] and [cross_validate] exactly when
    [enable_reflection] is absent or true, so that one is registered
    exactly when the other is; it holds nothing else, and no name
    twice. *)
Theorem registry_of_ablations (context_id workdir : string) (a : option dict) :
  let names := list_tools (ToolSet_init context_id workdir a) in
  (forall n, In n core_tools -> In n names)
  /\ (In "todo" names <-> absent_or_true a "enable_todo_state")
  /\ (In "file_edit" names <-> absent_or_true a "enable_patch_editing")
  /\ (In "reflect" names <-> absent_or_true a "enable_reflection")
  /\ (In "cross_validate" names <-> absent_or_true a "enable_reflection")
  /\ (In "reflect" names <-> In "cross_validate" names)
  /\ (forall n, In n names ->
        In n core_tools \/ n = "todo" \/ n = "file_edit"
        \/ n = "reflect" \/ n = "cross_validate")
  /\ NoDup names.
Proof.
  intros names. subst names.
  rewrite <- !flag_enabled_iff.
  unfold ToolSet_init, list_tools, core_tools.
  destruct (flag_enabled (ablations_or_empty a) "enable_todo_state");
    destruct (flag_enabled (ablations_or_empty a) "enable_patch_editing");
    destruct (flag_enabled (ablations_or_empty a) "enable_reflection");
    cbn;
    (split; [intros n Hn; tauto|]);
    (repeat (split; [split; intros H; solve [intuition discriminate]|]));
    (split; [intros n Hn; intuition congruence|]);
    repeat (constructor; [cbn; intuition discriminate|]); constructor.
Qed.

End ToolsFacts.

(* ===================================================================== *)
(** * Properties of the ReAct loop                                        *)
(* ===================================================================== *)

Module AgentFacts.
Import Py Provider Tools Agent.

Section WithExternals.

Context {E : Externals}.

(** ** Dispatch *)

Lemma first_clash_none (d : dict) :
  first_clash d = None
  <-> lookup "self" d = None /\ lookup "tool_name" d = None.
Proof.
  unfold first_clash, keys.
  induction d as [|[k v] d IH]; cbn [lookup List.find map fst]; [tauto|].
  rewrite (String.eqb_sym "self" k), (String.eqb_sym "tool_name" k).
  destruct (String.eqb k "self"); cbn [orb].
  - split; [discriminate | intros [H _]; discriminate].
  - destruct (String.eqb k "tool_name"); [|exact IH].
    split; [discriminate | intros [_ H]; discriminate].
Qed.

Lemma first_clash_some (d : dict) (k : string) :
  first_clash d = Some k -> k = "self" \/ k = "tool_name".
Proof.
  unfold first_clash. intros H. apply find_some in H. destruct H as [_ H].
  apply orb_true_iff in H. destruct H as [H|H]; apply String.eqb_eq in H; auto.
Qed.

(** C7. For a name the registry does not hold and keyword arguments
    that name neither [self] nor [tool_name], the call of
    [ToolSet.execute] raises nothing and returns the failed result that
    names the tool, whatever happened before; it leaves the world as it
    found it, so any two such calls, in either order, return the same
    result. Keyword arguments that name [self] or [tool_name] make the
    call raise a [TypeError] instead. *)
Theorem execute_unknown_tool (ts : ToolSet) (tool_name : string)
    (kwargs : dict) (w : World) :
  lookup tool_name (tools ts) = None ->
  lookup "self" kwargs = None ->
  lookup "tool_name" kwargs = None ->
  call_execute ts (PStr tool_name) (PDict kwargs) w
  = (Returned (unknown_tool_result tool_name), w)
  /\ success (unknown_tool_result tool_name) = false
  /\ output (unknown_tool_result tool_name) = PNone
  /\ Tools.error (unknown_tool_result tool_name) = Some ("Unknown tool: " ++ tool_name)
  /\ (forall kwargs' w',
        lookup "self" kwargs' = None ->
        lookup "tool_name" kwargs' = None ->
        call_execute ts (PStr tool_name) (PDict kwargs') w'
        = (Returned (unknown_tool_result tool_name), w'))
  /\ (forall kwargs' w',
        lookup "self" kwargs' <> None \/ lookup "tool_name" kwargs' <> None ->
        exists e,
          call_execute ts (PStr tool_name) (PDict kwargs') w' = (Raised e, w')
          /\ exn_class_of e = TypeError).
Proof.
  intros H Hs Ht.
  assert (Hx : forall k v, lookup "self" k = None -> lookup "tool_name" k = None ->
                 call_execute ts (PStr tool_name) (PDict k) v
                 = (Returned (unknown_tool_result tool_name), v)).
  { intros k v H1 H2. unfold call_execute.
    rewrite (proj2 (first_clash_none k) (conj H1 H2)).
    unfold ToolSet_execute, get_tool. rewrite H. reflexivity. }
  split; [now apply Hx|]. do 3 (split; [reflexivity|]).
  split; [exact Hx|].
  intros k v Hk. unfold call_execute.
  destruct (first_clash k) as [c|] eqn:Hc.
  - eexists. split; reflexivity.
  - apply first_clash_none in Hc. destruct Hc as [H1 H2].
    destruct Hk as [Hk|Hk]; now elim Hk.
Qed.

(** ** The tool-role message *)

(** The content is the serialized output exactly when the output counts
    as true, and the error otherwise, success or not. *)
Lemma tool_message_content_cases (r : ToolResult) :
  (truthy (output r) = true -> tool_message_content r = Some (json_dumps (output r)))
  /\ (truthy (output r) = false -> tool_message_content r = Tools.error r).
Proof. unfold tool_message_content. split; intros ->; reflexivity. Qed.

(** ** Computations that keep a relation *)

Section Preservation.

Variable R : AgentState -> AgentState -> Prop.
Hypothesis R_refl : forall s, R s s.
Hypothesis R_trans : forall s1 s2 s3, R s1 s2 -> R s2 s3 -> R s1 s3.

Lemma preserves_ret {A : Type} (a : A) : preserves R (ret a).
Proof. intros s w c s' w' H. injection H as _ <- _. apply R_refl. Qed.

Lemma preserves_eval {A : Type} (c : completion A) : preserves R (expr c).
Proof. intros s w c' s' w' H. injection H as _ <- _. apply R_refl. Qed.

Lemma preserves_get_state : preserves R get_state.
Proof. intros s w c s' w' H. injection H as _ <- _. apply R_refl. Qed.

Lemma preserves_call {A : Type} (f : World -> completion A * World) :
  preserves R (call f).
Proof.
  intros s w c s' w' H. unfold call in H. destruct (f w).
  injection H as _ <- _. apply R_refl.
Qed.

Lemma preserves_now : preserves R timestamp.
Proof.
  intros s w c s' w' H. unfold timestamp in H. destruct (utcnow_isoformat w).
  injection H as _ <- _. apply R_refl.
Qed.

Lemma preserves_modify (f : AgentState -> AgentState) :
  (forall s, R s (f s)) -> preserves R (modify f).
Proof. intros Hf s w c s' w' H. injection H as _ <- _. apply Hf. Qed.

Lemma preserves_bind {A B : Type} (m : M A) (k : A -> M B) :
  preserves R m -> (forall a, preserves R (k a)) -> preserves R (bind m k).
Proof.
  intros Hm Hk s w c s' w' H. unfold bind in H.
  destruct (m s w) as [[[a|e] s1] w1] eqn:Em.
  - eapply R_trans; [eapply Hm; eassumption | eapply Hk; eassumption].
  - injection H as _ <- _. eapply Hm; eassumption.
Qed.

Lemma preserves_for_each {A : Type} (l : list A) (body : A -> M unit) :
  (forall x, preserves R (body x)) -> preserves R (for_each l body).
Proof.
  intros Hb. induction l as [|x l IH]; simpl.
  - apply preserves_ret.
  - apply preserves_bind; [apply Hb | intros _; exact IH].
Qed.

End Preservation.

Lemma preserves_weaken {A : Type} (R R' : AgentState -> AgentState -> Prop)
    (m : M A) :
  (forall s s', R s s' -> R' s s') -> preserves R m -> preserves R' m.
Proof. intros HRR Hm s w c s' w' H. apply HRR. eapply Hm; eassumption. Qed.

Lemma quiet_refl (s : AgentState) : quiet s s.
Proof. repeat split. Qed.

Lemma quiet_trans (s1 s2 s3 : AgentState) : quiet s1 s2 -> quiet s2 s3 -> quiet s1 s3.
Proof. unfold quiet. intros (?&?&?&?) (?&?&?&?). repeat split; congruence. Qed.

Lemma within_step_refl (s : AgentState) : within_step s s.
Proof. split; auto. Qed.

Lemma within_step_trans (s1 s2 s3 : AgentState) :
  within_step s1 s2 -> within_step s2 s3 -> within_step s1 s3.
Proof. unfold within_step. intros [? ?] [? ?]. split; [congruence | auto]. Qed.

Lemma quiet_within_step (s s' : AgentState) : quiet s s' -> within_step s s'.
Proof.
  unfold quiet, within_step, complete_has_draft. intros (?&Hd&Hc&?).
  split; [assumption|]. rewrite Hd, Hc. auto.
Qed.

(** Breaks a computation into its parts, for a relation with the given
    proofs of reflexivity and transitivity. *)
Ltac preserve Hrefl Htrans :=
  repeat (
    match goal with
    | |- preserves _ (bind _ _) =>
        apply preserves_bind; [exact Htrans | | intro]
    | |- preserves _ (ret _) => apply preserves_ret; exact Hrefl
    | |- preserves _ (expr _) => apply preserves_eval; exact Hrefl
    | |- preserves _ get_state => apply preserves_get_state; exact Hrefl
    | |- preserves _ (call _) => apply preserves_call; exact Hrefl
    | |- preserves _ timestamp => apply preserves_now; exact Hrefl
    | |- preserves _ (for_each _ _) =>
        apply preserves_for_each; [exact Hrefl | exact Htrans | intro]
    | |- preserves _ (modify _) => apply preserves_modify
    | |- preserves _ (append_evidence _) => apply preserves_modify
    | |- preserves _ (append_claim _) => apply preserves_modify
    | |- preserves _ (match ?x with _ => _ end) => destruct x
    | |- preserves _ (if ?x then _ else _) => destruct x
    end).

Lemma browsed_evidence_quiet (page : value) : preserves quiet (browsed_evidence page).
Proof.
  unfold browsed_evidence. preserve quiet_refl quiet_trans.
  intro s. repeat split.
Qed.

Lemma _extract_evidence_quiet (tool_call : value) (r : ToolResult) :
  preserves quiet (_extract_evidence tool_call r).
Proof.
  unfold _extract_evidence.
  preserve quiet_refl quiet_trans;
    try apply browsed_evidence_quiet; intro s; repeat split.
Qed.

Lemma handle_tool_call_quiet (agent : ReActAgent) (tool_call : value) :
  preserves quiet (handle_tool_call agent tool_call).
Proof.
  unfold handle_tool_call.
  preserve quiet_refl quiet_trans;
    try apply _extract_evidence_quiet; intro s; repeat split.
Qed.

(** ** Completion detection *)

Lemma contains_find (sub s : string) :
  contains sub s = true -> exists i, find sub s = Some i.
Proof. unfold contains. destruct (find sub s) as [i|]; [now exists i | discriminate]. Qed.

(** With both markers in the text, the draft is cut between the first
    opening marker and the first closing marker. *)
Lemma detect_completion_markers (response : ModelResponse) (c : string)
    (s : AgentState) (w : World) :
  content (message response) = Some c ->
  contains "<report>" c = true ->
  contains "</report>" c = true ->
  exists i j,
    find "<report>" c = Some i /\ find "</report>" c = Some j
    /\ detect_completion response s w
       = (Returned tt,
          set_report_drafts (report_drafts s ++ [strip (slice (i + 8) j c)])
            (set_is_complete true s), w).
Proof.
  intros Hc H1 H2.
  destruct (contains_find _ _ H1) as [i Hi], (contains_find _ _ H2) as [j Hj].
  exists i, j. repeat split; try assumption.
  unfold detect_completion. rewrite Hc, H1, H2.
  assert (Hne : str_truthy (Some c) = true).
  { destruct c; [discriminate H1 | reflexivity]. }
  rewrite Hne. cbn [andb].
  unfold bind, modify, expr, index, append_draft. rewrite Hi, Hj. reflexivity.
Qed.

Lemma detect_completion_within (response : ModelResponse) :
  preserves within_step (detect_completion response).
Proof.
  intros s w c s' w' H.
  unfold detect_completion in H.
  destruct (str_truthy (content (message response))) eqn:Ht;
    [|injection H as _ <- _; apply within_step_refl].
  destruct (content (message response)) as [txt|] eqn:Hc;
    [|injection H as _ <- _; apply within_step_refl].
  destruct (contains "<report>" txt && contains "</report>" txt) eqn:Hm.
  - apply andb_true_iff in Hm. destruct Hm as [H1 H2].
    destruct (contains_find _ _ H1) as [i Hi], (contains_find _ _ H2) as [j Hj].
    unfold bind, modify, expr, index, append_draft in H. rewrite Hi, Hj in H.
    injection H as _ <- _. split; [reflexivity|].
    intros _ _. simpl. now destruct (report_drafts s).
  - unfold bind, get_state, modify, append_draft, ret in H.
    destruct (String.eqb (finish_reason response) "stop" && (5 <? step_count s)%Z);
      [destruct (1000 <? len txt)%Z|];
      injection H as _ <- _; try apply within_step_refl.
    split; [reflexivity|]. intros _ _. simpl. now destruct (report_drafts s).
Qed.

(** ** One step *)

Lemma step_effect (agent : ReActAgent)
    (on_step : option (AgentState -> World -> completion unit * World))
    (s s' : AgentState) (w w' : World) (c : completion unit) :
  step agent on_step s w = (c, s', w') ->
  step_count s' = (step_count s + 1)%Z
  /\ (complete_has_draft s -> complete_has_draft s').
Proof.
  unfold step. intros H. unfold bind at 1 in H. unfold modify at 1 in H.
  cbv beta iota in H.
  match type of H with
  | ?m ?s0 ?w0 = _ =>
      assert (P : preserves within_step m);
      [|destruct (P _ _ _ _ _ H) as [Hc Hd]; split; [exact Hc | exact Hd]]
  end.
  preserve within_step_refl within_step_trans.
  - intro s0. split; [reflexivity | auto].
  - intro s0. split; [reflexivity | auto].
  - intro s0. split; [reflexivity | auto].
  - eapply preserves_weaken; [exact quiet_within_step | apply handle_tool_call_quiet].
  - apply detect_completion_within.
Qed.

(** ** The loop *)

Lemma loop_total (agent : ReActAgent)
    (on_step : option (AgentState -> World -> completion unit * World))
    (fuel : nat) (s : AgentState) (w : World) :
  (steps_left agent s <= fuel)%nat ->
  exists r, loop agent on_step fuel s w = Some r.
Proof.
  revert s w. induction fuel as [|fuel IH]; intros s w Hfuel; simpl.
  - destruct ((step_count s <? max_steps agent)%Z && negb (is_complete s)) eqn:Hc;
      [|eexists; reflexivity].
    apply andb_true_iff in Hc. destruct Hc as [Hlt _]. apply Z.ltb_lt in Hlt.
    unfold steps_left in Hfuel. lia.
  - destruct ((step_count s <? max_steps agent)%Z && negb (is_complete s)) eqn:Hc;
      [|eexists; reflexivity].
    apply andb_true_iff in Hc. destruct Hc as [Hlt _]. apply Z.ltb_lt in Hlt.
    destruct (step agent on_step s w) as [[[u|e] s1] w1] eqn:Es.
    + apply IH. apply step_effect in Es. destruct Es as [Hs _].
      unfold steps_left in *. lia.
    + destruct (is_Exception e); eexists; reflexivity.
Qed.

Lemma loop_invariant (agent : ReActAgent)
    (on_step : option (AgentState -> World -> completion unit * World))
    (fuel : nat) (s s' : AgentState) (w w' : World) (c : completion unit) :
  loop agent on_step fuel s w = Some (c, s', w') ->
  (step_count s <= max_steps agent)%Z -> complete_has_draft s ->
  (step_count s' <= max_steps agent)%Z /\ complete_has_draft s'.
Proof.
  revert s w. induction fuel as [|fuel IH]; intros s w H Hle Hd; simpl in H.
  - destruct ((step_count s <? max_steps agent)%Z && negb (is_complete s));
      [discriminate|]. injection H as _ <- _. now split.
  - destruct ((step_count s <? max_steps agent)%Z && negb (is_complete s)) eqn:Hc;
      [|injection H as _ <- _; now split].
    apply andb_true_iff in Hc. destruct Hc as [Hlt _]. apply Z.ltb_lt in Hlt.
    destruct (step agent on_step s w) as [[[u|e] s1] w1] eqn:Es;
      apply step_effect in Es; destruct Es as [Hs Hd1].
    + eapply IH; [exact H | lia | auto].
    + destruct (is_Exception e); injection H as _ <- _; simpl;
        (split; [lia | exact (Hd1 Hd)]).
Qed.

(** ** The fallback *)

Lemma assistant_text_test (m : ChatMessage) :
  String.eqb (role m) "assistant" && str_truthy (content m) = true
  <-> exists c, assistant_text m c.
Proof.
  unfold assistant_text, str_truthy. split.
  - intros H. apply andb_true_iff in H. destruct H as [Hr Hc].
    apply String.eqb_eq in Hr. destruct (content m) as [c|]; [|discriminate].
    exists c. repeat split; [assumption|]. intros ->. discriminate.
  - intros [c (Hr & Hc & Hne)]. rewrite Hr, Hc. simpl.
    destruct (String.eqb c "") eqn:Ec; [|reflexivity].
    apply String.eqb_eq in Ec. contradiction.
Qed.

Lemma first_assistant_text_none (l : list ChatMessage) :
  first_assistant_text l = None <-> no_assistant_text l.
Proof.
  unfold no_assistant_text. induction l as [|m l IH]; simpl.
  - split; [constructor | reflexivity].
  - destruct (String.eqb (role m) "assistant" && str_truthy (content m)) eqn:Et.
    + apply assistant_text_test in Et. destruct Et as [c Hc]. split.
      * intros H. destruct Hc as (_ & Hc & Hne). rewrite Hc in H. discriminate.
      * intros H. inversion H as [|? ? Hm _]. destruct (Hm c Hc).
    + split.
      * intros H. constructor; [|now apply IH].
        intros c' Hc'. assert (Ht : exists c0, assistant_text m c0) by now exists c'.
        apply assistant_text_test in Ht. congruence.
      * intros H. inversion H. now apply IH.
Qed.

Lemma most_recent_is_first_backward (msgs : list ChatMessage) (c : string) :
  most_recent_assistant_text msgs c -> first_assistant_text (rev msgs) = Some c.
Proof.
  intros (before & m & after & -> & Hm & Hafter).
  rewrite rev_app_distr. simpl. rewrite <- app_assoc. simpl.
  apply Forall_rev in Hafter. revert Hafter.
  induction (rev after) as [|x l IH]; simpl; intros Hall.
  - assert (Ht : exists c0, assistant_text m c0) by now exists c.
    apply assistant_text_test in Ht. rewrite Ht. apply Hm.
  - inversion Hall as [|? ? Hx Hl]; subst.
    destruct (String.eqb (role x) "assistant" && str_truthy (content x)) eqn:Et.
    + apply assistant_text_test in Et. destruct Et as [c0 Hc0]. destruct (Hx c0 Hc0).
    + now apply IH.
Qed.

Lemma ensure_final_report_drafts (s : AgentState) :
  report_drafts (ensure_final_report s)
  = match report_drafts s with
    | [] => match first_assistant_text (rev (messages s)) with
            | Some c => [c]
            | None => []
            end
    | drafts => drafts
    end.
Proof.
  unfold ensure_final_report.
  destruct (report_drafts s) as [|d ds] eqn:Hd; [|exact Hd].
  destruct (messages s) as [|m ms] eqn:Hm; [exact Hd|].
  destruct (first_assistant_text (rev (m :: ms))); [|exact Hd].
  reflexivity.
Qed.

Lemma ensure_final_report_frame (s : AgentState) :
  step_count (ensure_final_report s) = step_count s
  /\ is_complete (ensure_final_report s) = is_complete s
  /\ messages (ensure_final_report s) = messages s
  /\ error (ensure_final_report s) = error s.
Proof.
  unfold ensure_final_report.
  destruct (report_drafts s); [|repeat split].
  destruct (messages s) as [|m ms] eqn:Hm; [repeat split; exact Hm|].
  destruct (first_assistant_text (rev (m :: ms))); repeat split; exact Hm.
Qed.

(** C1. A run that starts from a state within its budget, and complete
    only if it has a draft (as a new [AgentState] is for any budget that
    is not negative), comes to an end; when [run] returns, the step
    count is at most [max_steps], a complete state has at least one
    draft, and if the loop ended without a draft, then the drafts are
    exactly the content of the most recent assistant message with
    non-empty content, or no draft at all if there is no such message. *)
Theorem run_budget_and_drafts (agent : ReActAgent) (query : string)
    (state : AgentState)
    (on_step : option (AgentState -> World -> completion unit * World))
    (w : World) :
  (step_count state <= max_steps agent)%Z ->
  complete_has_draft state ->
  exists c s' w',
    run agent query state on_step w = Some (c, s', w')
    /\ (c = Returned tt ->
        (step_count s' <= max_steps agent)%Z
        /\ complete_has_draft s'
        /\ exists s1,
             loop agent on_step (steps_left agent (seed agent query state))
               (seed agent query state) w = Some (Returned tt, s1, w')
             /\ s' = ensure_final_report s1
             /\ (report_drafts s1 = [] ->
                 (forall t, most_recent_assistant_text (messages s1) t ->
                            report_drafts s' = [t])
                 /\ (no_assistant_text (messages s1) -> report_drafts s' = []))).
Proof.
  intros Hle Hd. unfold run.
  destruct (loop_total agent on_step (seed agent query state) w (le_n _))
    as [[[c s1] w1] Hloop].
  rewrite Hloop.
  assert (Hinv := Hloop).
  apply loop_invariant in Hinv; [|exact Hle|exact Hd].
  destruct Hinv as [Hle1 Hd1].
  destruct c as [[]|e].
  - exists (Returned tt), (ensure_final_report s1), w1. split; [reflexivity|].
    intros _. destruct (ensure_final_report_frame s1) as (Hs & Hc & _ & _).
    pose proof (ensure_final_report_drafts s1) as Hdr.
    split; [now rewrite Hs|]. split.
    + unfold complete_has_draft in *. rewrite Hc, Hdr. intros Hcomp.
      specialize (Hd1 Hcomp). destruct (report_drafts s1); [congruence | discriminate].
    + exists s1. split; [reflexivity|]. split; [reflexivity|].
      intros Hnil. rewrite Hnil in Hdr. split.
      * intros t Ht. apply most_recent_is_first_backward in Ht.
        now rewrite Ht in Hdr.
      * intros Hno. unfold no_assistant_text in Hno. apply Forall_rev in Hno.
        apply first_assistant_text_none in Hno. now rewrite Hno in Hdr.
  - exists (Raised e), s1, w1. split; [reflexivity | discriminate].
Qed.

(** ** What a step computes *)

Lemma step_with_tool_calls (agent : ReActAgent)
    (on_step : option (AgentState -> World -> completion unit * World))
    (s : AgentState) (w w1 : World) (response : ModelResponse)
    (tc : value) (tcs : list value) :
  chat_completion (messages s) (get_all_schemas (toolset agent)) w
    = (Returned response, w1) ->
  tool_calls (message response) = Some (tc :: tcs) ->
  step agent on_step s w
  = bind (for_each (tc :: tcs) (handle_tool_call agent)) (fun _ => notify on_step)
      (take_response response (begin_step agent s)) w1.
Proof.
  intros Hchat Htc. unfold step, has_tool_calls.
  unfold bind at 1 2 3 4 5. unfold modify at 1 2, get_state at 1, call at 1.
  cbn [messages set_current_phase set_step_count].
  rewrite Hchat. unfold modify at 1 2. rewrite Htc. reflexivity.
Qed.

Lemma step_without_tool_calls (agent : ReActAgent)
    (on_step : option (AgentState -> World -> completion unit * World))
    (s : AgentState) (w w1 : World) (response : ModelResponse) :
  chat_completion (messages s) (get_all_schemas (toolset agent)) w
    = (Returned response, w1) ->
  list_truthy (tool_calls (message response)) = false ->
  step agent on_step s w
  = bind (detect_completion response) (fun _ => notify on_step)
      (take_response response (begin_step agent s)) w1.
Proof.
  intros Hchat Htc. unfold step, has_tool_calls.
  unfold bind at 1 2 3 4 5. unfold modify at 1 2, get_state at 1, call at 1.
  cbn [messages set_current_phase set_step_count].
  rewrite Hchat. unfold modify at 1 2. rewrite Htc. reflexivity.
Qed.


(** A tool call that is read and executed is answered and recorded, and
    on success searched for evidence. *)
Lemma handle_tool_call_returned (agent : ReActAgent)
    (tc func tool_name args id : value) (r : ToolResult)
    (s : AgentState) (w w1 : World) :
  getitem tc "function" = Returned func ->
  getitem func "name" = Returned tool_name ->
  getitem func "arguments" = Returned args ->
  getitem tc "id" = Returned id ->
  _execute_tool_call agent tc w = (Returned r, w1) ->
  handle_tool_call agent tc s w
  = (if success r then _extract_evidence tc r else ret tt)
      (record_call id tool_name args r (fst (utcnow_isoformat w1)) s)
      (snd (utcnow_isoformat w1)).
Proof.
  intros Hf Hn Ha Hid Hx. unfold handle_tool_call.
  unfold bind, call, expr, modify, timestamp.
  rewrite Hx, Hid, Hf, Hn, Ha.
  destruct (utcnow_isoformat w1) as [t w2]. reflexivity.
Qed.

Lemma handle_tool_call_raised (agent : ReActAgent) (tc : value) (e : exn)
    (s : AgentState) (w w1 : World) :
  _execute_tool_call agent tc w = (Raised e, w1) ->
  handle_tool_call agent tc s w = (Raised e, s, w1).
Proof.
  intros Hx. unfold handle_tool_call. unfold bind at 1. unfold call.
  now rewrite Hx.
Qed.

(** ** Arguments that are not JSON *)


Lemma loop_stops_on_exception (agent : ReActAgent)
    (on_step : option (AgentState -> World -> completion unit * World))
    (fuel : nat) (s s' : AgentState) (w w' : World) (e : exn) :
  (step_count s < max_steps agent)%Z -> is_complete s = false ->
  is_Exception e = true ->
  step agent on_step s w = (Raised e, s', w') ->
  loop agent on_step (S fuel) s w
  = Some (Returned tt, set_error (Some (exn_str e)) s', w').
Proof.
  intros Hlt Hc He Hs. cbn [loop]. apply Z.ltb_lt in Hlt.
  rewrite Hlt, Hc, Hs, He. reflexivity.
Qed.


(** ** Tool calls that cannot be read *)

(** Closes a goal that says which exception a computation raises, once
    the computation has been run up to the point where it raises. *)
Ltac raised_here :=
  eexists; repeat apply conj; [ | | intro; reflexivity ]; reflexivity.

Lemma malformed_call_raises (agent : ReActAgent) (tc : value) :
  malformed_call tc ->
  exists e,
    is_Exception e = true /\ is_JSONDecodeError e = false
    /\ forall w, _execute_tool_call agent tc w = (Raised e, w).
Proof.
  intros H. unfold _execute_tool_call.
  destruct H as [d Hf | d f Hf Ha | d f v Hf Ha Hv]; cbn [getitem]; rewrite Hf;
    cbn [getitem].
  - raised_here.
  - destruct (lookup "name" f); [rewrite Ha|]; raised_here.
  - destruct (lookup "name" f); [rewrite Ha|]; [|raised_here].
    destruct v; try raised_here.
    destruct (Hv s eq_refl).
Qed.

(** C9. The only failure [_execute_tool_call] turns into a result of
    its own is a [JSONDecodeError] of the decoder: whenever it returns,
    the tool call had a function with a name and with arguments that
    are a [str], and the result is either the invalid-JSON result after
    a [JSONDecodeError], or what the dispatch returned for the decoded
    arguments. A tool call without its "function" entry, or without the
    "arguments" entry, or with arguments that are not a [str], makes it
    raise an exception that is not a [JSONDecodeError]; handling the
    call raises it on, and a step whose response requests this call
    first ends the loop with the exception's text as the run's
    error. *)
Theorem only_json_errors_are_recovered (agent : ReActAgent) :
  (forall tc w r w',
     _execute_tool_call agent tc w = (Returned r, w') ->
     exists func tool_name a,
       getitem tc "function" = Returned func
       /\ getitem func "name" = Returned tool_name
       /\ getitem func "arguments" = Returned (PStr a)
       /\ ((exists e, json_loads a = Raised e /\ is_JSONDecodeError e = true
                      /\ r = invalid_json_result a /\ w' = w)
           \/ (exists args, json_loads a = Returned args
                           /\ call_execute (toolset agent) tool_name args w
                              = (Returned r, w'))))
  /\ (forall tc,
        malformed_call tc ->
        exists e,
          is_Exception e = true /\ is_JSONDecodeError e = false
          /\ (forall w, _execute_tool_call agent tc w = (Raised e, w))
          /\ (forall s w, handle_tool_call agent tc s w = (Raised e, s, w))
          /\ (forall on_step fuel s w response w1 rest,
                (step_count s < max_steps agent)%Z ->
                is_complete s = false ->
                chat_completion (messages s) (get_all_schemas (toolset agent)) w
                  = (Returned response, w1) ->
                tool_calls (message response) = Some (tc :: rest) ->
                exists s',
                  loop agent on_step (S fuel) s w = Some (Returned tt, s', w1)
                  /\ error s' = Some (exn_str e)
                  /\ step_count s' = (step_count s + 1)%Z
                  /\ is_complete s' = false
                  /\ messages s' = (messages s ++ [message response])%list)).
Proof.
  split.
  - intros tc w r w' H. unfold _execute_tool_call in H.
    destruct (getitem tc "function") as [func|e0] eqn:Hf; [|discriminate].
    destruct (getitem func "name") as [tool_name|e0] eqn:Hn; [|discriminate].
    destruct (getitem func "arguments") as [args|e0] eqn:Ha; [|discriminate].
    destruct args as [| | |a| |]; cbn [loads] in H; try discriminate.
    exists func, tool_name, a.
    do 3 (split; [first [reflexivity | assumption]|]).
    destruct (json_loads a) as [v|e0] eqn:Hj.
    + right. now exists v.
    + left. exists e0. destruct (is_JSONDecodeError e0); [|discriminate].
      injection H as <- <-. repeat split.
  - intros tc Hm.
    destruct malformed_call_raises with (agent := agent) (tc := tc)
      as (e & He & Hj & Hx); [exact Hm|].
    exists e. split; [exact He|]. split; [exact Hj|]. split; [exact Hx|].
    assert (Hh : forall s w, handle_tool_call agent tc s w = (Raised e, s, w))
      by (intros s w; apply handle_tool_call_raised, Hx).
    split; [exact Hh|].
    intros on_step fuel s w response w1 rest Hlt Hc Hchat Htc.
    exists (set_error (Some (exn_str e))
              (take_response response (begin_step agent s))).
    split.
    + apply loop_stops_on_exception; try assumption.
      rewrite step_with_tool_calls
        with (response := response) (w1 := w1) (tc := tc) (tcs := rest);
        try assumption.
      unfold bind at 1. cbn [for_each]. unfold bind at 1. rewrite Hh. reflexivity.
    + repeat split. exact Hc.
Qed.

(** ** Claims from cross-validation *)

Lemma extract_cross_validate (tc func : value) (r : ToolResult)
    (s : AgentState) (w : World) :
  getitem tc "function" = Returned func ->
  getitem func "name" = Returned (PStr "cross_validate") ->
  _extract_evidence tc r s w
  = (Returned tt,
     match output r with
     | PDict d => set_claims (claims s ++ [claim_of d]) s
     | _ => s
     end, w).
Proof.
  intros Hf Hn. unfold _extract_evidence. unfold bind at 1 2. unfold expr at 1 2.
  rewrite Hf, Hn. cbn [eq_str String.eqb Ascii.eqb Bool.eqb orb].
  destruct (output r); reflexivity.
Qed.

(** C6, as amended. When the model calls [cross_validate] and the call
    is executed, handling it appends one claim entry exactly when the
    result is successful and its output is a [dict]; the entry takes
    the output's "claim", "status" and "supporting_sources", and the
    defaults [""], ["uncertain"] and [0] for those the output lacks. The
    output [{"claim": "X", "status": "supported", "supporting_sources":
    2}] gives the entry with text "X", status "supported" and 2
    supporting sources. *)
Theorem cross_validate_claim_entry (agent : ReActAgent)
    (tc func args id : value) (r : ToolResult)
    (s : AgentState) (w w1 : World) :
  getitem tc "function" = Returned func ->
  getitem func "name" = Returned (PStr "cross_validate") ->
  getitem func "arguments" = Returned args ->
  getitem tc "id" = Returned id ->
  _execute_tool_call agent tc w = (Returned r, w1) ->
  (exists s',
     handle_tool_call agent tc s w = (Returned tt, s', snd (utcnow_isoformat w1))
     /\ claims s'
        = (claims s ++ match success r, output r with
                       | true, PDict d => [claim_of d]
                       | _, _ => []
                       end)%list)
  /\ claim_of [("claim", PStr "X"); ("status", PStr "supported");
               ("supporting_sources", PInt 2)]
     = {| claim_text := PStr "X"; claim_status := PStr "supported";
          supporting_sources := PInt 2 |}
  /\ claim_of []
     = {| claim_text := PStr ""; claim_status := PStr "uncertain";
          supporting_sources := PInt 0 |}.
Proof.
  intros Hf Hn Ha Hid Hx. split; [|split; reflexivity].
  rewrite handle_tool_call_returned
    with (func := func) (tool_name := PStr "cross_validate") (args := args)
         (id := id) (r := r) (w1 := w1); auto.
  destruct (success r).
  - rewrite extract_cross_validate with (func := func); auto.
    eexists. split; [reflexivity|].
    destruct (output r); cbn; now rewrite ?app_nil_r.
  - eexists. split; [reflexivity|]. cbn. now rewrite app_nil_r.
Qed.

End WithExternals.

(** ** The loop on concrete inputs *)

Import Scripted.

(** C6, as stated, fails: a successful cross-validation whose output is
    the empty object, which carries none of the three fields, still
    appends a claim entry, made of the defaults. *)
Lemma bare_output_appends_entry :
  carries_claim_fields (output validated_bare) = false
  /\ _extract_evidence (tool_call "call_1" "cross_validate" "{}") validated_bare
       (AgentState_init "run-1") (start [] [])
     = (Returned tt,
        set_claims [{| claim_text := PStr ""; claim_status := PStr "uncertain";
                       supporting_sources := PInt 0 |}] (AgentState_init "run-1"),
        start [] [])
  /\ ~ entry_only_with_fields.
Proof.
  split; [reflexivity|]. split; [reflexivity|].
  intros H.
  specialize (H env (tool_call "call_1" "cross_validate" "{}")
                (PDict [("name", PStr "cross_validate"); ("arguments", PStr "{}")])
                validated_bare (AgentState_init "run-1") _ (start [] []) _ _
                eq_refl eq_refl eq_refl eq_refl).
  destruct H as [H _]. discriminate H. discriminate.
Qed.


(** C7, as stated, fails: keyword arguments that name [tool_name], a
    parameter of [ToolSet.execute] the call has bound already, make the
    call raise a [TypeError] before the registry is looked at. *)
Lemma reserved_keyword_raises :
  lookup "teleport" (tools (toolset (agent 3))) = None
  /\ call_execute (toolset (agent 3)) (PStr "teleport")
       (PDict [("tool_name", PStr "web_search")]) (start [] [])
     = (Raised (Exn TypeError
                  "ToolSet.execute() got multiple values for argument 'tool_name'"),
        start [] [])
  /\ ~ unknown_tool_never_raises.
Proof.
  split; [reflexivity|]. split; [reflexivity|].
  intros H.
  destruct (H env (toolset (agent 3)) "teleport" [("tool_name", PStr "web_search")]
              (start [] []) eq_refl)
    as (r & w' & Hr & _).
  discriminate Hr.
Qed.

(** C2, at the input where the code departs from it. A reply without
    tool calls that reads [</report><report>X</report>] holds an
    opening marker and, after it, a closing marker, with [X] between
    them; the loop marks the run complete and stores the empty text as
    the draft, because it cuts at the first closing marker of the
    reply, which here comes before the opening marker. *)
Theorem stray_closing_marker_gives_empty_draft :
  (forall (E : Externals) (finish : string) (used : list (string * Z))
          (s : AgentState) (w : World),
     detect_completion
       {| message := {| role := "assistant";
                        content := Some stray_closing_marker;
                        tool_calls := None; tool_call_id := PNone;
                        name := None |};
          finish_reason := finish; usage := used |} s w
     = (Returned tt,
        set_report_drafts (report_drafts s ++ [""]) (set_is_complete true s), w))
  /\ (exists s w,
        run (agent 3) "What is new?" (AgentState_init "run-1") None
          (start [says stray_closing_marker] [])
        = Some (Returned tt, s, w)
        /\ step_count s = 1%Z /\ is_complete s = true
        /\ report_drafts s = [""]).
Proof.
  split.
  - intros E finish used s w. reflexivity.
  - eexists. eexists. split; [vm_compute; reflexivity|]. repeat split.
Qed.

(** The scenario of the specification: the reply [<report>OK</report>]
    at the first step ends the run with one step, complete, and the
    draft [OK]. *)
Example report_at_first_step :
  exists s w,
    run (agent 3) "What is new?" (AgentState_init "run-1") None
      (start [says "<report>OK</report>"] [])
    = Some (Returned tt, s, w)
    /\ step_count s = 1%Z /\ is_complete s = true /\ report_drafts s = ["OK"].
Proof. eexists. eexists. split; [vm_compute; reflexivity|]. repeat split. Qed.

(** C3, at the input where the code departs from it. A search that
    succeeded and found nothing has the output [[]], which serializes to
    the text of an empty list; the loop gives the tool-role message the
    content [None], the result's error, instead. *)
Theorem empty_output_is_reported_as_error :
  success empty_search = true
  /\ json_dumps (output empty_search) = "[]"
  /\ tool_message_content empty_search = None
  /\ (exists s w,
        run (agent 1) "What is new?" (AgentState_init "run-1") None
          (start [requests [tool_call "call_1" "web_search" "{}"]]
                 [Returned empty_search])
        = Some (Returned tt, s, w)
        /\ List.last (messages s) (tool_message PNone empty_search)
           = {| role := "tool"; content := None; tool_calls := None;
                tool_call_id := PStr "call_1"; name := None |}
        /\ map tcr_success (tool_call_log s) = [true]).
Proof.
  repeat split.
  eexists. eexists. split; [vm_compute; reflexivity|]. repeat split.
Qed.

(** ** The theorems at concrete inputs *)

Lemma run_budget_and_drafts_witness :
  (step_count (AgentState_init "run-1") <= max_steps (agent 3))%Z
  /\ complete_has_draft (AgentState_init "run-1")
  /\ exists c s' w',
       run (agent 3) "What is new?" (AgentState_init "run-1") None
         (start [says "Let me think."; says "Still thinking."; says "Nearly there."] [])
       = Some (c, s', w')
       /\ (c = Returned tt ->
           (step_count s' <= max_steps (agent 3))%Z /\ complete_has_draft s').
Proof.
  assert (H1 : (step_count (AgentState_init "run-1") <= max_steps (agent 3))%Z)
    by (simpl; lia).
  assert (H2 : complete_has_draft (AgentState_init "run-1"))
    by (intros H; discriminate H).
  split; [exact H1|]. split; [exact H2|].
  destruct (@run_budget_and_drafts env (agent 3) "What is new?"
              (AgentState_init "run-1") None
              (start [says "Let me think."; says "Still thinking.";
                      says "Nearly there."] []) H1 H2)
    as (c & s' & w' & Hrun & Hret).
  exists c, s', w'. split; [exact Hrun|].
  intros Hc. destruct (Hret Hc) as (Hle & Hd & _). split; assumption.
Defined.


Lemma cross_validate_claim_entry_witness :
  _execute_tool_call (agent 3) (tool_call "call_1" "cross_validate" "{}")
    (start [] [Returned validated])
  = (Returned validated, start [] [])
  /\ exists s',
       handle_tool_call (agent 3) (tool_call "call_1" "cross_validate" "{}")
         (AgentState_init "run-1") (start [] [Returned validated])
       = (Returned tt, s', snd (utcnow_isoformat (start [] [])))
       /\ claims s' = [{| claim_text := PStr "X"; claim_status := PStr "supported";
                          supporting_sources := PInt 2 |}].
Proof.
  split; [reflexivity|].
  destruct (@cross_validate_claim_entry env (agent 3)
              (tool_call "call_1" "cross_validate" "{}")
              (PDict [("name", PStr "cross_validate"); ("arguments", PStr "{}")])
              (PStr "{}") (PStr "call_1") validated (AgentState_init "run-1")
              (start [] [Returned validated]) (start [] [])
              eq_refl eq_refl eq_refl eq_refl eq_refl)
    as ((s' & Hh & Hc) & _).
  exists s'. split; [exact Hh | exact Hc].
Defined.

Lemma execute_unknown_tool_witness :
  lookup "teleport" (tools (toolset (agent 3))) = None
  /\ lookup "self" [("destination", PStr "Mars")] = None
  /\ lookup "tool_name" [("destination", PStr "Mars")] = None
  /\ call_execute (toolset (agent 3)) (PStr "teleport")
       (PDict [("destination", PStr "Mars")]) (start [] [])
     = (Returned (unknown_tool_result "teleport"), start [] []).
Proof.
  split; [reflexivity|]. split; [reflexivity|]. split; [reflexivity|].
  exact (proj1 (@execute_unknown_tool env (toolset (agent 3)) "teleport"
                  [("destination", PStr "Mars")] (start [] [])
                  eq_refl eq_refl eq_refl)).
Defined.

Lemma only_json_errors_are_recovered_witness :
  malformed_call null_arguments_call
  /\ exists e,
       is_Exception e = true /\ is_JSONDecodeError e = false
       /\ _execute_tool_call (agent 3) null_arguments_call (start [] [])
          = (Raised e, start [] []).
Proof.
  assert (Hm : malformed_call null_arguments_call).
  { eapply arguments_not_str; [reflexivity | reflexivity | intros s H; discriminate H]. }
  split; [exact Hm|].
  destruct (proj2 (@only_json_errors_are_recovered env (agent 3))
              null_arguments_call Hm)
    as (e & He & Hj & Hx & _).
  exists e. split; [exact He|]. split; [exact Hj|]. apply Hx.
Defined.

End AgentFacts.

(* ===================================================================== *)
(** * Further properties of the streamed completion                       *)
(* ===================================================================== *)

Module StreamFacts.
Import Py Provider StreamNotions.

(** X1. The generator yields one response for every chunk that has
    choices, and none for a chunk without. *)
Theorem one_response_per_chunk (chunks : list Chunk) :
  List.length (chat_completion_stream chunks)
  = List.length (filter has_choices chunks).
Proof.
  unfold chat_completion_stream. generalize stream_start.
  induction chunks as [|ch chunks IH]; intros st; [reflexivity|].
  cbn [stream_from filter]. unfold on_chunk, has_choices.
  destruct (chunk_choices ch) as [|choice rest]; cbn; [apply IH|].
  f_equal. apply IH.
Qed.

(** ** The text *)

Lemma content_after_chunk (st : StreamState) (ch : Chunk) :
  accumulated_content (fst (on_chunk st ch))
  = accumulated_content st ++ concat_texts (content_deltas [ch]).
Proof.
  unfold on_chunk, content_deltas. cbn [flat_map].
  destruct (chunk_choices ch) as [|choice rest]; cbn.
  - now rewrite ProviderFacts.append_empty_r.
  - destruct (delta_content (choice_delta choice)) as [c|]; cbn.
    + destruct (String.eqb c "") eqn:Ec; cbn;
        [apply String.eqb_eq in Ec; subst c|];
        now rewrite ?ProviderFacts.append_empty_r.
    + now rewrite ProviderFacts.append_empty_r.
Qed.

Lemma concat_texts_app (l1 l2 : list string) :
  concat_texts (l1 ++ l2) = concat_texts l1 ++ concat_texts l2.
Proof.
  induction l1 as [|a l1 IH]; cbn; [reflexivity|].
  fold (concat_texts (l1 ++ l2)). fold (concat_texts l1).
  now rewrite IH, ProviderFacts.append_assoc.
Qed.

Lemma content_deltas_cons (ch : Chunk) (chunks : list Chunk) :
  content_deltas (ch :: chunks)
  = (content_deltas [ch] ++ content_deltas chunks)%list.
Proof. unfold content_deltas. cbn [flat_map]. now rewrite app_nil_r. Qed.

Lemma content_after_chunks (chunks : list Chunk) (st : StreamState) :
  accumulated_content (stream_state st chunks)
  = accumulated_content st ++ concat_texts (content_deltas chunks).
Proof.
  revert st. induction chunks as [|ch chunks IH]; intros st.
  - cbn. now rewrite ProviderFacts.append_empty_r.
  - rewrite content_deltas_cons, concat_texts_app.
    rewrite <- ProviderFacts.append_assoc, <- content_after_chunk.
    rewrite <- IH. reflexivity.
Qed.

Lemma last_yield_content (chunks : list Chunk) (st : StreamState) (r : ModelResponse) :
  last_of (stream_from st chunks) = Some r ->
  content (message r) = text_or_none (accumulated_content (stream_state st chunks)).
Proof.
  revert st. induction chunks as [|ch chunks IH]; intros st H; [discriminate|].
  cbn [stream_from] in H. unfold stream_state. cbn [fold_left].
  destruct (on_chunk st ch) as [st' [r0|]] eqn:E; cbn [fst].
  - destruct (stream_from st' chunks) as [|r1 rs] eqn:Es.
    + injection H as <-. apply ProviderFacts.no_yield_no_change in Es.
      fold (stream_state st' chunks). rewrite Es.
      apply ProviderFacts.on_chunk_yield in E. exact (proj1 E).
    + apply IH. rewrite Es. exact H.
  - apply ProviderFacts.on_chunk_skip in E. subst st'. apply IH, H.
Qed.

(** X2. The text accumulated over a stream is the concatenation of
    every content delta in arrival order, and the last response yielded
    carries exactly that text, or [None] when it is empty. *)
Theorem stream_content_is_all_text (chunks : list Chunk) :
  accumulated_content (stream_state stream_start chunks)
  = concat_texts (content_deltas chunks)
  /\ forall r, last_of (chat_completion_stream chunks) = Some r ->
               content (message r)
               = text_or_none (concat_texts (content_deltas chunks)).
Proof.
  assert (H : accumulated_content (stream_state stream_start chunks)
              = concat_texts (content_deltas chunks))
    by (rewrite content_after_chunks; reflexivity).
  split; [exact H|].
  intros r Hr. rewrite <- H. now apply last_yield_content.
Qed.

(** ** The order of the calls *)

Lemma keys_zalter {A : Type} (f : A -> A) (i : Z) (d : list (Z * A)) :
  map fst (zalter f i d) = map fst d.
Proof.
  induction d as [|[j v] d IH]; cbn; [reflexivity|].
  destruct (Z.eqb i j); cbn; [reflexivity | now rewrite IH].
Qed.

Lemma zlookup_zmem {A : Type} (i : Z) (d : list (Z * A)) :
  zmem i (map fst d) = match zlookup i d with Some _ => true | None => false end.
Proof.
  unfold zmem. induction d as [|[j v] d IH]; cbn; [reflexivity|].
  destruct (Z.eqb i j); [reflexivity | exact IH].
Qed.

Lemma keys_accumulate (acc : list (Z * PartialCall)) (tc : ToolCallDelta) :
  map fst (accumulate_fragment acc tc)
  = if zmem (tc_index tc) (map fst acc) then map fst acc
    else (map fst acc ++ [tc_index tc])%list.
Proof.
  unfold accumulate_fragment. rewrite zlookup_zmem.
  set (acc1 := match zlookup (tc_index tc) acc with
               | Some _ => acc
               | None => (acc ++ [(tc_index tc, fresh_call tc)])%list
               end).
  assert (H1 : map fst acc1
               = if match zlookup (tc_index tc) acc with
                    | Some _ => true
                    | None => false
                    end
                 then map fst acc
                 else (map fst acc ++ [tc_index tc])%list).
  { subst acc1. destruct (zlookup (tc_index tc) acc); [reflexivity|].
    now rewrite map_app. }
  clearbody acc1. rewrite <- H1.
  destruct (tc_id tc) as [s|]; destruct (tc_function tc) as [[[n|] [a|]]|];
    cbn [fn_name fn_arguments];
    repeat match goal with
           | |- context [if str_truthy ?o then _ else _] => destruct (str_truthy o)
           end;
    rewrite ?keys_zalter; reflexivity.
Qed.

Lemma keys_fold (frags : list ToolCallDelta) (acc : list (Z * PartialCall)) :
  map fst (fold_left accumulate_fragment frags acc)
  = fold_left (fun seen i => if zmem i seen then seen else (seen ++ [i])%list)
      (map tc_index frags) (map fst acc).
Proof.
  revert acc. induction frags as [|tc frags IH]; intros acc; [reflexivity|].
  cbn [fold_left map]. rewrite IH, keys_accumulate. reflexivity.
Qed.

Lemma zmem_In (i : Z) (l : list Z) : zmem i l = true <-> In i l.
Proof.
  unfold zmem. rewrite existsb_exists. split.
  - intros [x [Hx He]]. apply Z.eqb_eq in He. now subst.
  - intros H. exists i. split; [exact H | apply Z.eqb_refl].
Qed.

Lemma first_occurrences_NoDup (l seen : list Z) :
  NoDup seen ->
  NoDup (fold_left (fun seen i => if zmem i seen then seen else (seen ++ [i])%list)
           l seen).
Proof.
  revert seen. induction l as [|i l IH]; intros seen H; [exact H|].
  cbn [fold_left]. apply IH. destruct (zmem i seen) eqn:Em; [exact H|].
  apply NoDup_app; [exact H | repeat constructor; intros [] |].
  intros x Hx [<-|[]]. apply zmem_In in Hx. congruence.
Qed.

(** X3. The reassembled calls come one per stream index, in the order
    in which the indices first appeared among the fragments. *)
Theorem calls_in_order_of_first_fragment (chunks : list Chunk) :
  map fst (reassembled_calls chunks)
  = first_occurrences (map tc_index (fragments chunks))
  /\ NoDup (map fst (reassembled_calls chunks)).
Proof.
  assert (H : map fst (reassembled_calls chunks)
              = first_occurrences (map tc_index (fragments chunks))).
  { unfold reassembled_calls. rewrite ProviderFacts.fragments_of_stream.
    rewrite keys_fold. reflexivity. }
  split; [exact H|]. rewrite H. apply first_occurrences_NoDup. constructor.
Qed.

(** ** The number of calls *)

Lemma length_accumulate (acc : list (Z * PartialCall)) (tc : ToolCallDelta) :
  (List.length acc <= List.length (accumulate_fragment acc tc))%nat.
Proof.
  rewrite <- (length_map fst acc), <- (length_map fst (accumulate_fragment acc tc)).
  rewrite keys_accumulate. destruct (zmem _ _); [lia|].
  rewrite length_app. lia.
Qed.

Lemma length_fold (frags : list ToolCallDelta) (acc : list (Z * PartialCall)) :
  (List.length acc <= List.length (fold_left accumulate_fragment frags acc))%nat.
Proof.
  revert acc. induction frags as [|tc frags IH]; intros acc; cbn; [lia|].
  etransitivity; [apply length_accumulate | apply IH].
Qed.

Lemma on_chunk_count (st st' : StreamState) (ch : Chunk) (r : ModelResponse) :
  on_chunk st ch = (st', Some r) ->
  calls_count r = List.length (accumulated_tool_calls st')
  /\ (List.length (accumulated_tool_calls st)
      <= List.length (accumulated_tool_calls st'))%nat.
Proof.
  unfold on_chunk. destruct (chunk_choices ch) as [|choice rest]; [discriminate|].
  intros H. injection H as <- <-. cbn [accumulated_tool_calls]. split.
  - unfold calls_count, calls_value. cbn [tool_calls message].
    match goal with |- context [match ?l with [] => None | _ => _ end] =>
      destruct l; [reflexivity | cbn; now rewrite length_map] end.
  - destruct (list_truthy _); [|lia].
    destruct (delta_tool_calls (choice_delta choice)); [apply length_fold | lia].
Qed.

Lemma stream_from_counts (chunks : list Chunk) (st : StreamState) :
  let ns := map calls_count (stream_from st chunks) in
  chain le ns /\ Forall (le (List.length (accumulated_tool_calls st))) ns.
Proof.
  revert st. induction chunks as [|ch chunks IH]; intros st; cbn [stream_from].
  - split; [exact I | constructor].
  - destruct (on_chunk st ch) as [st' [r|]] eqn:E.
    + destruct (on_chunk_count _ _ E) as [Hr Hle].
      destruct (IH st') as [Hc Hall]. cbn in Hc, Hall. cbn. split.
      * destruct (map calls_count (stream_from st' chunks)) as [|b tl] eqn:Em;
          [exact I|].
        split; [|exact Hc]. rewrite Hr. now inversion Hall.
      * constructor; [now rewrite Hr|].
        eapply Forall_impl; [|exact Hall]. intros a Ha. lia.
    + apply ProviderFacts.on_chunk_skip in E. subst st'. apply IH.
Qed.

(** X4. From one yielded response to the next the list of tool calls
    never gets shorter: a call, once it is listed, stays listed. *)
Theorem calls_never_shrink (chunks : list Chunk) :
  chain le (map calls_count (chat_completion_stream chunks)).
Proof. exact (proj1 (stream_from_counts chunks stream_start)). Qed.

(** ** Every yield is a cumulative snapshot *)

Lemma stream_state_snoc (st : StreamState) (seen : list Chunk) (chunk : Chunk) :
  stream_state st (seen ++ [chunk]) = fst (on_chunk (stream_state st seen) chunk).
Proof. unfold stream_state. now rewrite fold_left_app. Qed.

Lemma yield_is_snapshot (seen : list Chunk) (chunk : Chunk) (st' : StreamState)
    (r : ModelResponse) :
  on_chunk (stream_state stream_start seen) chunk = (st', Some r) ->
  has_choices chunk = true
  /\ content (message r) = snapshot_content (seen ++ [chunk])
  /\ tool_calls (message r) = snapshot_calls (seen ++ [chunk]).
Proof.
  intros H.
  assert (Hst : st' = stream_state stream_start (seen ++ [chunk]))
    by (rewrite stream_state_snoc, H; reflexivity).
  unfold snapshot_content, snapshot_calls, reassembled_calls. rewrite <- Hst.
  assert (Hc : accumulated_content st' = concat_texts (content_deltas (seen ++ [chunk])))
    by (rewrite Hst, content_after_chunks; reflexivity).
  rewrite <- Hc.
  unfold on_chunk, has_choices in *.
  destruct (chunk_choices chunk) as [|choice rest]; [discriminate|].
  injection H as <- <-. repeat split.
Qed.

Lemma stream_from_snapshots (chunks seen : list Chunk) :
  let ys := stream_from (stream_state stream_start seen) chunks in
  map (fun r => content (message r)) ys = map snapshot_content (seen_from seen chunks)
  /\ map (fun r => tool_calls (message r)) ys
     = map snapshot_calls (seen_from seen chunks).
Proof.
  cbn zeta. revert seen. induction chunks as [|chunk rest IH]; intros seen.
  - split; reflexivity.
  - cbn [stream_from seen_from].
    destruct (on_chunk (stream_state stream_start seen) chunk) as [st' [r|]] eqn:E.
    + destruct (yield_is_snapshot seen chunk E) as (Hh & Hc & Ht).
      assert (Hst : st' = stream_state stream_start (seen ++ [chunk]))
        by (rewrite stream_state_snoc, E; reflexivity).
      rewrite Hh, Hst. cbn [map]. rewrite Hc, Ht.
      destruct (IH (seen ++ [chunk])%list) as [IH1 IH2].
      now rewrite IH1, IH2.
    + assert (Hst : st' = stream_state stream_start (seen ++ [chunk]))
        by (rewrite stream_state_snoc, E; reflexivity).
      assert (Hh : has_choices chunk = false).
      { unfold on_chunk, has_choices in *.
        destruct (chunk_choices chunk); [reflexivity|discriminate]. }
      rewrite Hh, Hst. apply IH.
Qed.

(** C8. Every response that [chat_completion_stream] yields is a
    cumulative snapshot of the stream so far: there is one response for
    each chunk that has choices, in the order of the chunks; its content
    is the full text accumulated over the chunks up to and including
    that chunk ([None] while there is no text), and its tool calls are
    the full list of the calls assembled over the same chunks ([None]
    while there is none). So the sequence of the yielded contents never
    shrinks: each content extends the content of the response before
    it. *)
Theorem stream_yields_cumulative_snapshots (chunks : list Chunk) :
  map (fun r => content (message r)) (chat_completion_stream chunks)
  = map snapshot_content (seen_at_yields chunks)
  /\ map (fun r => tool_calls (message r)) (chat_completion_stream chunks)
     = map snapshot_calls (seen_at_yields chunks)
  /\ chain content_le
       (map (fun r => content (message r)) (chat_completion_stream chunks)).
Proof.
  destruct (stream_from_snapshots chunks []) as [Hc Ht].
  split; [exact Hc|]. split; [exact Ht|].
  exact (proj1 (ProviderFacts.stream_from_grows chunks stream_start)).
Qed.

End StreamFacts.

(* ===================================================================== *)
(** * Further properties of the ReAct loop                                *)
(* ===================================================================== *)

Module LoopFacts.
Import Py Provider Tools Agent LoopNotions.

(** Breaks a computation of the loop's monad into its parts, for a
    relation with the given proofs of reflexivity and transitivity. *)
Ltac frame_by Hrefl Htrans :=
  repeat (
    match goal with
    | |- preserves _ (bind _ _) =>
        apply AgentFacts.preserves_bind; [exact Htrans | | intro]
    | |- preserves _ (ret _) => apply AgentFacts.preserves_ret; exact Hrefl
    | |- preserves _ (expr _) => apply AgentFacts.preserves_eval; exact Hrefl
    | |- preserves _ get_state => apply AgentFacts.preserves_get_state; exact Hrefl
    | |- preserves _ (call _) => apply AgentFacts.preserves_call; exact Hrefl
    | |- preserves _ timestamp => apply AgentFacts.preserves_now; exact Hrefl
    | |- preserves _ (for_each _ _) =>
        apply AgentFacts.preserves_for_each; [exact Hrefl | exact Htrans | intro]
    | |- preserves _ (modify _) => apply AgentFacts.preserves_modify
    | |- preserves _ (append_evidence _) => apply AgentFacts.preserves_modify
    | |- preserves _ (append_claim _) => apply AgentFacts.preserves_modify
    | |- preserves _ (append_draft _) => apply AgentFacts.preserves_modify
    | |- preserves _ (match ?x with _ => _ end) => destruct x
    | |- preserves _ (if ?x then _ else _) => destruct x
    end).

Section WithExternals.

Context {E : Externals}.

(** ** The shape of a step *)

Lemma step_unfold (agent : ReActAgent)
    (on_step : option (AgentState -> World -> completion unit * World))
    (s : AgentState) (w : World) :
  step agent on_step s w
  = match chat_completion (messages s) (get_all_schemas (toolset agent)) w with
    | (Raised e, w1) => (Raised e, begin_step agent s, w1)
    | (Returned response, w1) =>
        bind (respond agent response) (fun _ => notify on_step)
          (take_response response (begin_step agent s)) w1
    end.
Proof.
  unfold step. unfold bind at 1 2 3 4. unfold modify at 1 2, get_state at 1, call at 1.
  cbn [messages set_current_phase set_step_count].
  destruct (chat_completion (messages s) (get_all_schemas (toolset agent)) w)
    as [[response|e] w1]; reflexivity.
Qed.

Lemma notify_keeps_state
    (on_step : option (AgentState -> World -> completion unit * World))
    (s s' : AgentState) (w w' : World) (c : completion unit) :
  notify on_step s w = (c, s', w') -> s' = s.
Proof.
  unfold notify. destruct on_step as [f|].
  - unfold bind, get_state, call. destruct (f s w). intros H. now injection H.
  - intros H. now injection H.
Qed.

(** What a step leaves behind, by what happened in it. *)
Lemma step_cases (agent : ReActAgent)
    (on_step : option (AgentState -> World -> completion unit * World))
    (s s' : AgentState) (w w' : World) (c : completion unit) :
  step agent on_step s w = (c, s', w') ->
  s' = begin_step agent s
  \/ exists response w1 c2 w2,
       respond agent response (take_response response (begin_step agent s)) w1
       = (c2, s', w2).
Proof.
  rewrite step_unfold.
  destruct (chat_completion _ _ w) as [[response|e] w1].
  - intros H. right. unfold bind in H.
    destruct (respond agent response _ w1) as [[[u|e] s2] w2] eqn:Er.
    + apply notify_keeps_state in H. subst s'. now exists response, w1, (Returned u), w2.
    + injection H as _ <- _. now exists response, w1, (Raised e), w2.
  - intros H. left. now injection H.
Qed.

(** X5. When the model provider fails, the step ends there: the step
    is counted and the phase set, no message is added, and the loop
    stops with the exception's text as the run's error; an exception
    that is no [Exception] leaves [run] instead. *)
Theorem provider_failure_ends_loop (agent : ReActAgent)
    (on_step : option (AgentState -> World -> completion unit * World))
    (fuel : nat) (s : AgentState) (w w1 : World) (e : exn) :
  (step_count s < max_steps agent)%Z ->
  is_complete s = false ->
  chat_completion (messages s) (get_all_schemas (toolset agent)) w = (Raised e, w1) ->
  loop agent on_step (S fuel) s w
  = Some (if is_Exception e
          then (Returned tt, set_error (Some (exn_str e)) (begin_step agent s), w1)
          else (Raised e, begin_step agent s, w1))
  /\ messages (begin_step agent s) = messages s
  /\ step_count (begin_step agent s) = (step_count s + 1)%Z.
Proof.
  intros Hlt Hc Hchat. split; [|split; reflexivity].
  cbn [loop]. apply Z.ltb_lt in Hlt. rewrite Hlt, Hc. cbn [andb negb].
  rewrite step_unfold, Hchat. destruct (is_Exception e); reflexivity.
Qed.

(** ** Why a run ends *)

Lemma loop_exit (agent : ReActAgent)
    (on_step : option (AgentState -> World -> completion unit * World))
    (fuel : nat) (s s' : AgentState) (w w' : World) :
  loop agent on_step fuel s w = Some (Returned tt, s', w') ->
  is_complete s' = true
  \/ (max_steps agent <= step_count s')%Z
  \/ exists text, error s' = Some text.
Proof.
  revert s w. induction fuel as [|fuel IH]; intros s w H; cbn [loop] in H.
  - destruct ((step_count s <? max_steps agent)%Z && negb (is_complete s)) eqn:Hc;
      [discriminate|].
    injection H as <- _. apply andb_false_iff in Hc. destruct Hc as [Hc|Hc].
    + right. left. apply Z.ltb_ge in Hc. exact Hc.
    + left. now destruct (is_complete s).
  - destruct ((step_count s <? max_steps agent)%Z && negb (is_complete s)) eqn:Hc.
    + destruct (step agent on_step s w) as [[[u|e] s1] w1].
      * eapply IH, H.
      * destruct (is_Exception e); [|discriminate].
        injection H as <- _. right. right. now eexists.
    + injection H as <- _. apply andb_false_iff in Hc. destruct Hc as [Hc|Hc].
      * right. left. apply Z.ltb_ge in Hc. exact Hc.
      * left. now destruct (is_complete s).
Qed.

(** X6. A run that returns has ended for one of three reasons: it is
    complete, or its step budget is used up, or an error is recorded. *)
Theorem run_ends_for_a_reason (agent : ReActAgent) (query : string)
    (state s' : AgentState)
    (on_step : option (AgentState -> World -> completion unit * World))
    (w w' : World) :
  run agent query state on_step w = Some (Returned tt, s', w') ->
  is_complete s' = true
  \/ (max_steps agent <= step_count s')%Z
  \/ exists text, error s' = Some text.
Proof.
  unfold run.
  destruct (loop agent on_step _ (seed agent query state) w)
    as [[[[u|e] s1] w1]|] eqn:Hloop; try discriminate.
  intros H. injection H as <- _. destruct u.
  apply loop_exit in Hloop.
  destruct (AgentFacts.ensure_final_report_frame s1) as (Hs & Hc & _ & He).
  rewrite Hs, Hc, He. exact Hloop.
Qed.

(** ** The state only moves forward *)

Lemma extends_refl {A : Type} (l : list A) : extends l l.
Proof. exists []. now rewrite app_nil_r. Qed.

Lemma extends_trans {A : Type} (l1 l2 l3 : list A) :
  extends l1 l2 -> extends l2 l3 -> extends l1 l3.
Proof. intros [t ->] [u ->]. exists (t ++ u)%list. now rewrite app_assoc. Qed.

Lemma extends_snoc {A : Type} (l : list A) (x : A) : extends l (l ++ [x]).
Proof. now exists [x]. Qed.

Lemma grows_refl (s : AgentState) : grows s s.
Proof. unfold grows. repeat split; try apply extends_refl; auto; lia. Qed.

Lemma grows_trans (s1 s2 s3 : AgentState) : grows s1 s2 -> grows s2 s3 -> grows s1 s3.
Proof.
  unfold grows. intros (?&?&?&?&?&?&?&?) (?&?&?&?&?&?&?&?).
  repeat split; try (eapply extends_trans; eassumption); try congruence;
    try lia; auto.
Qed.

(** Closes the goal that a field update makes the state grow. *)
Ltac grown_here :=
  unfold grows; cbn;
  repeat split; auto using extends_refl, extends_snoc; try lia;
  try solve [eexists; reflexivity].

Ltac grown := intro; grown_here.

Lemma detect_completion_grows (response : ModelResponse) :
  preserves grows (detect_completion response).
Proof.
  intros s w c s' w' H. apply AgentFacts.detect_completion_within in H as Hw.
  unfold detect_completion in H.
  destruct (str_truthy (content (message response)));
    [|injection H as _ <- _; apply grows_refl].
  destruct (content (message response)) as [txt|];
    [|injection H as _ <- _; apply grows_refl].
  destruct (contains "<report>" txt && contains "</report>" txt) eqn:Hm.
  - apply andb_true_iff in Hm. destruct Hm as [H1 H2].
    destruct (AgentFacts.contains_find _ _ H1) as [i Hi].
    destruct (AgentFacts.contains_find _ _ H2) as [j Hj].
    unfold bind, modify, expr, index, append_draft in H. rewrite Hi, Hj in H.
    injection H as _ <- _. grown_here.
  - unfold bind, get_state, modify, append_draft, ret in H.
    destruct (String.eqb (finish_reason response) "stop" && (5 <? step_count s)%Z);
      [destruct (1000 <? len txt)%Z|];
      injection H as _ <- _; try apply grows_refl.
    grown_here.
Qed.

Lemma browsed_evidence_grows (page : value) : preserves grows (browsed_evidence page).
Proof. unfold browsed_evidence. frame_by grows_refl grows_trans. grown. Qed.

Lemma _extract_evidence_grows (tool_call : value) (r : ToolResult) :
  preserves grows (_extract_evidence tool_call r).
Proof.
  unfold _extract_evidence.
  frame_by grows_refl grows_trans; try apply browsed_evidence_grows; grown.
Qed.

Lemma handle_tool_call_grows (agent : ReActAgent) (tool_call : value) :
  preserves grows (handle_tool_call agent tool_call).
Proof.
  unfold handle_tool_call.
  frame_by grows_refl grows_trans; try apply _extract_evidence_grows; grown.
Qed.

Lemma step_grows (agent : ReActAgent)
    (on_step : option (AgentState -> World -> completion unit * World)) :
  preserves grows (step agent on_step).
Proof.
  unfold step.
  frame_by grows_refl grows_trans;
    try apply handle_tool_call_grows; try apply detect_completion_grows; grown.
Qed.

Lemma loop_grows (agent : ReActAgent)
    (on_step : option (AgentState -> World -> completion unit * World))
    (fuel : nat) (s s' : AgentState) (w w' : World) (c : completion unit) :
  loop agent on_step fuel s w = Some (c, s', w') -> grows s s'.
Proof.
  revert s w. induction fuel as [|fuel IH]; intros s w H; cbn [loop] in H.
  - destruct (_ && _); [discriminate|]. injection H as _ <- _. apply grows_refl.
  - destruct (_ && _); [|injection H as _ <- _; apply grows_refl].
    destruct (step agent on_step s w) as [[[u|e] s1] w1] eqn:Es;
      apply step_grows in Es.
    + eapply grows_trans; [exact Es | eapply IH, H].
    + destruct (is_Exception e); injection H as _ <- _;
        [eapply grows_trans; [exact Es|] | exact Es].
      grown_here.
Qed.

Lemma ensure_final_report_grows (s : AgentState) : grows s (ensure_final_report s).
Proof.
  unfold ensure_final_report.
  destruct (report_drafts s) eqn:Hd; [|apply grows_refl].
  destruct (messages s) as [|m ms]; [apply grows_refl|].
  destruct (first_assistant_text (rev (m :: ms))); [|apply grows_refl].
  grown_here. rewrite Hd. now exists [s0].
Qed.

(** X7. Whatever the model and the tools do, a run only moves the
    state forward: the history it was given is still there, followed by
    the system prompt, the query and whatever the steps added; the tool
    log, the evidence, the claims and the drafts were only appended to;
    the step counter did not go down; and a run that was complete is
    still complete. This holds also for the state a run leaves when it
    raises. *)
Theorem run_only_appends (agent : ReActAgent) (query : string)
    (state s' : AgentState)
    (on_step : option (AgentState -> World -> completion unit * World))
    (w w' : World) (c : completion unit) :
  run agent query state on_step w = Some (c, s', w') ->
  grows state s'
  /\ extends (messages (seed agent query state)) (messages s')
  /\ messages (seed agent query state)
     = (messages state
        ++ [ {| role := "system"; content := Some (system_prompt agent);
                tool_calls := None; tool_call_id := PNone; name := None |};
             {| role := "user"; content := Some query;
                tool_calls := None; tool_call_id := PNone; name := None |} ])%list.
Proof.
  unfold run.
  destruct (loop agent on_step _ (seed agent query state) w)
    as [[[[u|e] s1] w1]|] eqn:Hloop; try discriminate;
    intros H; injection H as _ <- _; apply loop_grows in Hloop.
  - assert (Hg : grows (seed agent query state) (ensure_final_report s1))
      by (eapply grows_trans; [exact Hloop | apply ensure_final_report_grows]).
    split; [|split].
    + eapply grows_trans; [|exact Hg]. grown_here.
      rewrite <- app_assoc. now eexists.
    + apply Hg.
    + unfold seed, add_message. cbn. now rewrite <- app_assoc.
  - split; [|split].
    + eapply grows_trans; [|exact Hloop]. grown_here.
      rewrite <- app_assoc. now eexists.
    + apply Hloop.
    + unfold seed, add_message. cbn. now rewrite <- app_assoc.
Qed.

(** ** One draft at most *)

Lemma quiet_drafted (s s' : AgentState) : quiet s s' -> drafted_once s s'.
Proof. intros (_ & Hd & Hc & _). left. now split. Qed.

Lemma detect_completion_drafted (response : ModelResponse)
    (s s' : AgentState) (w w' : World) (c : completion unit) :
  detect_completion response s w = (c, s', w') -> drafted_once s s'.
Proof.
  intros H. unfold detect_completion in H.
  destruct (str_truthy (content (message response)));
    [|injection H as _ <- _; left; now split].
  destruct (content (message response)) as [txt|];
    [|injection H as _ <- _; left; now split].
  destruct (contains "<report>" txt && contains "</report>" txt) eqn:Hm.
  - apply andb_true_iff in Hm. destruct Hm as [H1 H2].
    destruct (AgentFacts.contains_find _ _ H1) as [i Hi].
    destruct (AgentFacts.contains_find _ _ H2) as [j Hj].
    unfold bind, modify, expr, index, append_draft in H. rewrite Hi, Hj in H.
    injection H as _ <- _. right. split; [reflexivity|]. now eexists.
  - unfold bind, get_state, modify, append_draft, ret in H.
    destruct (String.eqb (finish_reason response) "stop" && (5 <? step_count s)%Z);
      [destruct (1000 <? len txt)%Z|];
      injection H as _ <- _; try (left; now split).
    right. split; [reflexivity|]. now eexists.
Qed.

Lemma respond_drafted (agent : ReActAgent) (response : ModelResponse)
    (s s' : AgentState) (w w' : World) (c : completion unit) :
  respond agent response s w = (c, s', w') -> drafted_once s s'.
Proof.
  unfold respond. destruct (has_tool_calls response).
  - destruct (tool_calls (message response)) as [tcs|].
    + intros H. apply quiet_drafted. revert H.
      apply (AgentFacts.preserves_for_each AgentFacts.quiet_refl AgentFacts.quiet_trans).
      intros tc. apply AgentFacts.handle_tool_call_quiet.
    + intros H. injection H as _ <- _. left. now split.
  - apply detect_completion_drafted.
Qed.

Lemma step_drafted (agent : ReActAgent)
    (on_step : option (AgentState -> World -> completion unit * World))
    (s s' : AgentState) (w w' : World) (c : completion unit) :
  step agent on_step s w = (c, s', w') -> drafted_once s s'.
Proof.
  intros H. apply step_cases in H. destruct H as [->|(response & w1 & c2 & w2 & H)].
  - left. now split.
  - apply respond_drafted in H. exact H.
Qed.

Lemma loop_one_draft (agent : ReActAgent)
    (on_step : option (AgentState -> World -> completion unit * World))
    (fuel : nat) (s s' : AgentState) (w w' : World) (c : completion unit) :
  loop agent on_step fuel s w = Some (c, s', w') ->
  one_draft_when_complete s -> one_draft_when_complete s'.
Proof.
  revert s w. induction fuel as [|fuel IH]; intros s w H K; cbn [loop] in H.
  - destruct (_ && _); [discriminate|]. injection H as _ <- _. exact K.
  - destruct ((step_count s <? max_steps agent)%Z && negb (is_complete s)) eqn:Hc;
      [|injection H as _ <- _; exact K].
    apply andb_true_iff in Hc. destruct Hc as [_ Hc].
    apply negb_true_iff in Hc.
    assert (K1 : forall s1, drafted_once s s1 -> one_draft_when_complete s1).
    { intros s1 [[Hd Hs]|[Hs [d Hd]]]; unfold one_draft_when_complete.
      - rewrite Hd, Hs. exact K.
      - rewrite Hd, Hs, (proj1 K Hc). split; [discriminate | now exists d]. }
    destruct (step agent on_step s w) as [[[u|e] s1] w1] eqn:Es;
      apply step_drafted in Es; apply K1 in Es.
    + eapply IH; eassumption.
    + destruct (is_Exception e); injection H as _ <- _; exact Es.
Qed.

(** X8. A run that starts without drafts and not complete returns with
    at most one draft, and with exactly one when it is complete: the
    loop stores a draft only in the step that completes the run, and
    the fallback adds one only when there is none. *)
Theorem run_leaves_one_draft_at_most (agent : ReActAgent) (query : string)
    (state s' : AgentState)
    (on_step : option (AgentState -> World -> completion unit * World))
    (w w' : World) :
  report_drafts state = [] ->
  is_complete state = false ->
  run agent query state on_step w = Some (Returned tt, s', w') ->
  (List.length (report_drafts s') <= 1)%nat
  /\ (is_complete s' = true -> exists d, report_drafts s' = [d]).
Proof.
  intros Hd Hc. unfold run.
  destruct (loop agent on_step _ (seed agent query state) w)
    as [[[[u|e] s1] w1]|] eqn:Hloop; try discriminate.
  intros H. injection H as <- _.
  apply loop_one_draft in Hloop;
    [|split; cbn; [intros _; exact Hd | rewrite Hc; discriminate]].
  destruct (AgentFacts.ensure_final_report_frame s1) as (_ & Hcomp & _ & _).
  rewrite Hcomp, AgentFacts.ensure_final_report_drafts.
  destruct Hloop as [K0 K1]. destruct (is_complete s1).
  - destruct (K1 eq_refl) as [d ->]. split; [cbn; lia | intros _; now exists d].
  - rewrite (K0 eq_refl). split; [|discriminate].
    destruct (first_assistant_text _); cbn; lia.
Qed.

(** ** Dispatch through the loop *)

(** X9. A tool call that names a tool the registry does not hold, with
    arguments that decode to an object, is answered like any failed
    call: the tool-role message carries the text [Unknown tool: ...],
    the call is logged as failed, nothing is raised and no other part
    of the state changes. *)
Theorem unknown_tool_is_answered (agent : ReActAgent)
    (tc func id : value) (n a : string) (d : dict) :
  getitem tc "function" = Returned func ->
  getitem func "name" = Returned (PStr n) ->
  getitem func "arguments" = Returned (PStr a) ->
  getitem tc "id" = Returned id ->
  json_loads a = Returned (PDict d) ->
  binds_cleanly (PDict d) = true ->
  lookup n (tools (toolset agent)) = None ->
  (forall w, _execute_tool_call agent tc w = (Returned (unknown_tool_result n), w))
  /\ (forall s w,
        handle_tool_call agent tc s w
        = (Returned tt,
           record_call id (PStr n) (PStr a) (unknown_tool_result n)
             (fst (utcnow_isoformat w)) s,
           snd (utcnow_isoformat w)))
  /\ content (tool_message id (unknown_tool_result n)) = Some ("Unknown tool: " ++ n).
Proof.
  intros Hf Hn Ha Hid Hj Hb Hl.
  assert (Hx : forall w, _execute_tool_call agent tc w
                         = (Returned (unknown_tool_result n), w)).
  { intros w. unfold _execute_tool_call, loads, call_execute.
    rewrite Hf, Hn, Ha, Hj. cbn [binds_cleanly] in Hb.
    assert (Hc : first_clash d = None).
    { apply AgentFacts.first_clash_none.
      destruct (lookup "self" d); [discriminate|].
      destruct (lookup "tool_name" d); [discriminate|]. now split. }
    rewrite Hc. unfold ToolSet_execute, get_tool. rewrite Hl. reflexivity. }
  split; [exact Hx|]. split; [|reflexivity].
  intros s w.
  rewrite AgentFacts.handle_tool_call_returned
    with (func := func) (tool_name := PStr n) (args := PStr a) (id := id)
         (r := unknown_tool_result n) (w1 := w); auto.
Qed.

(** X10. Arguments that are valid JSON but do not decode to an object,
    or decode to an object with the key [self] or [tool_name], are not
    recovered: passing them on as keyword arguments raises a
    [TypeError], and a step that requests such a call first ends the
    loop with that error. *)
Theorem unbindable_arguments_end_loop (agent : ReActAgent)
    (tc func tool_name : value) (a : string) (v : value) :
  getitem tc "function" = Returned func ->
  getitem func "name" = Returned tool_name ->
  getitem func "arguments" = Returned (PStr a) ->
  json_loads a = Returned v ->
  binds_cleanly v = false ->
  exists e,
    exn_class_of e = TypeError
    /\ (forall w, _execute_tool_call agent tc w = (Raised e, w))
    /\ (forall s w, handle_tool_call agent tc s w = (Raised e, s, w))
    /\ (forall on_step fuel s w response w1 rest,
          (step_count s < max_steps agent)%Z ->
          is_complete s = false ->
          chat_completion (messages s) (get_all_schemas (toolset agent)) w
            = (Returned response, w1) ->
          tool_calls (message response) = Some (tc :: rest) ->
          loop agent on_step (S fuel) s w
          = Some (Returned tt,
                  set_error (Some (exn_str e))
                    (take_response response (begin_step agent s)), w1)).
Proof.
  intros Hf Hn Ha Hj Hb.
  assert (Hx : exists e, exn_class_of e = TypeError
                         /\ forall w, _execute_tool_call agent tc w = (Raised e, w)).
  { unfold _execute_tool_call, loads, call_execute. rewrite Hf, Hn, Ha, Hj.
    destruct v as [|b|z|t|l|d]; try (eexists; split; [|intro; reflexivity]; reflexivity).
    cbn [binds_cleanly] in Hb.
    destruct (first_clash d) as [k|] eqn:Hc;
      [eexists; split; [|intro; reflexivity]; reflexivity|].
    apply AgentFacts.first_clash_none in Hc. destruct Hc as [H1 H2].
    rewrite H1, H2 in Hb. discriminate. }
  destruct Hx as (e & He & Hx). exists e. split; [exact He|]. split; [exact Hx|].
  assert (Hh : forall s w, handle_tool_call agent tc s w = (Raised e, s, w))
    by (intros s w; apply AgentFacts.handle_tool_call_raised, Hx).
  split; [exact Hh|].
  intros on_step fuel s w response w1 rest Hlt Hc Hchat Htc.
  apply AgentFacts.loop_stops_on_exception; try assumption.
  - unfold is_Exception. now rewrite He.
  - rewrite AgentFacts.step_with_tool_calls
      with (response := response) (w1 := w1) (tc := tc) (tcs := rest);
      try assumption.
    unfold bind at 1. cbn [for_each]. unfold bind at 1. rewrite Hh. reflexivity.
Qed.

(** ** What extraction touches *)

Lemma only_findings_refl (s : AgentState) : only_findings_grow s s.
Proof. unfold only_findings_grow. repeat split; apply extends_refl. Qed.

Lemma only_findings_trans (s1 s2 s3 : AgentState) :
  only_findings_grow s1 s2 -> only_findings_grow s2 s3 -> only_findings_grow s1 s3.
Proof.
  unfold only_findings_grow.
  intros (?&?&?&?&?&?&?&?&?&?&?) (?&?&?&?&?&?&?&?&?&?&?).
  repeat split; try congruence; eapply extends_trans; eassumption.
Qed.

(** Closes the goal that a field update changes the findings only. *)
Ltac findings :=
  intro; unfold only_findings_grow; cbn;
  repeat split; auto using extends_refl, extends_snoc.

Lemma browsed_evidence_findings (page : value) :
  preserves only_findings_grow (browsed_evidence page).
Proof.
  unfold browsed_evidence. frame_by only_findings_refl only_findings_trans.
  findings.
Qed.

Lemma _extract_evidence_findings (tool_call : value) (r : ToolResult) :
  preserves only_findings_grow (_extract_evidence tool_call r).
Proof.
  unfold _extract_evidence.
  frame_by only_findings_refl only_findings_trans;
    try apply browsed_evidence_findings; findings.
Qed.

(** X11. Evidence and claim extraction changes nothing in the state
    but the evidence and the claims, and those only by appending, even
    when it raises half-way; for the result of a tool other than
    web_search, batch_web_surfer, web_browse and cross_validate it does
    nothing at all. *)
Theorem extraction_touches_only_findings (tool_call : value) (r : ToolResult)
    (s s' : AgentState) (w w' : World) (c : completion unit) :
  _extract_evidence tool_call r s w = (c, s', w') ->
  only_findings_grow s s'
  /\ forall func n,
       getitem tool_call "function" = Returned func ->
       getitem func "name" = Returned n ->
       forallb (fun t => negb (eq_str n t)) searched_tools = true ->
       c = Returned tt /\ s' = s /\ w' = w.
Proof.
  intros H. split; [eapply _extract_evidence_findings, H|].
  intros func n Hf Hn Hother. unfold _extract_evidence in H.
  unfold bind at 1 2 in H. unfold expr at 1 2 in H. rewrite Hf, Hn in H.
  cbn [forallb searched_tools] in Hother.
  destruct (eq_str n "web_search"); [discriminate|].
  destruct (eq_str n "batch_web_surfer"); [discriminate|].
  destruct (eq_str n "web_browse"); [discriminate|].
  destruct (eq_str n "cross_validate"); [discriminate|].
  cbn [orb] in H. injection H as <- <- <-. repeat split.
Qed.

(** X12. A tool call that is read and executed leaves exactly one
    tool-role message, tagged with the call's id, and exactly one
    record in the tool log, whether or not the extraction that follows
    raises; the message's content is the serialized output when the
    output counts as true and the result's error otherwise; and after a
    failed result nothing else changes. *)
Theorem handled_call_is_recorded (agent : ReActAgent)
    (tc func tool_name args id : value) (r : ToolResult)
    (s : AgentState) (w w1 : World) :
  getitem tc "function" = Returned func ->
  getitem func "name" = Returned tool_name ->
  getitem func "arguments" = Returned args ->
  getitem tc "id" = Returned id ->
  _execute_tool_call agent tc w = (Returned r, w1) ->
  exists c s' w',
    handle_tool_call agent tc s w = (c, s', w')
    /\ messages s'
       = (messages s
          ++ [ {| role := "tool";
                  content := if truthy (output r)
                             then Some (json_dumps (output r))
                             else Tools.error r;
                  tool_calls := None; tool_call_id := id; name := None |} ])%list
    /\ tool_call_log s'
       = (tool_call_log s
          ++ [call_record tool_name args r (fst (utcnow_isoformat w1))])%list
    /\ quiet s s'
    /\ (success r = false ->
        c = Returned tt /\ evidence s' = evidence s /\ claims s' = claims s).
Proof.
  intros Hf Hn Ha Hid Hx.
  rewrite AgentFacts.handle_tool_call_returned
    with (func := func) (tool_name := tool_name) (args := args) (id := id)
         (r := r) (w1 := w1); auto.
  set (s1 := record_call id tool_name args r (fst (utcnow_isoformat w1)) s).
  destruct (success r) eqn:Hs.
  - destruct (_extract_evidence tc r s1 (snd (utcnow_isoformat w1)))
      as [[c s'] w'] eqn:Ex.
    exists c, s', w'. split; [reflexivity|].
    apply _extract_evidence_findings in Ex.
    destruct Ex as (_ & Hm & _ & Hsc & _ & Hl & Hd & Hc & He & _ & _).
    rewrite Hm, Hl. split; [reflexivity|]. split; [reflexivity|].
    split; [|discriminate].
    unfold quiet. rewrite Hsc, Hd, Hc, He. repeat split.
  - exists (Returned tt), s1, (snd (utcnow_isoformat w1)).
    split; [reflexivity|]. split; [reflexivity|]. split; [reflexivity|].
    split; [repeat split|]. intros _. repeat split.
Qed.

(** ** Browsed pages *)

Lemma length_prefix_slice (n : nat) (text : string) :
  (String.length (slice 0 n text) <= n)%nat.
Proof.
  unfold slice. rewrite Nat.sub_0_r. revert text.
  induction n as [|n IH]; intros [|a text]; cbn; try lia.
  specialize (IH text). lia.
Qed.

(** X13. For a successful web_browse result that is an object, the
    snippet of the evidence entry is the page content cut to its first
    500 characters when the content is a string, and the empty string
    when the object has no content; a content that is null, a boolean
    or a number is not tolerated: the extraction raises a [TypeError]
    and appends nothing. *)
Theorem browsed_snippet_is_cut (tc func : value) (r : ToolResult) (d : dict)
    (s : AgentState) (w : World) :
  getitem tc "function" = Returned func ->
  getitem func "name" = Returned (PStr "web_browse") ->
  output r = PDict d ->
  (forall text,
     get d "content" (PStr "") = PStr text ->
     _extract_evidence tc r s w
     = (Returned tt,
        set_evidence
          (evidence s ++ [ {| source_url := get d "url" (PStr "");
                              source_title := get d "title" (PStr "");
                              snippet := PStr (slice 0 500 text);
                              retrieved_at := fst (utcnow_isoformat w) |} ]) s,
        snd (utcnow_isoformat w))
     /\ (String.length (slice 0 500 text) <= 500)%nat)
  /\ (lookup "content" d = None ->
      get d "content" (PStr "") = PStr "" /\ slice 0 500 "" = "")
  /\ (forall v,
        lookup "content" d = Some v ->
        is_list v = false -> is_dict v = false -> (forall t, v <> PStr t) ->
        exists e,
          exn_class_of e = TypeError
          /\ _extract_evidence tc r s w = (Raised e, s, w)).
Proof.
  intros Hf Hn Ho.
  assert (Hx : _extract_evidence tc r s w = browsed_evidence (PDict d) s w).
  { unfold _extract_evidence. unfold bind at 1 2. unfold expr at 1 2.
    rewrite Hf, Hn, Ho. reflexivity. }
  rewrite Hx. unfold browsed_evidence, bind, expr, value_get, timestamp,
    append_evidence, modify.
  split; [|split].
  - intros text Ht. rewrite Ht. cbn [slice_500]. split.
    + destruct (utcnow_isoformat w). reflexivity.
    + apply length_prefix_slice.
  - intros Hnone. unfold get. rewrite Hnone. split; reflexivity.
  - intros v Hv Hl Hd Hs. unfold get. rewrite Hv.
    destruct v as [|b|z|t|l|d']; try discriminate;
      try (eexists; split; [|reflexivity]; reflexivity).
    destruct (Hs t eq_refl).
Qed.

(** ** The phase *)

Lemma _determine_phase_range (agent : ReActAgent) (s : AgentState) :
  In (_determine_phase agent s) inferred_phases.
Proof.
  unfold _determine_phase, inferred_phases.
  repeat match goal with
         | |- context [if ?b then _ else _] => destruct b
         end; cbn; tauto.
Qed.

Lemma phase_inferred_refl (s : AgentState) : phase_inferred s s.
Proof. now left. Qed.

Lemma phase_inferred_trans (s1 s2 s3 : AgentState) :
  phase_inferred s1 s2 -> phase_inferred s2 s3 -> phase_inferred s1 s3.
Proof.
  unfold phase_inferred. intros [H1|H1] [H2|H2]; auto.
  - left. congruence.
  - right. now rewrite H2.
Qed.

Lemma browsed_evidence_phase (page : value) :
  preserves phase_inferred (browsed_evidence page).
Proof.
  unfold browsed_evidence. frame_by phase_inferred_refl phase_inferred_trans.
  intro. now left.
Qed.

Lemma handle_tool_call_phase (agent : ReActAgent) (tool_call : value) :
  preserves phase_inferred (handle_tool_call agent tool_call).
Proof.
  unfold handle_tool_call, _extract_evidence.
  frame_by phase_inferred_refl phase_inferred_trans;
    try apply browsed_evidence_phase; intro; now left.
Qed.

Lemma detect_completion_phase (response : ModelResponse) :
  preserves phase_inferred (detect_completion response).
Proof.
  intros s w c s' w' H. left. unfold detect_completion in H.
  destruct (str_truthy (content (message response)));
    [|now injection H as _ <- _].
  destruct (content (message response)) as [txt|]; [|now injection H as _ <- _].
  destruct (contains "<report>" txt && contains "</report>" txt) eqn:Hm.
  - apply andb_true_iff in Hm. destruct Hm as [H1 H2].
    destruct (AgentFacts.contains_find _ _ H1) as [i Hi].
    destruct (AgentFacts.contains_find _ _ H2) as [j Hj].
    unfold bind, modify, expr, index, append_draft in H. rewrite Hi, Hj in H.
    now injection H as _ <- _.
  - unfold bind, get_state, modify, append_draft, ret in H.
    destruct (String.eqb (finish_reason response) "stop" && (5 <? step_count s)%Z);
      [destruct (1000 <? len txt)%Z|]; now injection H as _ <- _.
Qed.

Lemma step_phase (agent : ReActAgent)
    (on_step : option (AgentState -> World -> completion unit * World)) :
  preserves phase_inferred (step agent on_step).
Proof.
  unfold step.
  frame_by phase_inferred_refl phase_inferred_trans;
    try apply handle_tool_call_phase; try apply detect_completion_phase;
    intro; try (now left).
  right. apply _determine_phase_range.
Qed.

Lemma loop_phase (agent : ReActAgent)
    (on_step : option (AgentState -> World -> completion unit * World))
    (fuel : nat) (s s' : AgentState) (w w' : World) (c : completion unit) :
  loop agent on_step fuel s w = Some (c, s', w') -> phase_inferred s s'.
Proof.
  revert s w. induction fuel as [|fuel IH]; intros s w H; cbn [loop] in H.
  - destruct (_ && _); [discriminate|]. injection H as _ <- _. now left.
  - destruct (_ && _); [|injection H as _ <- _; now left].
    destruct (step agent on_step s w) as [[[u|e] s1] w1] eqn:Es;
      apply step_phase in Es.
    + eapply phase_inferred_trans; [exact Es | eapply IH, H].
    + destruct (is_Exception e); injection H as _ <- _; exact Es.
Qed.

(** X14. The phase the loop computes is always one of planning,
    information_seeking, reflection and report_generation, and it is
    planning as long as the step count is at most 2; so after a run the
    phase is the one the state came with or one of these four: the loop
    never sets the phase to completed. *)
Theorem loop_never_sets_completed (agent : ReActAgent) :
  (forall s, In (_determine_phase agent s) inferred_phases)
  /\ (forall s, (step_count s <= 2)%Z -> _determine_phase agent s = "planning")
  /\ (forall query state on_step w c s' w',
        run agent query state on_step w = Some (c, s', w') ->
        current_phase s' = current_phase state
        \/ In (current_phase s') inferred_phases).
Proof.
  split; [apply _determine_phase_range|]. split.
  - intros s Hs. unfold _determine_phase. apply Z.leb_le in Hs. now rewrite Hs.
  - intros query state on_step w c s' w'. unfold run.
    destruct (loop agent on_step _ (seed agent query state) w)
      as [[[[u|e] s1] w1]|] eqn:Hloop; try discriminate;
      intros H; injection H as _ <- _; apply loop_phase in Hloop.
    + destruct Hloop as [Hl|Hl]; [left|right].
      * unfold ensure_final_report.
        destruct (report_drafts s1); [|exact Hl].
        destruct (messages s1) as [|m ms]; [exact Hl|].
        destruct (first_assistant_text (rev (m :: ms))); exact Hl.
      * unfold ensure_final_report.
        destruct (report_drafts s1); [|exact Hl].
        destruct (messages s1) as [|m ms]; [exact Hl|].
        destruct (first_assistant_text (rev (m :: ms))); exact Hl.
    + exact Hloop.
Qed.

(** ** Token usage *)

Lemma lookup_store {A : Type} (k k' : string) (v : A) (d : list (string * A)) :
  lookup k (store k' v d) = if String.eqb k k' then Some v else lookup k d.
Proof.
  induction d as [|[j x] d IH]; cbn.
  - destruct (String.eqb k k'); reflexivity.
  - destruct (String.eqb k' j) eqn:Ej; cbn.
    + apply String.eqb_eq in Ej. subst j. destruct (String.eqb k k'); reflexivity.
    + destruct (String.eqb k j) eqn:Ek.
      * apply String.eqb_eq in Ek. subst j.
        destruct (String.eqb k k') eqn:Ekk; [|reflexivity].
        apply String.eqb_eq in Ekk. subst k'. rewrite String.eqb_refl in Ej.
        discriminate.
      * exact IH.
Qed.

Lemma keys_store_present {A : Type} (k : string) (v old : A) (d : list (string * A)) :
  lookup k d = Some old -> keys (store k v d) = keys d.
Proof.
  unfold keys. induction d as [|[j x] d IH]; cbn; [discriminate|].
  destruct (String.eqb k j) eqn:Ej; cbn.
  - apply String.eqb_eq in Ej. now subst j.
  - intros H. now rewrite IH.
Qed.

Lemma reported_from (key : string) (usage : list (string * Z)) (n : Z) :
  fold_left (fun n kv => if String.eqb key (fst kv) then (n + snd kv)%Z else n) usage n
  = (n + reported key usage)%Z.
Proof.
  unfold reported. revert n. induction usage as [|kv usage IH]; intros n; cbn.
  - lia.
  - rewrite IH. rewrite (IH (if String.eqb key (fst kv) then _ else _)).
    destruct (String.eqb key (fst kv)); lia.
Qed.

Lemma usage_folded (usage tu : list (string * Z)) (key : string) :
  let add tu kv := match lookup (fst kv) tu with
                   | Some old => store (fst kv) (old + snd kv)%Z tu
                   | None => tu
                   end in
  lookup key (fold_left add usage tu)
  = option_map (fun v => (v + reported key usage)%Z) (lookup key tu)
  /\ keys (fold_left add usage tu) = keys tu.
Proof.
  cbn zeta. revert tu. induction usage as [|kv usage IH]; intros tu; cbn [fold_left].
  - split; [|reflexivity]. unfold reported. cbn.
    destruct (lookup key tu); cbn; [f_equal; lia | reflexivity].
  - destruct (IH (match lookup (fst kv) tu with
                  | Some old => store (fst kv) (old + snd kv)%Z tu
                  | None => tu
                  end)) as [Hl Hk].
    rewrite Hl, Hk. clear Hl Hk IH. unfold reported at 2. cbn [fold_left].
    rewrite reported_from.
    destruct (lookup (fst kv) tu) as [old|] eqn:Eo.
    + split; [|eapply keys_store_present; eassumption].
      rewrite lookup_store. destruct (String.eqb key (fst kv)) eqn:Ek.
      * apply String.eqb_eq in Ek. subst key. rewrite Eo. cbn. f_equal. lia.
      * destruct (lookup key tu); cbn; [f_equal; lia | reflexivity].
    + split; [|reflexivity].
      destruct (String.eqb key (fst kv)) eqn:Ek.
      * apply String.eqb_eq in Ek. subst key. now rewrite Eo.
      * destruct (lookup key tu); cbn; [f_equal; lia | reflexivity].
Qed.

(** X15. [update_usage] keeps the counters the state has, in their
    order, and adds to each what the usage report holds for its key; a
    key the state does not count is ignored. *)
Theorem usage_is_added (usage : list (string * Z)) (s : AgentState) (key : string) :
  lookup key (token_usage (update_usage usage s))
  = option_map (fun v => (v + reported key usage)%Z) (lookup key (token_usage s))
  /\ keys (token_usage (update_usage usage s)) = keys (token_usage s).
Proof. unfold update_usage. cbn [token_usage set_token_usage]. apply usage_folded. Qed.

(** ** The fallback *)

Lemma ensure_final_report_noop (s : AgentState) :
  report_drafts s <> [] -> ensure_final_report s = s.
Proof.
  intros H. unfold ensure_final_report.
  destruct (report_drafts s); [congruence | reflexivity].
Qed.

Lemma ensure_final_report_cases (s : AgentState) :
  ensure_final_report s = s \/ report_drafts (ensure_final_report s) <> [].
Proof.
  rewrite AgentFacts.ensure_final_report_drafts. unfold ensure_final_report.
  destruct (report_drafts s) as [|d ds]; [|now left].
  destruct (messages s) as [|m ms].
  - left. reflexivity.
  - destruct (first_assistant_text (rev (m :: ms))); [right; discriminate | now left].
Qed.

(** X16. The fallback is idempotent and leaves a state that has a
    draft as it is: applied again it adds no second draft. *)
Theorem fallback_acts_once (s : AgentState) :
  ensure_final_report (ensure_final_report s) = ensure_final_report s
  /\ (report_drafts s <> [] -> ensure_final_report s = s).
Proof.
  split; [|apply ensure_final_report_noop].
  destruct (ensure_final_report_cases s) as [H|H].
  - rewrite H. exact H.
  - now apply ensure_final_report_noop.
Qed.

End WithExternals.

(** ** The theorems at concrete inputs *)

Import Scripted.

Lemma provider_failure_ends_loop_witness :
  (step_count (AgentState_init "run-1") < max_steps (agent 3))%Z
  /\ is_complete (AgentState_init "run-1") = false
  /\ loop (agent 3) None 3 (AgentState_init "run-1") (start [] [])
     = Some (Returned tt,
             set_error (Some "Connection error.")
               (begin_step (agent 3) (AgentState_init "run-1")),
             start [] []).
Proof.
  assert (H1 : (step_count (AgentState_init "run-1") < max_steps (agent 3))%Z)
    by (simpl; lia).
  split; [exact H1|]. split; [reflexivity|].
  exact (proj1 (@provider_failure_ends_loop env (agent 3) None 2
                  (AgentState_init "run-1") (start [] []) (start [] [])
                  (Exn (OtherException "APIConnectionError") "Connection error.")
                  H1 eq_refl eq_refl)).
Defined.

Lemma run_ends_for_a_reason_witness :
  exists s' w',
    run (agent 3) "What is new?" (AgentState_init "run-1") None
      (start [says "Let me think."; says "Still thinking."; says "Nearly there."] [])
    = Some (Returned tt, s', w')
    /\ (is_complete s' = true
        \/ (max_steps (agent 3) <= step_count s')%Z
        \/ exists text, error s' = Some text).
Proof.
  assert (H : exists s' w',
            run (agent 3) "What is new?" (AgentState_init "run-1") None
              (start [says "Let me think."; says "Still thinking.";
                      says "Nearly there."] [])
            = Some (Returned tt, s', w'))
    by (vm_compute; eexists; eexists; reflexivity).
  destruct H as (s' & w' & H). exists s', w'. split; [exact H|].
  exact (@run_ends_for_a_reason env (agent 3) "What is new?"
           (AgentState_init "run-1") s' None _ w' H).
Defined.

Lemma run_only_appends_witness :
  exists c s' w',
    run (agent 3) "What is new?" (AgentState_init "run-1") None
      (start [requests [tool_call "call_1" "web_search" "{}"];
              says "<report>Nothing.</report>"]
             [Returned empty_search])
    = Some (c, s', w')
    /\ grows (AgentState_init "run-1") s'.
Proof.
  assert (H : exists c s' w',
            run (agent 3) "What is new?" (AgentState_init "run-1") None
              (start [requests [tool_call "call_1" "web_search" "{}"];
                      says "<report>Nothing.</report>"]
                     [Returned empty_search])
            = Some (c, s', w'))
    by (vm_compute; eexists; eexists; eexists; reflexivity).
  destruct H as (c & s' & w' & H). exists c, s', w'. split; [exact H|].
  exact (proj1 (@run_only_appends env (agent 3) "What is new?"
                  (AgentState_init "run-1") s' None _ w' c H)).
Defined.

Lemma run_leaves_one_draft_at_most_witness :
  report_drafts (AgentState_init "run-1") = []
  /\ is_complete (AgentState_init "run-1") = false
  /\ exists s' w',
       run (agent 3) "What is new?" (AgentState_init "run-1") None
         (start [says "Let me think."; says "<report>Nothing.</report>"] [])
       = Some (Returned tt, s', w')
       /\ (List.length (report_drafts s') <= 1)%nat.
Proof.
  split; [reflexivity|]. split; [reflexivity|].
  assert (H : exists s' w',
            run (agent 3) "What is new?" (AgentState_init "run-1") None
              (start [says "Let me think."; says "<report>Nothing.</report>"] [])
            = Some (Returned tt, s', w'))
    by (vm_compute; eexists; eexists; reflexivity).
  destruct H as (s' & w' & H). exists s', w'. split; [exact H|].
  exact (proj1 (@run_leaves_one_draft_at_most env (agent 3) "What is new?"
                  (AgentState_init "run-1") s' None _ w' eq_refl eq_refl H)).
Defined.

Lemma unknown_tool_is_answered_witness :
  json_loads "{}" = Returned (PDict [])
  /\ lookup "teleport" (tools (toolset (agent 3))) = None
  /\ _execute_tool_call (agent 3) (tool_call "call_1" "teleport" "{}") (start [] [])
     = (Returned (unknown_tool_result "teleport"), start [] [])
  /\ content (tool_message (PStr "call_1") (unknown_tool_result "teleport"))
     = Some "Unknown tool: teleport".
Proof.
  split; [reflexivity|]. split; [reflexivity|].
  destruct (@unknown_tool_is_answered env (agent 3)
              (tool_call "call_1" "teleport" "{}")
              (PDict [("name", PStr "teleport"); ("arguments", PStr "{}")])
              (PStr "call_1") "teleport" "{}" []
              eq_refl eq_refl eq_refl eq_refl eq_refl eq_refl eq_refl)
    as (Hx & _ & Hc).
  split; [apply Hx | exact Hc].
Defined.

Lemma unbindable_arguments_end_loop_witness :
  json_loads "[]" = Returned (PList [])
  /\ binds_cleanly (PList []) = false
  /\ exists e,
       exn_class_of e = TypeError
       /\ _execute_tool_call (agent 3) (tool_call "call_1" "web_search" "[]")
            (start [] [])
          = (Raised e, start [] []).
Proof.
  split; [reflexivity|]. split; [reflexivity|].
  destruct (@unbindable_arguments_end_loop env (agent 3)
              (tool_call "call_1" "web_search" "[]")
              (PDict [("name", PStr "web_search"); ("arguments", PStr "[]")])
              (PStr "web_search") "[]" (PList [])
              eq_refl eq_refl eq_refl eq_refl eq_refl)
    as (e & He & Hx & _).
  exists e. split; [exact He | apply Hx].
Defined.

Lemma extraction_touches_only_findings_witness :
  _extract_evidence (tool_call "call_1" "cross_validate" "{}") validated
    (AgentState_init "run-1") (start [] [])
  = (Returned tt,
     set_claims [{| claim_text := PStr "X"; claim_status := PStr "supported";
                    supporting_sources := PInt 2 |}] (AgentState_init "run-1"),
     start [] [])
  /\ only_findings_grow (AgentState_init "run-1")
       (set_claims [{| claim_text := PStr "X"; claim_status := PStr "supported";
                       supporting_sources := PInt 2 |}] (AgentState_init "run-1")).
Proof.
  assert (H : _extract_evidence (tool_call "call_1" "cross_validate" "{}") validated
                (AgentState_init "run-1") (start [] [])
              = (Returned tt,
                 set_claims [{| claim_text := PStr "X";
                                claim_status := PStr "supported";
                                supporting_sources := PInt 2 |}]
                   (AgentState_init "run-1"),
                 start [] []))
    by reflexivity.
  split; [exact H|].
  exact (proj1 (@extraction_touches_only_findings env _ _ _ _ _ _ _ H)).
Defined.

Lemma handled_call_is_recorded_witness :
  _execute_tool_call (agent 3) (tool_call "call_1" "cross_validate" "{}")
    (start [] [Returned validated])
  = (Returned validated, start [] [])
  /\ exists c s' w',
       handle_tool_call (agent 3) (tool_call "call_1" "cross_validate" "{}")
         (AgentState_init "run-1") (start [] [Returned validated])
       = (c, s', w')
       /\ tool_call_log s'
          = [call_record (PStr "cross_validate") (PStr "{}") validated "t0"].
Proof.
  split; [reflexivity|].
  destruct (@handled_call_is_recorded env (agent 3)
              (tool_call "call_1" "cross_validate" "{}")
              (PDict [("name", PStr "cross_validate"); ("arguments", PStr "{}")])
              (PStr "cross_validate") (PStr "{}") (PStr "call_1") validated
              (AgentState_init "run-1") (start [] [Returned validated]) (start [] [])
              eq_refl eq_refl eq_refl eq_refl eq_refl)
    as (c & s' & w' & Hh & _ & Hl & _).
  exists c, s', w'. split; [exact Hh | exact Hl].
Defined.

Lemma browsed_snippet_is_cut_witness :
  _extract_evidence (tool_call "call_1" "web_browse" "{}")
    {| success := true;
       output := PDict [("url", PStr "https://example.org");
                        ("content", PStr "Hello")];
       Tools.error := None; metadata := [] |}
    (AgentState_init "run-1") (start [] [])
  = (Returned tt,
     set_evidence [ {| source_url := PStr "https://example.org";
                       source_title := PStr "";
                       snippet := PStr "Hello";
                       retrieved_at := "t0" |} ] (AgentState_init "run-1"),
     snd (tick (start [] []))).
Proof.
  exact (proj1 (proj1 (@browsed_snippet_is_cut env
                  (tool_call "call_1" "web_browse" "{}")
                  (PDict [("name", PStr "web_browse"); ("arguments", PStr "{}")])
                  {| success := true;
                     output := PDict [("url", PStr "https://example.org");
                                      ("content", PStr "Hello")];
                     Tools.error := None; metadata := [] |}
                  [("url", PStr "https://example.org"); ("content", PStr "Hello")]
                  (AgentState_init "run-1") (start [] [])
                  eq_refl eq_refl eq_refl) "Hello" eq_refl)).
Defined.

End LoopFacts.

(* ===================================================================== *)
(** * Properties of the single-shot completion                            *)
(* ===================================================================== *)

Module CompletionFacts.
Import Py Provider Tools Agent Completion.

Lemma call_of_api_readable (tc : ApiToolCall) :
  getitem (call_of_api tc) "id" = Returned (PStr (api_id tc))
  /\ exists func,
       getitem (call_of_api tc) "function" = Returned func
       /\ getitem func "name" = Returned (PStr (api_name (api_function tc)))
       /\ getitem func "arguments" = Returned (PStr (api_arguments (api_function tc))).
Proof. split; [reflexivity|]. eexists. repeat split. Qed.

Lemma call_of_api_well_formed (tc : ApiToolCall) : ~ malformed_call (call_of_api tc).
Proof.
  intros H. inversion H as [d Hf | d f Hf Ha | d f v Hf Ha Hv]; subst;
    cbn in Hf; try discriminate; injection Hf as <-; cbn in Ha; try discriminate.
  injection Ha as <-. eapply Hv. reflexivity.
Qed.

(** X17. The tool calls of a response read by [chat_completion] are
    the calls of the first choice, in their order, each with an id, a
    function name and arguments that are a string; so none of them is a
    call that [_execute_tool_call] cannot read. The response has tool
    calls exactly when the first choice lists at least one. *)
Theorem provider_calls_are_readable (response : ApiResponse) (r : ModelResponse) :
  read_response response = Returned r ->
  exists choice rest,
    api_choices response = choice :: rest
    /\ calls_of r
       = map call_of_api
           (match api_tool_calls (api_message choice) with Some l => l | None => [] end)
    /\ Forall (fun tc =>
                 exists id func n a,
                   getitem tc "id" = Returned (PStr id)
                   /\ getitem tc "function" = Returned func
                   /\ getitem func "name" = Returned (PStr n)
                   /\ getitem func "arguments" = Returned (PStr a))
         (calls_of r)
    /\ Forall (fun tc => ~ malformed_call tc) (calls_of r)
    /\ (has_tool_calls r = true
        <-> exists tc tcs, api_tool_calls (api_message choice) = Some (tc :: tcs)).
Proof.
  unfold read_response. destruct (api_choices response) as [|choice rest];
    [discriminate|].
  intros H. injection H as <-. exists choice, rest. split; [reflexivity|].
  unfold calls_of, has_tool_calls. cbn [message tool_calls].
  destruct (api_tool_calls (api_message choice)) as [[|tc tcs]|]; cbn [list_truthy].
  - repeat split; try constructor; try discriminate.
    intros (tc & tcs & H). discriminate.
  - split; [reflexivity|]. split; [|split; [|split]].
    + apply Forall_forall. intros x Hx. apply in_map_iff in Hx.
      destruct Hx as (y & <- & _).
      destruct (call_of_api_readable y) as (Hid & func & Hf & Hn & Ha).
      now exists (api_id y), func, (api_name (api_function y)),
        (api_arguments (api_function y)).
    + apply Forall_forall. intros x Hx. apply in_map_iff in Hx.
      destruct Hx as (y & <- & _). apply call_of_api_well_formed.
    + intros _. now exists tc, tcs.
    + reflexivity.
  - repeat split; try constructor; try discriminate.
    intros (tc & tcs & H). discriminate.
Qed.

(** X18. The usage a response reports is what the state counts: from
    counters [p], [c] and [t] the step's [update_usage] leads to [p],
    [c] and [t] plus the prompt, completion and total tokens of the
    response, and to the same counters when the response reports no
    usage. *)
Theorem reported_usage_is_counted (response : ApiResponse) (r : ModelResponse)
    (s : AgentState) (p c t : Z) :
  read_response response = Returned r ->
  token_usage s = [("prompt_tokens", p); ("completion_tokens", c); ("total_tokens", t)] ->
  token_usage (update_usage (usage r) s)
  = match api_usage response with
    | Some u => [("prompt_tokens", (p + api_prompt_tokens u)%Z);
                 ("completion_tokens", (c + api_completion_tokens u)%Z);
                 ("total_tokens", (t + api_total_tokens u)%Z)]
    | None => [("prompt_tokens", (p + 0)%Z); ("completion_tokens", (c + 0)%Z);
               ("total_tokens", (t + 0)%Z)]
    end.
Proof.
  unfold read_response. destruct (api_choices response); [discriminate|].
  intros H Hs. injection H as <-. unfold update_usage.
  cbn [usage token_usage set_token_usage]. rewrite Hs.
  destruct (api_usage response); reflexivity.
Qed.

(** ** The request *)

Lemma lookup_merge_none (k : string) (b a : dict) :
  lookup k a = None -> lookup k b = None -> lookup k (merge a b) = None.
Proof.
  unfold merge. revert a. induction b as [|[j v] b IH]; intros a Ha Hb; [exact Ha|].
  cbn [fold_left fst snd]. cbn [lookup] in Hb.
  destruct (String.eqb k j) eqn:Ej; [discriminate|].
  apply IH; [|exact Hb]. rewrite LoopFacts.lookup_store, Ej. exact Ha.
Qed.

Lemma lookup_merge_left (k : string) (b a : dict) :
  lookup k b = None -> lookup k (merge a b) = lookup k a.
Proof.
  unfold merge. revert a. induction b as [|[j v] b IH]; intros a Hb; [reflexivity|].
  cbn [fold_left fst snd]. cbn [lookup] in Hb.
  destruct (String.eqb k j) eqn:Ej; [discriminate|].
  rewrite IH; [|exact Hb]. now rewrite LoopFacts.lookup_store, Ej.
Qed.

(** X19. When tools are offered, the request carries them verbatim
    under [tools] together with the tool choice [auto], whatever the
    keyword arguments say; when no tools are offered (none, or an empty
    list) and the keyword arguments name neither key, the request has
    neither. The default and per-call keyword arguments can replace the
    model of the request, and a request takes the provider's model when
    they do not name one. *)
Theorem tools_are_offered_verbatim (model : string) (default_kwargs kwargs : dict)
    (messages : list ChatMessage) (stream : bool) :
  (forall t ts,
     let request := call_kwargs model default_kwargs kwargs messages
                      (Some (t :: ts)) stream in
     lookup "tools" request = Some (PList (t :: ts))
     /\ lookup "tool_choice" request = Some (PStr "auto"))
  /\ (forall tools key,
        list_truthy tools = false ->
        key = "tools" \/ key = "tool_choice" ->
        lookup key default_kwargs = None -> lookup key kwargs = None ->
        lookup key (call_kwargs model default_kwargs kwargs messages tools stream)
        = None)
  /\ (forall tools,
        lookup "model" default_kwargs = None -> lookup "model" kwargs = None ->
        lookup "model" (call_kwargs model default_kwargs kwargs messages tools stream)
        = Some (PStr model)).
Proof.
  split; [|split].
  - intros t ts. cbn zeta. unfold call_kwargs. cbn [list_truthy].
    rewrite !LoopFacts.lookup_store. split; reflexivity.
  - intros tools key Ht Hkey Hd Hk. unfold call_kwargs. rewrite Ht.
    apply lookup_merge_none; [|now apply lookup_merge_none].
    destruct Hkey as [-> | ->]; destruct stream; reflexivity.
  - intros tools Hd Hk.
    assert (Hr : lookup "model"
                   (merge ([("model", PStr model); ("messages", api_messages messages)]
                           ++ (if stream then [("stream", PBool true)] else []))%list
                      (merge default_kwargs kwargs))
                 = Some (PStr model)).
    { rewrite lookup_merge_left; [reflexivity|]. now apply lookup_merge_none. }
    unfold call_kwargs. destruct (list_truthy tools); [|exact Hr].
    destruct tools as [ts|]; [|exact Hr].
    rewrite !LoopFacts.lookup_store. exact Hr.
Qed.

(** ** The theorems at concrete inputs *)

Lemma provider_calls_are_readable_witness :
  exists r,
    read_response one_call_response = Returned r
    /\ Forall (fun tc => ~ malformed_call tc) (calls_of r)
    /\ has_tool_calls r = true.
Proof.
  eexists. split; [reflexivity|].
  destruct (@provider_calls_are_readable one_call_response _ eq_refl)
    as (choice & rest & Hc & _ & _ & Hw & Hh).
  split; [exact Hw|]. apply Hh. injection Hc as <- _. eexists _, _. reflexivity.
Defined.

Lemma reported_usage_is_counted_witness :
  token_usage
    (update_usage
       [("prompt_tokens", 120%Z); ("completion_tokens", 30%Z); ("total_tokens", 150%Z)]
       (AgentState_init "run-1"))
  = [("prompt_tokens", 120%Z); ("completion_tokens", 30%Z); ("total_tokens", 150%Z)].
Proof.
  exact (@reported_usage_is_counted
           {| api_choices :=
                [{| api_message := {| api_content := Some "Done.";
                                      api_tool_calls := None |};
                    api_finish_reason := "stop" |}];
              api_usage := Some {| api_prompt_tokens := 120;
                                   api_completion_tokens := 30;
                                   api_total_tokens := 150 |} |}
           _ (AgentState_init "run-1") 0 0 0 eq_refl eq_refl).
Defined.

End CompletionFacts.

(* ===================================================================== *)
(** * Properties of the todo tool                                         *)
(* ===================================================================== *)

Module TodoFacts.
Import Py Tools Todo.

Lemma lookup_In {A : Type} (k : string) (v : A) (d : list (string * A)) :
  lookup k d = Some v -> In (k, v) d.
Proof.
  induction d as [|[j x] d IH]; cbn; [discriminate|].
  destruct (String.eqb k j) eqn:Ej.
  - apply String.eqb_eq in Ej. subst j. intros H. injection H as ->. now left.
  - intros H. right. now apply IH.
Qed.

Lemma lookup_none_keys {A : Type} (k : string) (d : list (string * A)) :
  lookup k d = None -> ~ In k (keys d).
Proof.
  unfold keys. induction d as [|[j x] d IH]; cbn; [tauto|].
  destruct (String.eqb k j) eqn:Ej; [discriminate|].
  apply String.eqb_neq in Ej. intros H [Hj|Hin]; [congruence|]. now apply IH.
Qed.

Lemma keys_store_absent {A : Type} (k : string) (v : A) (d : list (string * A)) :
  lookup k d = None -> keys (store k v d) = (keys d ++ [k])%list.
Proof.
  unfold keys. induction d as [|[j x] d IH]; cbn; [reflexivity|].
  destruct (String.eqb k j) eqn:Ej; [discriminate|].
  intros H. cbn. now rewrite IH.
Qed.

Lemma keys_store_NoDup {A : Type} (k : string) (v : A) (d : list (string * A)) :
  NoDup (keys d) -> NoDup (keys (store k v d)).
Proof.
  intros H. destruct (lookup k d) as [old|] eqn:Hk.
  - now rewrite (LoopFacts.keys_store_present k v d Hk).
  - rewrite (keys_store_absent k v d Hk).
    apply NoDup_app; [exact H | repeat constructor; intros [] | ].
    intros x Hx [<-|[]]. now apply (lookup_none_keys k d).
Qed.

Lemma Forall_store {A : Type} (P : string * A -> Prop) (k : string) (v : A)
    (d : list (string * A)) :
  Forall P d -> P (k, v) -> Forall P (store k v d).
Proof.
  intros H Hv. induction H as [|[j x] d Hx H IH]; cbn; [now repeat constructor|].
  destruct (String.eqb k j); constructor; auto.
Qed.

Lemma length_store_present {A : Type} (k : string) (v old : A) (d : list (string * A)) :
  lookup k d = Some old -> List.length (store k v d) = List.length d.
Proof.
  intros H. rewrite <- (length_map fst (store k v d)), <- (length_map fst d).
  change (List.length (keys (store k v d)) = List.length (keys d)).
  now rewrite (LoopFacts.keys_store_present k v d H).
Qed.

Section WithRepr.

Variable repr : value -> string.

(** What [not_found] and [item_of] give together. *)
Lemma found_item (item_id : value) (items : Items) :
  not_found item_id items = Returned false ->
  exists k i, item_id = PStr k /\ k <> "" /\ lookup k items = Some i
              /\ item_of repr item_id items = Returned (k, i).
Proof.
  unfold not_found, not_in, item_of.
  destruct item_id as [|b|z|k|l|d]; cbn.
  - discriminate.
  - destruct b; discriminate.
  - destruct (Z.eqb z 0); discriminate.
  - destruct (String.eqb k "") eqn:Ek; cbn; [discriminate|].
    apply String.eqb_neq in Ek.
    destruct (lookup k items) as [i|] eqn:Hl; [|discriminate].
    intros _. now exists k, i.
  - destruct l; discriminate.
  - destruct d; discriminate.
Qed.

Lemma not_found_raises (item_id : value) (items : Items) (e : exn) :
  not_found item_id items = Raised e ->
  exn_class_of e = TypeError /\ exn_str e <> "".
Proof.
  unfold not_found, not_in.
  destruct item_id as [|b|z|k|l|d]; cbn.
  - discriminate.
  - destruct b; discriminate.
  - destruct (Z.eqb z 0); discriminate.
  - destruct (String.eqb k ""); cbn; discriminate.
  - destruct l; [discriminate|]. intros H. injection H as <-. now split.
  - destruct d; [discriminate|]. intros H. injection H as <-. now split.
Qed.

Lemma body_outcome (items : Items) (new_id now : string) (a : Bound) :
  outcome items new_id now a (body repr items new_id now a).
Proof.
  unfold body.
  destruct (eq_str (action a) "add") eqn:Eadd.
  { destruct (truthy (title a)) eqn:Et; cbn [negb].
    - now apply added.
    - now apply refused. }
  destruct (eq_str (action a) "complete") eqn:Ecomplete.
  { destruct (not_found (item_id a) items) as [[|]|e] eqn:Hnf.
    - now apply refused.
    - destruct (found_item _ _ Hnf) as (k & i & Hid & Hk & Hl & ->).
      now apply completed.
    - destruct (not_found_raises _ _ Hnf). now apply unhashable. }
  destruct (eq_str (action a) "update") eqn:Eupdate.
  { destruct (not_found (item_id a) items) as [[|]|e] eqn:Hnf.
    - now apply refused.
    - destruct (found_item _ _ Hnf) as (k & i & Hid & Hk & Hl & ->).
      now apply changed.
    - destruct (not_found_raises _ _ Hnf). now apply unhashable. }
  destruct (eq_str (action a) "list") eqn:Elist; [now apply listed|].
  destruct (eq_str (action a) "clear") eqn:Eclear; [now apply cleared|].
  now apply refused.
Qed.

Lemma execute_returns (items : Items) (new_id now : string) (a : Bound) :
  exists r items', execute repr items new_id now a = (Returned r, items').
Proof.
  unfold execute.
  destruct (body_outcome items new_id now a) as
    [msg Hmsg | e He Hs | | k i | k i | | ]; try (eexists _, _; reflexivity).
  unfold is_Exception. rewrite He. eexists _, _; reflexivity.
Qed.

(** X20. Once its parameters are bound, [TodoTool.execute] raises
    nothing and its result is of one of two kinds: a success, whose
    output is a value that counts as true and which carries no error;
    or a failure, whose output is [None], whose error is a text that is
    not empty, and which leaves the items as they were. So the content
    of the tool message that the loop builds from the result is the
    output as JSON exactly when the call succeeded, and the error
    otherwise. *)
Theorem todo_result_is_consistent (items : Items) (new_id now : string) (a : Bound) :
  exists r items',
    execute repr items new_id now a = (Returned r, items')
    /\ (success r = true /\ truthy (output r) = true /\ Tools.error r = None
        /\ Agent.tool_message_content r = Some (json_dumps (output r))
        \/ success r = false /\ output r = PNone /\ items' = items
           /\ exists msg, Tools.error r = Some msg /\ msg <> ""
                          /\ Agent.tool_message_content r = Some msg).
Proof.
  unfold execute.
  destruct (body_outcome items new_id now a) as
    [msg Hmsg | e He Hs | | k i | k i | | ].
  - eexists _, _. split; [reflexivity|]. right. repeat split. now exists msg.
  - unfold is_Exception. rewrite He.
    eexists _, _. split; [reflexivity|]. right. repeat split. now exists (exn_str e).
  - eexists _, _. split; [reflexivity|]. left. now repeat split.
  - eexists _, _. split; [reflexivity|]. left. now repeat split.
  - eexists _, _. split; [reflexivity|]. left. now repeat split.
  - eexists _, _. split; [reflexivity|]. left. now repeat split.
  - eexists _, _. split; [reflexivity|]. left. now repeat split.
Qed.

(** X21. A call of the todo tool raises exactly when its keyword
    arguments cannot be bound - they name [self], or they have no
    [action] - and what it raises then is a [TypeError] that leaves the
    items as they were; it is raised outside the [try] of [execute]. *)
Theorem todo_raises_only_at_binding (items : Items) (new_id now : string)
    (kwargs : dict) :
  (exists e, call repr items new_id now kwargs = (Raised e, items)
             /\ exn_class_of e = TypeError)
  <-> (lookup "self" kwargs <> None \/ lookup "action" kwargs = None).
Proof.
  unfold call, bind_arguments.
  destruct (lookup "self" kwargs) as [v|] eqn:Hself.
  - split; [intros _; left; discriminate|]. intros _. eexists. now split.
  - destruct (lookup "action" kwargs) as [act|] eqn:Hact.
    + split.
      * intros (e & He & _).
        match type of He with execute _ _ _ _ ?a = _ =>
          destruct (execute_returns items new_id now a) as (r & items' & Hr) end.
        congruence.
      * intros [H|H]; [now elim H | discriminate].
    + split; [intros _; now right|]. intros _. eexists. now split.
Qed.

(** ** The items stay in order *)

Lemma updated_keeps (a : Bound) (i : TodoItem) :
  todo_id (updated a i) = todo_id i
  /\ todo_status (updated a i) = todo_status i
  /\ todo_completed_at (updated a i) = todo_completed_at i
  /\ todo_created_at (updated a i) = todo_created_at i
  /\ todo_parent_id (updated a i) = todo_parent_id i.
Proof.
  unfold updated. destruct (truthy (title a)), (truthy (description a));
    repeat split.
Qed.

Lemma in_order_at (k : string) (i : TodoItem) (items : Items) :
  in_order items -> lookup k items = Some i ->
  todo_id i = k
  /\ (todo_status i = "pending" /\ todo_completed_at i = None
      \/ todo_status i = "completed" /\ exists t, todo_completed_at i = Some t).
Proof.
  intros H Hl. apply lookup_In in Hl.
  unfold in_order in H. rewrite Forall_forall in H. exact (H _ Hl).
Qed.

Lemma body_kept (items items' : Items) (new_id now : string) (a : Bound)
    (r : ToolResult) :
  body repr items new_id now a = Returned (r, items') ->
  kept items -> kept items'.
Proof.
  intros Hb [Ho Hn].
  destruct (body_outcome items new_id now a) as
    [msg Hmsg | e He Hs | | k i Ha Hid Hk Hl | k i Ha Hid Hk Hl | | ];
    try discriminate; injection Hb as <- <-; try (now split).
  - split; [|now apply keys_store_NoDup].
    apply Forall_store; [exact Ho|]. cbn. split; [reflexivity|]. now left.
  - split; [|now apply keys_store_NoDup].
    destruct (in_order_at k Ho Hl) as [Hi _].
    apply Forall_store; [exact Ho|]. cbn. split; [exact Hi|]. right.
    split; [reflexivity|]. now exists now.
  - split; [|now apply keys_store_NoDup].
    destruct (in_order_at k Ho Hl) as [Hi Hst].
    destruct (updated_keeps a i) as (E1 & E2 & E3 & _).
    apply Forall_store; [exact Ho|]. cbn. rewrite E1, E2, E3. now split.
  - split; [constructor | constructor].
Qed.

Lemma call_kept (items : Items) (new_id now : string) (kwargs : dict) :
  kept items -> kept (snd (call repr items new_id now kwargs)).
Proof.
  intros H. unfold call. destruct (bind_arguments kwargs) as [a|e]; [|exact H].
  unfold execute. destruct (body repr items new_id now a) as [[r items']|e] eqn:Hb.
  - exact (body_kept _ _ _ Hb H).
  - destruct (is_Exception e); exact H.
Qed.

Lemma session_kept (session : list Call) (items : Items) :
  kept items ->
  kept (fold_left (fun items c =>
                     snd (call repr items (call_new_id c) (call_now c)
                            (call_arguments c)))
                  session items).
Proof.
  revert items. induction session as [|c session IH]; intros items H; [exact H|].
  cbn [fold_left]. apply IH. now apply call_kept.
Qed.

Lemma counts_of_in_order (items : Items) :
  in_order items ->
  (pending_count items + completed_count items)%nat = List.length items.
Proof.
  unfold in_order, pending_count, completed_count, with_status, values.
  induction 1 as [|[k i] items [_ Hi] H IH]; [reflexivity|].
  cbn [map snd filter List.length] in *.
  destruct Hi as [[-> _] | [-> _]]; cbn [String.eqb Ascii.eqb Bool.eqb];
    cbn [List.length]; lia.
Qed.

(** X22. Whatever calls have been made on a todo tool since it was
    created, its items are in order - each is filed under its own id,
    is pending or completed, and has a completion time exactly when it
    is completed - the ids are distinct, and the pending and completed
    counts of [get_state] add up to the number of items. *)
Theorem todo_counts_add_up (session : list Call) :
  let items := after repr session in
  in_order items
  /\ NoDup (keys items)
  /\ lookup "pending_count" (get_state items)
     = Some (PInt (Z.of_nat (pending_count items)))
  /\ lookup "completed_count" (get_state items)
     = Some (PInt (Z.of_nat (completed_count items)))
  /\ (pending_count items + completed_count items)%nat = List.length items.
Proof.
  cbn zeta. unfold after.
  destruct (@session_kept session []) as [Ho Hn]; [split; constructor|].
  repeat split; try assumption. now apply counts_of_in_order.
Qed.

(** ** Single actions *)

(** X23. Completing an item that is there, under an id that is not the
    empty string, succeeds whether or not the item was completed
    before: the item is marked completed with the time of the call,
    keeps its place and its other fields, and every other item is as
    before. *)
Theorem complete_marks_the_item (items : Items) (new_id now : string) (a : Bound)
    (k : string) (i : TodoItem) :
  action a = PStr "complete" -> item_id a = PStr k -> k <> "" ->
  lookup k items = Some i ->
  exists r items',
    execute repr items new_id now a = (Returned r, items')
    /\ success r = true
    /\ output r = PDict [("completed", item_value (set_completed now i))]
    /\ lookup k items' = Some (set_completed now i)
    /\ keys items' = keys items
    /\ (forall k', k' <> k -> lookup k' items' = lookup k' items).
Proof.
  intros Ha Hid Hk Hl.
  assert (He : execute repr items new_id now a
               = (Returned (succeeded (PDict [("completed",
                              item_value (set_completed now i))]) []),
                  store k (set_completed now i) items)).
  { unfold execute, body, not_found, not_in, item_of.
    rewrite Ha, Hid. cbn [eq_str String.eqb Ascii.eqb Bool.eqb truthy negb].
    apply String.eqb_neq in Hk. rewrite Hk. cbn [negb]. now rewrite Hl. }
  eexists _, _. split; [exact He|].
  repeat split.
  - rewrite LoopFacts.lookup_store. now rewrite String.eqb_refl.
  - exact (LoopFacts.keys_store_present k _ items Hl).
  - intros k' Hk'. rewrite LoopFacts.lookup_store.
    apply String.eqb_neq in Hk'. now rewrite Hk'.
Qed.

(** X24. Adding with a title that counts as true succeeds and files a
    pending item under the new id, with the title, description and
    parent of the call; every other id keeps its item. A new id that is
    not in use goes last; one that is in use keeps its place, and the
    item that was there is gone. *)
Theorem add_files_a_pending_item (items : Items) (new_id now : string) (a : Bound) :
  action a = PStr "add" -> truthy (title a) = true ->
  exists r items',
    execute repr items new_id now a = (Returned r, items')
    /\ success r = true
    /\ output r = PDict [("added", item_value (new_item new_id now a))]
    /\ metadata r = [("item_id", PStr new_id)]
    /\ lookup new_id items' = Some (new_item new_id now a)
    /\ todo_status (new_item new_id now a) = "pending"
    /\ (forall k', k' <> new_id -> lookup k' items' = lookup k' items)
    /\ keys items'
       = match lookup new_id items with
         | Some _ => keys items
         | None => (keys items ++ [new_id])%list
         end.
Proof.
  intros Ha Ht.
  assert (He : execute repr items new_id now a
               = (Returned (succeeded (PDict [("added",
                              item_value (new_item new_id now a))])
                            [("item_id", PStr new_id)]),
                  store new_id (new_item new_id now a) items)).
  { unfold execute, body. rewrite Ha, Ht. reflexivity. }
  eexists _, _. split; [exact He|].
  repeat split.
  - rewrite LoopFacts.lookup_store. now rewrite String.eqb_refl.
  - intros k' Hk'. rewrite LoopFacts.lookup_store.
    apply String.eqb_neq in Hk'. now rewrite Hk'.
  - destruct (lookup new_id items) as [old|] eqn:Hl.
    + exact (LoopFacts.keys_store_present new_id _ items Hl).
    + exact (keys_store_absent new_id _ items Hl).
Qed.

(** X25. A completed item stays completed: after any call whose new id
    is not the item's, the item is still filed under its id and still
    completed, with the id, creation time and parent it had, unless the
    action was [clear], which leaves no item at all. *)
Theorem completed_stays_completed (items : Items) (new_id now : string) (a : Bound)
    (k : string) (i : TodoItem) :
  lookup k items = Some i -> todo_status i = "completed" -> new_id <> k ->
  let items' := snd (execute repr items new_id now a) in
  (eq_str (action a) "clear" = true /\ items' = [])
  \/ exists i', lookup k items' = Some i'
                /\ todo_status i' = "completed"
                /\ todo_id i' = todo_id i
                /\ todo_created_at i' = todo_created_at i
                /\ todo_parent_id i' = todo_parent_id i.
Proof.
  intros Hl Hst Hnew. cbn zeta. unfold execute.
  assert (Hsame : exists i', lookup k items = Some i'
                /\ todo_status i' = "completed"
                /\ todo_id i' = todo_id i
                /\ todo_created_at i' = todo_created_at i
                /\ todo_parent_id i' = todo_parent_id i)
    by (exists i; now repeat split).
  destruct (body_outcome items new_id now a) as
    [msg Hmsg | e He Hs | Ha Ht | j ij Ha Hid Hj Hlj | j ij Ha Hid Hj Hlj | | Ha ];
    cbn [snd]; try (right; exact Hsame).
  - destruct (is_Exception e); right; exact Hsame.
  - right. rewrite LoopFacts.lookup_store.
    assert (E : String.eqb k new_id = false)
      by (apply String.eqb_neq; congruence).
    rewrite E. exact Hsame.
  - right. rewrite LoopFacts.lookup_store.
    destruct (String.eqb k j) eqn:E; [|exact Hsame].
    apply String.eqb_eq in E. subst j.
    assert (ij = i) by congruence. subst ij.
    eexists. split; [reflexivity|]. now repeat split.
  - right. rewrite LoopFacts.lookup_store.
    destruct (String.eqb k j) eqn:E; [|exact Hsame].
    apply String.eqb_eq in E. subst j.
    assert (ij = i) by congruence. subst ij.
    destruct (updated_keeps a i) as (E1 & E2 & E3 & E4 & E5).
    eexists. split; [reflexivity|]. rewrite E1, E2, E4, E5. now repeat split.
  - left. now split.
Qed.

End WithRepr.

(** X26. [ToolSet.get_todo_state] gives the state of the todo tool
    when the configuration has [enable_todo_state] absent or true, and
    [None] otherwise; none of the later registrations takes the place
    of the todo tool. *)
Theorem todo_state_follows_registration (context_id workdir : string)
    (ablations : option dict) (items : Items) :
  (absent_or_true ablations "enable_todo_state"
   /\ get_todo_state (ToolSet_init context_id workdir ablations) items
      = Some (get_state items))
  \/ (~ absent_or_true ablations "enable_todo_state"
      /\ get_todo_state (ToolSet_init context_id workdir ablations) items = None).
Proof.
  pose proof (ToolsFacts.flag_enabled_iff ablations "enable_todo_state") as Hf.
  unfold get_todo_state, ToolSet_init. cbn [tools].
  destruct (flag_enabled _ "enable_todo_state");
    [left; split; [now apply Hf|] | right; split; [intros H; apply Hf in H; discriminate|]];
    destruct (flag_enabled _ "enable_patch_editing"),
             (flag_enabled _ "enable_reflection"); reflexivity.
Qed.

(** ** The theorems at concrete inputs *)

Lemma complete_marks_the_item_witness :
  lookup "1f0e9a77" sample_items = Some sample_item
  /\ exists r items',
       execute py_repr sample_items "c0ffee00" "2024-05-01T10:05:00"
         (complete_request "1f0e9a77")
       = (Returned r, items')
       /\ success r = true
       /\ lookup "1f0e9a77" items'
          = Some (set_completed "2024-05-01T10:05:00" sample_item).
Proof.
  split; [reflexivity|].
  destruct (@complete_marks_the_item py_repr sample_items "c0ffee00"
              "2024-05-01T10:05:00" (complete_request "1f0e9a77") "1f0e9a77"
              sample_item eq_refl eq_refl)
    as (r & items' & He & Hs & _ & Hl & _); [discriminate | reflexivity |].
  exists r, items'. split; [exact He|]. split; [exact Hs | exact Hl].
Defined.

Lemma add_files_a_pending_item_witness :
  truthy (title add_request) = true
  /\ exists r items',
       execute py_repr [] "1f0e9a77" "2024-05-01T10:00:00" add_request
       = (Returned r, items')
       /\ success r = true
       /\ keys items' = ["1f0e9a77"].
Proof.
  split; [reflexivity|].
  destruct (@add_files_a_pending_item py_repr [] "1f0e9a77"
              "2024-05-01T10:00:00" add_request eq_refl eq_refl)
    as (r & items' & He & Hs & _ & _ & _ & _ & _ & Hk).
  exists r, items'. split; [exact He|]. split; [exact Hs | exact Hk].
Defined.

Lemma completed_stays_completed_witness :
  todo_status (set_completed "2024-05-01T10:05:00" sample_item) = "completed"
  /\ exists i',
       lookup "1f0e9a77"
         (snd (execute py_repr
                 [("1f0e9a77", set_completed "2024-05-01T10:05:00" sample_item)]
                 "c0ffee00" "2024-05-01T10:06:00" add_request))
       = Some i'
       /\ todo_status i' = "completed".
Proof.
  split; [reflexivity|].
  destruct (@completed_stays_completed py_repr
              [("1f0e9a77", set_completed "2024-05-01T10:05:00" sample_item)]
              "c0ffee00" "2024-05-01T10:06:00" add_request "1f0e9a77"
              (set_completed "2024-05-01T10:05:00" sample_item) eq_refl eq_refl)
    as [[Hc _] | (i' & Hl & Hs & _)]; [discriminate | discriminate |].
  exists i'. split; [exact Hl | exact Hs].
Defined.

End TodoFacts.

(* ===================================================================== *)
(** * Properties of the sections of a report                              *)
(* ===================================================================== *)

Module RunnerFacts.
Import Py Provider Runner.

Section WithIds.

Variable uuid8 : nat -> string.

Lemma on_line_header (st : Parse) (line : string) :
  is_header line = true ->
  on_line uuid8 st line
  = {| sections := close_section uuid8 st;
       current_section := Some (header_title line);
       current_content := [] |}.
Proof.
  unfold is_header, on_line, header_title.
  destruct (startswith "# " line); [reflexivity|].
  destruct (startswith "## " line); [reflexivity|discriminate].
Qed.

Lemma on_line_text (st : Parse) (line : string) :
  is_header line = false ->
  sections (on_line uuid8 st line) = sections st
  /\ current_section (on_line uuid8 st line) = current_section st.
Proof.
  unfold is_header, on_line.
  destruct (startswith "# " line); [discriminate|].
  destruct (startswith "## " line); [discriminate|].
  destruct (str_truthy (current_section st)); split; reflexivity.
Qed.

Lemma titles_close_section (st : Parse) :
  map section_title (close_section uuid8 st)
  = (map section_title (sections st) ++ titles_from (current_section st) [])%list.
Proof.
  unfold close_section, str_truthy. cbn [titles_from].
  destruct (current_section st) as [t|]; [|now rewrite app_nil_r].
  destruct (String.eqb t ""); cbn [negb]; [now rewrite app_nil_r|].
  now rewrite map_app.
Qed.

Lemma titles_of_loop (lines : list string) (st : Parse) :
  map section_title (close_section uuid8 (fold_left (on_line uuid8) lines st))
  = (map section_title (sections st) ++ titles_from (current_section st) lines)%list.
Proof.
  revert st. induction lines as [|line rest IH]; intros st.
  - apply titles_close_section.
  - cbn [fold_left titles_from]. rewrite IH.
    destruct (is_header line) eqn:Hh.
    + rewrite (on_line_header st line Hh). cbn [sections current_section].
      rewrite titles_close_section. cbn [titles_from]. now rewrite <- app_assoc.
    + destruct (on_line_text st line Hh) as [-> ->]. reflexivity.
Qed.

Lemma titles_from_headers (lines : list string) (open : option string) :
  titles_from open lines
  = (titles_from open [] ++ header_titles lines)%list.
Proof.
  revert open. induction lines as [|line rest IH]; intros open.
  - cbn. now rewrite app_nil_r.
  - cbn [titles_from]. unfold header_titles. cbn [filter].
    destruct (is_header line) eqn:Hh.
    + rewrite IH. cbn [map filter titles_from].
      destruct (String.eqb (header_title line) ""); cbn [negb]; reflexivity.
    + rewrite IH. reflexivity.
Qed.

Lemma ids_close_section (st : Parse) :
  map section_id (sections st) = map uuid8 (seq 0 (List.length (sections st))) ->
  map section_id (close_section uuid8 st)
  = map uuid8 (seq 0 (List.length (close_section uuid8 st))).
Proof.
  intros H. unfold close_section.
  destruct (str_truthy (current_section st)); [|exact H].
  rewrite length_app, Nat.add_comm. cbn [List.length Nat.add].
  rewrite seq_S, !map_app, H. reflexivity.
Qed.

Lemma ids_of_loop (lines : list string) (st : Parse) :
  map section_id (sections st) = map uuid8 (seq 0 (List.length (sections st))) ->
  let found := close_section uuid8 (fold_left (on_line uuid8) lines st) in
  map section_id found = map uuid8 (seq 0 (List.length found)).
Proof.
  cbn zeta. revert st. induction lines as [|line rest IH]; intros st H.
  - now apply ids_close_section.
  - cbn [fold_left]. apply IH.
    destruct (is_header line) eqn:Hh.
    + rewrite (on_line_header st line Hh). cbn [sections].
      now apply ids_close_section.
    + destruct (on_line_text st line Hh) as [-> _]. exact H.
Qed.

Lemma header_titles_not_empty (lines : list string) :
  Forall (fun t => t <> "") (header_titles lines).
Proof.
  unfold header_titles. apply Forall_forall. intros t Ht.
  apply filter_In in Ht. destruct Ht as [_ Ht].
  intros ->. discriminate.
Qed.

(** X27. The sections of a report are never none. Their titles are the
    titles of the header lines of the first and second level that have
    a title, in the order of the lines, or the one title [Research
    Findings] when there is no such line; no title is empty, and the
    section at place [n] has the [n]-th id that was drawn. *)
Theorem sections_are_the_titled_headers (markdown : string) :
  let found := _parse_report_sections uuid8 markdown in
  found <> []
  /\ map section_title found
     = match header_titles (split_lines markdown) with
       | [] => ["Research Findings"]
       | titles => titles
       end
  /\ Forall (fun s => section_title s <> "") found
  /\ map section_id found = map uuid8 (seq 0 (List.length found)).
Proof.
  cbn zeta. unfold _parse_report_sections.
  pose proof (titles_of_loop (split_lines markdown) parse_start) as Ht.
  pose proof (@ids_of_loop (split_lines markdown) parse_start eq_refl) as Hi.
  cbn zeta in Hi. cbn [parse_start sections current_section map app] in Ht.
  rewrite titles_from_headers in Ht. cbn [titles_from app] in Ht.
  destruct (close_section uuid8 (fold_left (on_line uuid8) (split_lines markdown)
                                   parse_start)) as [|s found] eqn:Hc.
  - cbn [map] in Ht. rewrite <- Ht.
    split; [discriminate|]. split; [reflexivity|].
    split; [repeat constructor; discriminate | reflexivity].
  - split; [discriminate|]. rewrite <- Ht. cbn [map].
    split; [reflexivity|]. split; [|exact Hi].
    pose proof (header_titles_not_empty (split_lines markdown)) as Hne.
    rewrite <- Ht in Hne. rewrite Forall_forall in Hne.
    apply Forall_forall. intros x Hx. apply Hne.
    change (In (section_title x) (map section_title (s :: found))).
    now apply in_map.
Qed.

Lemma loop_without_headers (lines : list string) :
  Forall (fun line => is_header line = false) lines ->
  fold_left (on_line uuid8) lines parse_start = parse_start.
Proof.
  induction 1 as [|line rest Hl H IH]; [reflexivity|].
  cbn [fold_left]. unfold on_line at 2. unfold is_header in Hl.
  apply orb_false_iff in Hl. destruct Hl as [-> ->]. exact IH.
Qed.

(** X28. A report in which no line is a header of the first or second
    level is one section, titled [Research Findings], whose content is
    the whole text as it is, without the stripping that the content of
    a section under a header gets. *)
Theorem text_without_headers_is_one_section (markdown : string) :
  Forall (fun line => is_header line = false) (split_lines markdown) ->
  _parse_report_sections uuid8 markdown
  = [{| section_id := uuid8 0;
        section_title := "Research Findings";
        section_content := markdown |}].
Proof.
  intros H. unfold _parse_report_sections.
  now rewrite (loop_without_headers H).
Qed.

Lemma split_lines_not_empty (s : string) : split_lines s <> [].
Proof.
  destruct s as [|c s]; cbn [split_lines]; [discriminate|].
  destruct (Ascii.eqb c line_feed); [discriminate|].
  destruct (split_lines s); discriminate.
Qed.

Lemma split_lines_app (a b : string) :
  split_lines (a ++ LF ++ b) = (split_lines a ++ split_lines b)%list.
Proof.
  induction a as [|c a IH]; [reflexivity|].
  cbn [append split_lines]. rewrite IH.
  destruct (Ascii.eqb c line_feed); [reflexivity|].
  pose proof (split_lines_not_empty a) as Hne.
  destruct (split_lines a) as [|line rest]; [now elim Hne|reflexivity].
Qed.

(** X29. What a report says before its first header is in no section:
    when the text after a line feed has a header with a title, the
    lines before that line feed, none of them a header, make no
    difference to the sections. *)
Theorem text_before_the_first_header_is_dropped (preamble rest : string) :
  Forall (fun line => is_header line = false) (split_lines preamble) ->
  header_titles (split_lines rest) <> [] ->
  _parse_report_sections uuid8 (preamble ++ LF ++ rest)
  = _parse_report_sections uuid8 rest.
Proof.
  intros Hp Hr. unfold _parse_report_sections.
  rewrite split_lines_app, fold_left_app, (loop_without_headers Hp).
  pose proof (titles_of_loop (split_lines rest) parse_start) as Ht.
  cbn [parse_start sections current_section map app] in Ht.
  rewrite titles_from_headers in Ht. cbn [titles_from app] in Ht.
  destruct (close_section uuid8 (fold_left (on_line uuid8) (split_lines rest)
                                   parse_start)) as [|s found]; [|reflexivity].
  cbn [map] in Ht. now elim Hr.
Qed.

End WithIds.

(** ** The theorems at concrete inputs *)

Lemma text_without_headers_is_one_section_witness :
  Forall (fun line => is_header line = false) (split_lines "Nothing was found.")
  /\ _parse_report_sections counted_ids "Nothing was found."
     = [{| section_id := "id-0";
           section_title := "Research Findings";
           section_content := "Nothing was found." |}].
Proof.
  assert (H : Forall (fun line => is_header line = false)
                (split_lines "Nothing was found."))
    by (repeat constructor).
  split; [exact H|].
  exact (@text_without_headers_is_one_section counted_ids "Nothing was found." H).
Defined.

Lemma text_before_the_first_header_is_dropped_witness :
  Forall (fun line => is_header line = false) (split_lines "Here is the report.")
  /\ header_titles (split_lines "# Summary") = ["Summary"]
  /\ _parse_report_sections counted_ids ("Here is the report." ++ LF ++ "# Summary")
     = _parse_report_sections counted_ids "# Summary".
Proof.
  assert (H : Forall (fun line => is_header line = false)
                (split_lines "Here is the report."))
    by (repeat constructor).
  split; [exact H|]. split; [reflexivity|].
  apply (@text_before_the_first_header_is_dropped counted_ids
           "Here is the report." "# Summary" H).
  discriminate.
Defined.

End RunnerFacts.

(* ===================================================================== *)
(** * Properties of the step callback                                     *)
(* ===================================================================== *)

Module RunnerStepFacts.
Import Py Provider Tools Agent RunnerStep.

Section WithRunner.

Context {E : Externals}.

Variable tool_event_count : World -> nat.
Variable phase_changed : AgentState -> World -> completion unit * World.
Variable create_tool_event :
  ToolCallRecord -> string -> value -> World -> completion unit * World.
Variable progress_updated : AgentState -> World -> completion unit * World.

Lemma skipn_all_but_last {A : Type} (l : list A) (x : A) :
  skipn (List.length l) (l ++ [x]) = [x].
Proof. induction l as [|y l IH]; [reflexivity | exact IH]. Qed.

Lemma on_step_decodes_again (state : AgentState) (w w1 : World)
    (tool_call : ToolCallRecord) (rest : list ToolCallRecord) (n a : string)
    (e : exn) :
  phase_changed state w = (Returned tt, w1) ->
  skipn (tool_event_count w1) (tool_call_log state) = tool_call :: rest ->
  tcr_tool tool_call = PStr n ->
  tcr_args tool_call = PStr a ->
  json_loads a = Raised e ->
  _on_step tool_event_count phase_changed create_tool_event progress_updated
    state w
  = (Raised e, w1).
Proof.
  intros Hp Hs Hn Ha Hj. unfold _on_step. rewrite Hp, Hs.
  cbn [record_events]. unfold _record_tool_event, tool_type, event_args.
  rewrite Hn, Ha, Hj. reflexivity.
Qed.

(** X30. With the callback of [AgentRunner], an argument text that the
    decoder refuses with a [JSONDecodeError] ends the run although the
    loop has answered the call: when the phase update returns and the
    runner has recorded the tool calls of the steps before,
    [_record_tool_event] decodes the logged arguments again, under no
    [try], so the callback raises the decoder's exception inside the
    [try] of the loop, and the loop stops with that exception's text as
    the run's error, after the tool message and the log record were
    appended. *)
Theorem runner_callback_ends_run_on_invalid_json (agent : ReActAgent)
    (fuel : nat) (s : AgentState) (w w1 w3 : World) (response : ModelResponse)
    (tc func id : value) (n a : string) (e : exn) :
  let s1 := record_call id (PStr n) (PStr a) (invalid_json_result a)
              (fst (utcnow_isoformat w1))
              (take_response response (begin_step agent s)) in
  (step_count s < max_steps agent)%Z ->
  is_complete s = false ->
  chat_completion (messages s) (get_all_schemas (toolset agent)) w
    = (Returned response, w1) ->
  tool_calls (message response) = Some [tc] ->
  getitem tc "function" = Returned func ->
  getitem func "name" = Returned (PStr n) ->
  getitem func "arguments" = Returned (PStr a) ->
  getitem tc "id" = Returned id ->
  json_loads a = Raised e ->
  is_JSONDecodeError e = true ->
  phase_changed s1 (snd (utcnow_isoformat w1)) = (Returned tt, w3) ->
  tool_event_count w3 = List.length (tool_call_log s) ->
  _on_step tool_event_count phase_changed create_tool_event progress_updated
    s1 (snd (utcnow_isoformat w1))
  = (Raised e, w3)
  /\ loop agent
       (Some (_on_step tool_event_count phase_changed create_tool_event
                progress_updated))
       (S fuel) s w
     = Some (Returned tt, set_error (Some (exn_str e)) s1, w3)
  /\ messages s1
     = (messages s ++ [message response;
                       tool_message id (invalid_json_result a)])%list.
Proof.
  cbn zeta. intros Hlt Hc Hchat Htc Hf Hn Ha Hid Hj He Hp Hcount.
  set (s1 := record_call id (PStr n) (PStr a) (invalid_json_result a)
               (fst (utcnow_isoformat w1))
               (take_response response (begin_step agent s))).
  assert (Hcb : _on_step tool_event_count phase_changed create_tool_event
                  progress_updated s1 (snd (utcnow_isoformat w1))
                = (Raised e, w3)).
  { apply on_step_decodes_again
      with (tool_call := {| tcr_tool := PStr n; tcr_args := PStr a;
                            tcr_success := success (invalid_json_result a);
                            tcr_timestamp := fst (utcnow_isoformat w1) |})
           (rest := []) (n := n) (a := a);
      [exact Hp | | reflexivity | reflexivity | exact Hj].
    rewrite Hcount. subst s1. cbn [record_call tool_call_log set_tool_call_log].
    change (tool_call_log (add_message (tool_message id (invalid_json_result a))
                             (take_response response (begin_step agent s))))
      with (tool_call_log s).
    apply skipn_all_but_last. }
  split; [exact Hcb|]. split.
  - apply AgentFacts.loop_stops_on_exception; try assumption.
    + unfold is_Exception. unfold is_JSONDecodeError in He.
      destruct (exn_class_of e); try discriminate; reflexivity.
    + rewrite AgentFacts.step_with_tool_calls
        with (response := response) (w1 := w1) (tc := tc) (tcs := []);
        try assumption.
      assert (Hx : _execute_tool_call agent tc w1
                   = (Returned (invalid_json_result a), w1)).
      { unfold _execute_tool_call, loads. rewrite Hf, Hn, Ha, Hj, He. reflexivity. }
      unfold bind at 1. cbn [for_each]. unfold bind at 1.
      rewrite AgentFacts.handle_tool_call_returned
        with (func := func) (tool_name := PStr n) (args := PStr a) (id := id)
             (r := invalid_json_result a) (w1 := w1); auto.
      cbn [success invalid_json_result]. unfold ret at 1 2.
      unfold notify, bind, get_state, call. fold s1. rewrite Hcb. reflexivity.
  - subst s1. cbn. rewrite <- app_assoc. reflexivity.
Qed.

End WithRunner.

(** ** The theorem at a concrete input *)

Import Scripted.

Lemma runner_callback_ends_run_on_invalid_json_witness :
  json_loads "not-json"
  = Raised (Exn JSONDecodeError "Expecting value: line 1 column 1 (char 0)")
  /\ exists s1,
       loop (agent 3) (Some accepting_on_step) 3
         (seed (agent 3) "What is new?" (AgentState_init "run-1"))
         (start [requests [bad_json_call]; says "<report>Done</report>"] [])
       = Some (Returned tt,
               set_error (Some "Expecting value: line 1 column 1 (char 0)") s1,
               snd (tick (start [says "<report>Done</report>"] [])))
       /\ step_count s1 = 1%Z.
Proof.
  split; [reflexivity|].
  eexists. split.
  - refine (proj1 (proj2 (@runner_callback_ends_run_on_invalid_json env
               (fun _ => 0%nat) (fun _ w => (Returned tt, w))
               (fun _ _ _ w => (Returned tt, w)) (fun _ w => (Returned tt, w))
               (agent 3) 2
               (seed (agent 3) "What is new?" (AgentState_init "run-1"))
               (start [requests [bad_json_call]; says "<report>Done</report>"] [])
               (start [says "<report>Done</report>"] [])
               (snd (tick (start [says "<report>Done</report>"] [])))
               _ bad_json_call
               (PDict [("name", PStr "web_search"); ("arguments", PStr "not-json")])
               (PStr "call_1") "web_search" "not-json"
               (Exn JSONDecodeError "Expecting value: line 1 column 1 (char 0)")
               _ eq_refl eq_refl eq_refl eq_refl eq_refl eq_refl eq_refl eq_refl
               eq_refl eq_refl eq_refl))).
    simpl. lia.
  - reflexivity.
Defined.

End RunnerStepFacts.

(* ===================================================================== *)
(** * The definitions on small inputs                                     *)
(* ===================================================================== *)

Module Examples.
Import Py Provider Tools Agent Scripted.

Example strip_trims_both_ends : strip "  a b
 " = "a b".
Proof. reflexivity. Qed.

Example find_first_occurrence :
  find "ab" "xxabab" = Some 2%nat /\ find "ab" "ba" = None
  /\ slice 2 4 "xxabab" = "ab" /\ slice 4 2 "xxabab" = "".
Proof. repeat split. Qed.

Example str_of_int_digits :
  str_of_int 1024 = "1024" /\ str_of_int (-7) = "-7" /\ str_of_int 0 = "0".
Proof. repeat split. Qed.

Example json_dumps_nested :
  json_dumps (PDict [("claim", PStr "X"); ("n", PInt 2);
                     ("l", PList [PNone; PBool true; PInt (-10)])])
  = "{" ++ quote ++ "claim" ++ quote ++ ": " ++ quote ++ "X" ++ quote
    ++ ", " ++ quote ++ "n" ++ quote ++ ": 2, "
    ++ quote ++ "l" ++ quote ++ ": [null, true, -10]}".
Proof. reflexivity. Qed.

Example json_dumps_empty :
  json_dumps (PList []) = "[]" /\ json_dumps (PDict []) = "{}"
  /\ json_dumps (PStr "") = quote ++ quote /\ json_dumps (PInt 0) = "0"
  /\ json_dumps PNone = "null".
Proof. repeat split. Qed.

Example falsy_outputs :
  map truthy [PList []; PDict []; PStr ""; PInt 0; PNone; PBool false]
  = [false; false; false; false; false; false].
Proof. reflexivity. Qed.

Example three_chunks_contents :
  map (fun r => content (message r)) (chat_completion_stream three_chunks)
  = [Some "Let me "; Some "Let me search."; Some "Let me search."].
Proof. reflexivity. Qed.

Example three_chunks_call :
  reassembled_calls three_chunks
  = [(0%Z, {| pc_id := "call_1"; pc_name := Some "web_search";
              pc_arguments := "{}" |})].
Proof. reflexivity. Qed.

Example registry_without_reflection :
  list_tools (ToolSet_init "run-1" "/tmp/run-1"
                (Some [("enable_reflection", PBool false)]))
  = ["web_search"; "web_browse"; "batch_web_surfer"; "file_write"; "file_read";
     "todo"; "file_edit"].
Proof. reflexivity. Qed.

Example registry_by_default :
  list_tools (ToolSet_init "run-1" "/tmp/run-1" None)
  = ["web_search"; "web_browse"; "batch_web_surfer"; "file_write"; "file_read";
     "todo"; "file_edit"; "reflect"; "cross_validate"].
Proof. reflexivity. Qed.

(** The scenario of the specification: three short replies without tool
    calls or markers use up a budget of three steps; the run is not
    complete and the draft is the last reply. *)
Example budget_of_three_steps :
  exists s w,
    run (agent 3) "What is new?" (AgentState_init "run-1") None
      (start [says "Let me think."; says "Still thinking."; says "Nearly there.";
              says "Never asked for."] [])
    = Some (Returned tt, s, w)
    /\ step_count s = 3%Z /\ is_complete s = false
    /\ report_drafts s = ["Nearly there."] /\ error s = None
    /\ List.length (replies w) = 1%nat.
Proof. eexists. eexists. split; [vm_compute; reflexivity|]. repeat split. Qed.

(** The scenario of the specification: arguments that are not JSON are
    answered with the error text, and the loop goes on to step 2. *)
Example not_json_then_report :
  exists s w,
    run (agent 3) "What is new?" (AgentState_init "run-1") None
      (start [requests [bad_json_call]; says "<report>Done</report>"] [])
    = Some (Returned tt, s, w)
    /\ step_count s = 2%Z /\ is_complete s = true
    /\ report_drafts s = ["Done"] /\ error s = None
    /\ map (fun m => (role m, content m)) (skipn 2 (messages s))
       = [("assistant", None);
          ("tool", Some "Invalid JSON in tool arguments: not-json");
          ("assistant", Some "<report>Done</report>")].
Proof. eexists. eexists. split; [vm_compute; reflexivity|]. repeat split. Qed.

(** A tool call with null arguments ends the run with an error; the
    draft is empty-handed, as no assistant text was produced. *)
Example null_arguments_end_the_run :
  exists s w,
    run (agent 3) "What is new?" (AgentState_init "run-1") None
      (start [requests [null_arguments_call]; says "<report>Done</report>"] [])
    = Some (Returned tt, s, w)
    /\ step_count s = 1%Z /\ is_complete s = false
    /\ report_drafts s = []
    /\ error s = Some "the JSON object must be str, bytes or bytearray, not NoneType".
Proof. eexists. eexists. split; [vm_compute; reflexivity|]. repeat split. Qed.

(** [str] of values that are not a [str], and the late-run threshold
    where the floating-point product falls below the exact one. *)
Example str_of_values :
  py_repr (PList [PNone; PBool true; PInt (-3); PStr "a"]) = "[None, True, -3, 'a']"
  /\ py_repr (PDict [("k", PList [])]) = "{'k': []}".
Proof. split; reflexivity. Qed.

Example late_threshold_in_floats :
  float_threshold 63 90 = true /\ float_threshold 7 10 = false
  /\ float_threshold 35 50 = false /\ float_threshold 36 50 = true.
Proof. repeat split; vm_compute; reflexivity. Qed.

End Examples.
